(** * docker-cr: checkpoint/restore orchestration and mount reconciliation

    A shallow embedding of the Go packages [pkg/utils], [pkg/docker],
    [pkg/checkpoint] and [pkg/restore] of docker-cr, with the properties its
    design document states about them.

    Go strings are byte sequences and are modelled as [string]; a Go slice is
    a [list]; a Go [error] is [nil] or carries its message. Of the standard
    library, [encoding/json] is rendered at the type of the mount mappings,
    byte for byte; the operating system, the container engine and CRIU are
    the parameters of a class. *)

From Stdlib Require Import String Ascii List ZArith Lia Bool.
From stdpp Require Import gmap strings list pretty.
Import ListNotations.
Local Open Scope string_scope.
Local Open Scope list_scope.

(** ** Go values *)

(** A Go [error]: [nil], or a value whose [Error()] is the message. Every
    error of these packages is made by [fmt.Errorf], and none is inspected
    other than through its message. *)
Inductive error := nil | mkError (msg : string).

Definition Error (e : error) : string :=
  match e with nil => "" | mkError msg => msg end.

Definition isErr (e : error) : bool :=
  match e with nil => false | mkError _ => true end.

(** A Go result pair [(v, err)] in which exactly one side is meaningful. *)
Inductive result (T : Type) := Ok (v : T) | Fail (msg : string).
Arguments Ok {T} v.
Arguments Fail {T} msg.

(** [int32(x)]: conversion with wrap-around. *)
Definition int32 (x : Z) : Z := ((x + 2 ^ 31) mod 2 ^ 32 - 2 ^ 31)%Z.

(** [uint32] values. *)
Definition uint32 (x : Z) : Z := (x mod 2 ^ 32)%Z.

(** The line feed of ["\n"] in a Go string literal. *)
Definition LF : string := String (ascii_of_nat 10) EmptyString.

(** [len(s) != 0] for a Go string, as the source writes [s != ""]. *)
Definition nonEmpty (s : string) : bool :=
  match s with EmptyString => false | String _ _ => true end.

(** One iteration scheme for
    [for _, x := range xs { if c(x) { acc = append(acc, f(x)) } }]. *)
Definition appendWhen {A B} (c : A -> bool) (f : A -> B) (acc : list B) (x : A) : list B :=
  if c x then acc ++ [f x] else acc.

Module strings.
(** [strings.HasPrefix(s, prefix)]: a test on the bytes of [s]. *)
Definition HasPrefix (s pre : string) : bool := String.prefix pre s.

(** [strings.Join(elems, sep)]. *)
Fixpoint Join (elems : list string) (sep : string) : string :=
  match elems with
  | [] => ""
  | [e] => e
  | e :: es => e +:+ sep +:+ Join es sep
  end.

(** [strings.TrimPrefix(s, "/")]. *)
Definition TrimSlash (s : string) : string :=
  match s with
  | String "/" s' => s'
  | _ => s
  end.

(** [strings.SplitN(s, "=", 2)]: [Some (k, v)] when [s] has a [=], the
    split being at the first one; [None] when the result has one part. *)
Fixpoint SplitEq (s : string) : option (string * string) :=
  match s with
  | EmptyString => None
  | String "=" s' => Some ("", s')
  | String c s' =>
      match SplitEq s' with
      | Some (k, v) => Some (String c k, v)
      | None => None
      end
  end.
End strings.

Module fmt.
(** The verb [%d] on an [int]. *)
Definition d (n : Z) : string := pretty n.
(** The verb [%v] on a [[]string]. *)
Definition vStrings (l : list string) : string := "[" +:+ strings.Join l " " +:+ "]".
End fmt.

(** ** External declarations used by the packages

    The Docker API types, the CRIU RPC options and [time.Time] are declared
    by the modules this repository imports; they are given here with the
    fields the packages read or write and a selection of the others. A Go
    composite literal leaves every field it does not name at its zero
    value, whichever fields the struct has. *)

Module time.
(** An instant; the packages only store and pass it on. *)
Record Time := mkTime { UnixNano : Z }.
End time.

Module container.

(** [container.RestartPolicy]. *)
Record RestartPolicy := mkRestartPolicy {
  rpName : string;
  MaximumRetryCount : Z
}.

(** [container.DeviceMapping]. *)
Record DeviceMapping := mkDeviceMapping {
  PathOnHost : string;
  PathInContainer : string;
  CgroupPermissions : string
}.

(** [container.Resources], the struct embedded in [HostConfig]; its fields
    are promoted, so that Go code reads [hostConfig.Memory],
    [hostConfig.CgroupParent] or [hostConfig.Devices]. *)
Record Resources := mkResources {
  CPUShares : Z;
  Memory : Z;
  NanoCPUs : Z;
  CgroupParent : string;
  CpusetCpus : string;
  Devices : list DeviceMapping;
  DeviceCgroupRules : list string;
  PidsLimit : option Z
}.

Definition zeroResources : Resources :=
  mkResources 0 0 0 "" "" [] [] None.

(** [nat.PortBinding]. *)
Record PortBinding := mkPortBinding { HostIP : string; HostPort : string }.

(** [container.HostConfig]. *)
Record HostConfig := mkHostConfig {
  Binds : list string;
  NetworkMode : string;
  PortBindings : gmap string (list PortBinding);
  RestartPolicy_ : RestartPolicy;
  AutoRemove : bool;
  VolumesFrom : list string;
  CapAdd : list string;
  CapDrop : list string;
  DNS : list string;
  ExtraHosts : list string;
  IpcMode : string;
  PidMode : string;
  Privileged : bool;
  ReadonlyRootfs : bool;
  SecurityOpt : list string;
  Runtime : string;
  Resources_ : Resources
}.

(** [container.Config]. *)
Record Config := mkConfig {
  Hostname : string;
  Domainname : string;
  User : string;
  AttachStdin : bool;
  AttachStdout : bool;
  AttachStderr : bool;
  ExposedPorts : gset string;
  Tty : bool;
  OpenStdin : bool;
  StdinOnce : bool;
  Env : list string;
  Cmd : list string;
  Image : string;
  Volumes : gset string;
  WorkingDir : string;
  Entrypoint : list string;
  Labels : gmap string string;
  StopSignal : string
}.

End container.

Module network.
(** [network.EndpointSettings]. *)
Record EndpointSettings := mkEndpointSettings {
  NetworkID : string;
  EndpointID : string;
  Gateway : string;
  IPAddress : string;
  MacAddress : string
}.
End network.

Module types.
(** [types.MountPoint]. *)
Record MountPoint := mkMountPoint {
  mpType : string;
  mpName : string;
  Source : string;
  Destination : string;
  Driver : string;
  Mode : string;
  RW : bool;
  Propagation : string
}.

(** [types.ContainerJSON], as the daemon answers an inspect request. *)
Record ContainerJSON := mkContainerJSON {
  cjID : string;
  cjName : string;
  cjCreated : string;
  StateRunning : bool;
  StatePid : Z;
  cjConfig : container.Config;
  cjHostConfig : container.HostConfig;
  Networks : gmap string network.EndpointSettings;
  cjMounts : list MountPoint;
  GraphDriverData : gmap string string
}.
End types.

Module rpc.
(** [rpc.CriuCgMode]. *)
Inductive CriuCgMode := CgIGNORE | CgNONE | CgPROPS | CgSOFT | CgFULL | CgSTRICT | CgDEFAULT.

(** [rpc.CriuOpts]: a protobuf message, every scalar field optional. *)
Record CriuOpts := mkCriuOpts {
  ImagesDirFd : option Z;
  Pid : option Z;
  LeaveRunning : option bool;
  ExtUnixSk : option bool;
  TcpEstablished : option bool;
  ShellJob : option bool;
  FileLocks : option bool;
  LogLevel : option Z;
  LogFile : option string;
  WorkDirFd : option Z;
  RstSibling : option bool;
  ManageCgroups : option bool;
  TrackMem : option bool;
  External : list string;
  EmptyNs : option Z;
  ManageCgroupsMode : option CriuCgMode;
  GhostLimit : option Z
}.

(** The message with no field set, [&rpc.CriuOpts{}]. *)
Definition zero : CriuOpts :=
  mkCriuOpts None None None None None None None None None None None None None [] None None None.

(** Assignments to single fields, [o.F = v]. *)
Definition setWorkDirFd (v : option Z) (o : CriuOpts) : CriuOpts :=
  mkCriuOpts (ImagesDirFd o) (Pid o) (LeaveRunning o) (ExtUnixSk o) (TcpEstablished o)
    (ShellJob o) (FileLocks o) (LogLevel o) (LogFile o) v (RstSibling o)
    (ManageCgroups o) (TrackMem o) (External o) (EmptyNs o) (ManageCgroupsMode o) (GhostLimit o).
Definition setImagesDirFd (v : option Z) (o : CriuOpts) : CriuOpts :=
  mkCriuOpts v (Pid o) (LeaveRunning o) (ExtUnixSk o) (TcpEstablished o)
    (ShellJob o) (FileLocks o) (LogLevel o) (LogFile o) (WorkDirFd o) (RstSibling o)
    (ManageCgroups o) (TrackMem o) (External o) (EmptyNs o) (ManageCgroupsMode o) (GhostLimit o).
Definition setTrackMem (v : option bool) (o : CriuOpts) : CriuOpts :=
  mkCriuOpts (ImagesDirFd o) (Pid o) (LeaveRunning o) (ExtUnixSk o) (TcpEstablished o)
    (ShellJob o) (FileLocks o) (LogLevel o) (LogFile o) (WorkDirFd o) (RstSibling o)
    (ManageCgroups o) v (External o) (EmptyNs o) (ManageCgroupsMode o) (GhostLimit o).
Definition setTcpEstablished (v : option bool) (o : CriuOpts) : CriuOpts :=
  mkCriuOpts (ImagesDirFd o) (Pid o) (LeaveRunning o) (ExtUnixSk o) v
    (ShellJob o) (FileLocks o) (LogLevel o) (LogFile o) (WorkDirFd o) (RstSibling o)
    (ManageCgroups o) (TrackMem o) (External o) (EmptyNs o) (ManageCgroupsMode o) (GhostLimit o).
Definition setExternal (v : list string) (o : CriuOpts) : CriuOpts :=
  mkCriuOpts (ImagesDirFd o) (Pid o) (LeaveRunning o) (ExtUnixSk o) (TcpEstablished o)
    (ShellJob o) (FileLocks o) (LogLevel o) (LogFile o) (WorkDirFd o) (RstSibling o)
    (ManageCgroups o) (TrackMem o) v (EmptyNs o) (ManageCgroupsMode o) (GhostLimit o).
End rpc.

(** ** Package docker: data model *)

Module docker.

(** [type MountMapping struct] of pkg/docker/manager.go. *)
Record MountMapping := mkMountMapping {
  ContainerPath : string;
  HostPath      : string;
  Type_         : string;
  Options       : string;
  IsExternal    : bool;
  ReadOnly      : bool
}.

(** [type ContainerState struct] of pkg/docker/manager.go. [Config] and
    [HostConfig] are pointers. *)
Record ContainerState := mkContainerState {
  ID            : string;
  Name          : string;
  Image         : string;
  Config        : option container.Config;
  HostConfig    : option container.HostConfig;
  NetworkConfig : gmap string network.EndpointSettings;
  Mounts        : list types.MountPoint;
  ProcessPID    : Z;
  Created       : time.Time;
  RootFS        : string;
  Runtime       : string;
  BundlePath    : string;
  CgroupPath    : string;
  Namespaces    : gmap string string;
  Environment   : gmap string string;
  Labels        : gmap string string
}.

End docker.
Import docker.

(** ** The host: operating system, container runtime, snapshot engine

    What the packages call outside themselves. Reading the file system
    ([os.Stat], [os.ReadFile], [os.ReadDir], [os.Open]) observes the current
    world; every other call may change it. *)

(** The result of [os.Stat]: the error satisfies [os.IsNotExist]; or there
    is another error (the returned [FileInfo] is nil in both cases); or
    there is a [FileInfo], of which [IsDir()] is kept. *)
Inductive StatResult := StatNotExist | StatFailed | StatInfo (isDir : bool).

(** [os.FileInfo], of which [Name()] and [Size()] are read. *)
Record FileInfo := mkFileInfo { fiName : string; fiSize : Z }.

Class Host := {
  world : Type;
  (* os and path/filepath *)
  os_Stat : world -> string -> StatResult;
  os_ReadFile : world -> string -> result string;
  (* an entry is [None] when its [Info()] fails *)
  os_ReadDir : world -> string -> result (list (option FileInfo));
  (* the descriptor [Fd()] of the opened file *)
  os_Open : world -> string -> result Z;
  os_MkdirAll : world -> string -> Z -> world * error;
  os_WriteFile : world -> string -> string -> Z -> world * error;
  filepath_Join : list string -> string;
  filepath_Dir : string -> string;
  (* the order in which one [range] over a Go map visits its entries *)
  rangeOrder : world -> list (string * string) -> list (string * string);
  (* time *)
  time_ParseRFC3339Nano : string -> result time.Time;
  time_Now : world -> time.Time;
  (* the Docker client *)
  client_ContainerInspect : world -> string -> world * result types.ContainerJSON;
  client_ContainerCreate :
    world -> container.Config -> container.HostConfig -> string -> world * result string;
  client_ContainerStart : world -> string -> world * error;
  client_ContainerStop : world -> string -> option Z -> world * error;
  (* [ContainerLogs] followed by one [Read] into a buffer of 4096 bytes *)
  client_ContainerLogs : world -> string -> string -> world * result string;
  (* go-criu *)
  criu_PreDump : world -> rpc.CriuOpts -> world * error;
  criu_Dump : world -> rpc.CriuOpts -> world * error;
  criu_Restore : world -> rpc.CriuOpts -> world * error;
  (* [exec.Command(name, args...)] with [Dir] set, run by [CombinedOutput] *)
  exec_CombinedOutput : world -> string -> list string -> string -> world * (string * error)
}.

(** logrus levels used by the packages. *)
Inductive Level := DebugLevel | InfoLevel | WarnLevel | ErrorLevel.

(** What a run does to its surroundings, in order: every call that may
    change the world, with its answer, and every line handed to the logger. *)
Inductive Event :=
| EvLog (lvl : Level) (msg : string)
| EvMkdirAll (path : string) (perm : Z) (r : error)
| EvWriteFile (path data : string) (perm : Z) (r : error)
| EvContainerInspect (name : string) (r : result types.ContainerJSON)
| EvContainerCreate (config : container.Config) (hostConfig : container.HostConfig)
                    (name : string) (r : result string)
| EvContainerStart (id : string) (r : error)
| EvContainerStop (id : string) (timeout : option Z) (r : error)
| EvContainerLogs (id tail : string) (r : result string)
| EvPreDump (opts : rpc.CriuOpts) (r : error)
| EvDump (opts : rpc.CriuOpts) (r : error)
| EvRestore (opts : rpc.CriuOpts) (r : error)
| EvExec (name : string) (args : list string) (dir : string) (output : string) (r : error).

(** Every event counts. *)
Definition allEvents (e : Event) : bool := true.

(** The engine restore call that succeeded. *)
Definition restoreSucceeded (e : Event) : bool :=
  match e with
  | EvRestore _ nil => true
  | _ => false
  end.

(** What a trace holds after the first engine restore call that
    succeeded, if there is one. *)
Fixpoint afterRestore (tr : list Event) : option (list Event) :=
  match tr with
  | [] => None
  | e :: rest => if restoreSucceeded e then Some rest else afterRestore rest
  end.

(** How a Go call ends: it returns, or it panics. *)
Inductive Outcome (A : Type) := Done (a : A) | Panicked.
Arguments Done {A} a.
Arguments Panicked {A}.

Section Run.
Context `{Host}.

Record State := mkState { now : world; trace : list Event }.

(** A Go function body: from the state at the call to its outcome and the
    state it leaves. *)
Definition M (A : Type) : Type := State -> Outcome A * State.

#[export] Instance M_ret : MRet M := fun A a s => (Done a, s).

#[export] Instance M_bind : MBind M := fun A B k m s =>
  match m s with
  | (Done a, s') => k a s'
  | (Panicked, s') => (Panicked, s')
  end.

Definition panic {A} : M A := fun s => (Panicked, s).

(** A read of the world. *)
Definition observe {A} (f : world -> A) : M A := fun s => (Done (f (now s)), s).

(** A call that may change the world; [ev] is its record in the trace. *)
Definition invoke {A} (f : world -> world * A) (ev : A -> Event) : M A := fun s =>
  let '(w, a) := f (now s) in (Done a, mkState w (trace s ++ [ev a])).

Definition log (lvl : Level) (msg : string) : M unit := fun s =>
  (Done tt, mkState (now s) (trace s ++ [EvLog lvl msg])).

(** [for _, x := range xs { body }] where [body] may [return r]: the loop
    yields [Some r] at the first iteration that returns. *)
Fixpoint forRange {A R} (xs : list A) (body : A -> M (option R)) : M (option R) :=
  match xs with
  | [] => mret None
  | x :: xs' =>
      r ← body x;
      match r with
      | Some v => mret (Some v)
      | None => forRange xs' body
      end
  end.

(** [for _, x := range xs { body }] where [body] updates local variables
    [acc] and never leaves the loop early. *)
Fixpoint foldRange {A S} (xs : list A) (body : S -> A -> M S) (acc : S) : M S :=
  match xs with
  | [] => mret acc
  | x :: xs' => acc' ← body acc x; foldRange xs' body acc'
  end.

(** [s[:n]] on a string: panics when [n > len(s)]. *)
Definition sliceTo (n : nat) (s : string) : M string :=
  if (n <=? String.length s)%nat then mret (substring 0 n s) else panic.

(** The events a run from world [w] produces, and its outcome. *)
Definition run {A} (m : M A) (w : world) : Outcome A * State := m (mkState w []).

(** [emits m Q]: from every state, [m] only appends events to the trace,
    and [Q] holds of its outcome and of the events it appended. *)
Definition emits {A} (m : M A) (Q : Outcome A -> list Event -> Prop) : Prop :=
  forall s, exists new, trace (m s).2 = trace s ++ new /\ Q (m s).1 new.

(** [only p m]: every event [m] appends satisfies [p]. *)
Definition only {A} (p : Event -> bool) (m : M A) : Prop :=
  emits m (fun _ new => Forall (fun e => p e = true) new).

(** [calm p m]: moreover [m] does not panic. *)
Definition calm {A} (p : Event -> bool) (m : M A) : Prop :=
  emits m (fun o new => Forall (fun e => p e = true) new /\ o <> Panicked).

(** [emitsCalls q m pre Q]: [Q] holds of the outcome of [m] and of [pre]
    followed by the events satisfying [q] that [m] appends. *)
Definition emitsCalls {A} (q : Event -> bool) (m : M A) (pre : list Event)
    (Q : Outcome A -> list Event -> Prop) : Prop :=
  emits m (fun o new => Q o (pre ++ List.filter q new)).

(** [emitsAfterRestore m Q]: [Q] holds of the outcome of [m] and of what
    the events it appends hold after the engine restore call that
    succeeded. *)
Definition emitsAfterRestore {A} (m : M A) (Q : Outcome A -> option (list Event) -> Prop) : Prop :=
  emits m (fun o new => Q o (afterRestore new)).

(** What the operating system guarantees of [os.MkdirAll]: when it returns
    nil the path is a directory, and it removes nothing. *)
Class FileSystemLaws : Prop := {
  MkdirAll_creates : forall w path perm w',
    os_MkdirAll w path perm = (w', nil) -> os_Stat w' path = StatInfo true;
  MkdirAll_keeps : forall w path perm w' err q,
    os_MkdirAll w path perm = (w', err) ->
    os_Stat w q <> StatNotExist -> os_Stat w' q <> StatNotExist
}.

(** What the operating system guarantees of [os.WriteFile] to a process
    that may read what it wrote: after it returns nil the file exists and
    holds the data. *)
Class WriteReadLaws : Prop := {
  WriteFile_stores : forall w path data perm w',
    os_WriteFile w path data perm = (w', nil) ->
    os_ReadFile w' path = Ok data /\ os_Stat w' path <> StatNotExist
}.



End Run.

(** ** Package utils (pkg/utils/file.go) *)

Module utils.

(** The permission bits [0755] and [0644]. *)
Definition perm0755 : Z := 493.
Definition perm0644 : Z := 420.

Section utils.
Context `{Host}.

Definition FileExists (filePath : string) : M bool :=
  st ← observe (fun w => os_Stat w filePath);
  mret (match st with StatNotExist => false | _ => true end).

(** [!os.IsNotExist(err) && info.IsDir()]: with an error other than
    not-exist, [info] is nil and the call of [IsDir] panics. *)
Definition DirExists (dirPath : string) : M bool :=
  st ← observe (fun w => os_Stat w dirPath);
  match st with
  | StatNotExist => mret false
  | StatFailed => panic
  | StatInfo isDir => mret isDir
  end.

Definition EnsureDir (dirPath : string) : M error :=
  exists_ ← DirExists dirPath;
  if negb exists_ then
    err ← invoke (fun w => os_MkdirAll w dirPath perm0755) (EvMkdirAll dirPath perm0755);
    match err with
    | mkError msg => mret (mkError ("failed to create directory " +:+ dirPath +:+ ": " +:+ msg))
    | nil => mret nil
    end
  else mret nil.

Definition WriteFile (filePath data : string) : M error :=
  let dir := filepath_Dir filePath in
  err ← invoke (fun w => os_MkdirAll w dir perm0755) (EvMkdirAll dir perm0755);
  match err with
  | mkError msg => mret (mkError ("failed to create directory " +:+ dir +:+ ": " +:+ msg))
  | nil =>
      err ← invoke (fun w => os_WriteFile w filePath data perm0644) (EvWriteFile filePath data perm0644);
      match err with
      | mkError msg => mret (mkError ("failed to write file " +:+ filePath +:+ ": " +:+ msg))
      | nil => mret nil
      end
  end.

Definition ReadFile (filePath : string) : M (result string) :=
  r ← observe (fun w => os_ReadFile w filePath);
  match r with
  | Fail msg => mret (Fail ("failed to read file " +:+ filePath +:+ ": " +:+ msg))
  | Ok data => mret (Ok data)
  end.

Definition ListFiles (dirPath : string) : M (result (list FileInfo)) :=
  r ← observe (fun w => os_ReadDir w dirPath);
  match r with
  | Fail msg => mret (Fail ("failed to read directory " +:+ dirPath +:+ ": " +:+ msg))
  | Ok entries => mret (Ok (omap id entries))
  end.

(** The condition [!utils.FileExists(p) && !utils.DirExists(p)] of the
    three loops over mount sources; [&&] does not evaluate its right side
    when the left one is false. *)
Definition neitherFileNorDir (p : string) : M bool :=
  isFile ← FileExists p;
  if (isFile : bool) then mret false
  else isDir ← DirExists p; mret (negb isDir).

End utils.
End utils.

(** ** Package checkpoint: declarations *)

Module checkpoint.

(** [type CheckpointOptions struct] of pkg/checkpoint/criu.go. *)
Record CheckpointOptions := mkCheckpointOptions {
  WorkDir        : string;
  ImagesDir      : string;
  LogFile        : string;
  LogLevel       : Z;
  External       : list string;
  ManageCgroups  : bool;
  TcpEstablished : bool;
  FileLocks      : bool;
  LeaveRunning   : bool;
  Shell          : bool;
  PreDump        : bool;
  TrackMem       : bool
}.

(** [type RestoreOptions struct] of pkg/checkpoint/criu.go. *)
Record RestoreOptions := mkRestoreOptions {
  rWorkDir        : string;
  rImagesDir      : string;
  rLogFile        : string;
  rLogLevel       : Z;
  rExternal       : list string;
  ExtMountMap     : list string;
  SkipMnt         : list string;
  PidFile         : string;
  rManageCgroups  : bool;
  rTcpEstablished : bool;
  RestoreSibling  : bool;
  rShell          : bool;
  EmptyNs         : Z
}.

(** [type CheckpointMetadata struct] of the checkpoint manager;
    [ContainerState] is a pointer. *)
Record CheckpointMetadata := mkCheckpointMetadata {
  ContainerState_ : option ContainerState;
  MountMappings   : list MountMapping;
  CheckpointPath  : string;
  CreatedAt       : string;
  Version         : string
}.

End checkpoint.

(** ** The standard library: unicode/utf8 and encoding/json

    What [json.MarshalIndent] and [json.Unmarshal] do at the type
    [[]docker.MountMapping]: strings are written coerced to valid UTF-8
    and with the escapes of HTML, and read back through the escapes of
    JSON. *)

Module utf8.

(** The value of a byte. *)
Definition byte (c : ascii) : N := N_of_ascii c.

Definition between (lo hi : N) (c : ascii) : bool := ((lo <=? byte c) && (byte c <=? hi))%N.

(** A continuation byte, [10xxxxxx]. *)
Definition continues (c : ascii) : bool := between 128 191 c.

(** The range of the second byte and the length of an encoding, by its
    first byte: the table of the package. *)
Definition secondRange (b0 : ascii) : option (N * N * nat) :=
  if between 194 223 b0 then Some (128, 191, 2%nat)%N
  else if (byte b0 =? 224)%N then Some (160, 191, 3%nat)%N
  else if between 225 236 b0 then Some (128, 191, 3%nat)%N
  else if (byte b0 =? 237)%N then Some (128, 159, 3%nat)%N
  else if between 238 239 b0 then Some (128, 191, 3%nat)%N
  else if (byte b0 =? 240)%N then Some (144, 191, 4%nat)%N
  else if between 241 243 b0 then Some (128, 191, 4%nat)%N
  else if (byte b0 =? 244)%N then Some (128, 143, 4%nat)%N
  else None.

(** [utf8.DecodeRuneInString], as far as its size result goes: the length
    of the well-formed encoding that begins [s]; [None] where the
    function returns [(RuneError, 1)] for ill-formed input. *)
Definition runeLen (s : string) : option nat :=
  match s with
  | EmptyString => None
  | String b0 r =>
      if (byte b0 <? 128)%N then Some 1%nat
      else
        match secondRange b0, r with
        | Some (lo, hi, n), String b1 r1 =>
            if between lo hi b1 then
              match n with
              | 2%nat => Some 2%nat
              | 3%nat =>
                  match r1 with
                  | String b2 _ => if continues b2 then Some 3%nat else None
                  | EmptyString => None
                  end
              | _ =>
                  match r1 with
                  | String b2 (String b3 _) =>
                      if continues b2 && continues b3 then Some 4%nat else None
                  | _ => None
                  end
              end
            else None
        | _, _ => None
        end
  end.

(** [utf8.ValidString]; [pending] bytes of the current encoding are still
    to be passed over. *)
Fixpoint validFrom (pending : nat) (s : string) : bool :=
  match s with
  | EmptyString => (pending =? 0)%nat
  | String c r =>
      match pending with
      | S k => validFrom k r
      | O =>
          match runeLen s with
          | Some n => validFrom (Nat.pred n) r
          | None => false
          end
      end
  end.

Definition ValidString (s : string) : bool := validFrom 0 s.

(** [utf8.AppendRune] on a code point. *)
Definition encodeRune (cp : N) : string :=
  let b (n : N) := String (ascii_of_N n) EmptyString in
  if (cp <? 128)%N then b cp
  else if (cp <? 2048)%N then
    b (192 + cp / 64)%N +:+ b (128 + cp mod 64)%N
  else if (cp <? 65536)%N then
    b (224 + cp / 4096)%N +:+ b (128 + (cp / 64) mod 64)%N +:+ b (128 + cp mod 64)%N
  else
    b (240 + cp / 262144)%N +:+ b (128 + (cp / 4096) mod 64)%N
      +:+ b (128 + (cp / 64) mod 64)%N +:+ b (128 + cp mod 64)%N.

(** U+FFFD, the replacement character. *)
Definition RuneError : N := 65533.

End utf8.

Module json.

Definition dquote : ascii := ascii_of_nat 34.
Definition backslash : ascii := ascii_of_nat 92.
Definition quoteMark : string := String dquote EmptyString.

(** The digit [hex[n]] of the encoder. *)
Definition hex (n : N) : ascii :=
  match String.get (N.to_nat n) "0123456789abcdef" with
  | Some c => c
  | None => "0"%char
  end.

(** The value of a hexadecimal digit, of either case. *)
Definition unhex (c : ascii) : option N :=
  let x := utf8.byte c in
  if utf8.between 48 57 c then Some (x - 48)%N
  else if utf8.between 97 102 c then Some (x - 87)%N
  else if utf8.between 65 70 c then Some (x - 55)%N
  else None.

(** [htmlSafeSet]: the ASCII bytes the encoder copies as they are. *)
Definition htmlSafe (c : ascii) : bool :=
  utf8.between 32 127 c &&
  negb (Ascii.eqb c dquote || Ascii.eqb c backslash ||
        Ascii.eqb c "<" || Ascii.eqb c ">" || Ascii.eqb c "&").

(** What the encoder writes for an ASCII byte outside [htmlSafeSet].
    Releases before 1.22 write [\u0008] and [\u000c] for the backspace
    and the form feed; the decoder reads both forms alike. *)
Definition escapeByte (c : ascii) : string :=
  let esc (e : ascii) := String backslash (String e EmptyString) in
  if Ascii.eqb c backslash || Ascii.eqb c dquote then esc c
  else if (utf8.byte c =? 8)%N then esc "b"%char
  else if (utf8.byte c =? 12)%N then esc "f"%char
  else if (utf8.byte c =? 10)%N then esc "n"%char
  else if (utf8.byte c =? 13)%N then esc "r"%char
  else if (utf8.byte c =? 9)%N then esc "t"%char
  else String backslash
         (String "u" (String "0" (String "0"
            (String (hex (utf8.byte c / 16)) (String (hex (utf8.byte c mod 16)) EmptyString))))).

(** The last digit of the escape of U+2028 or U+2029, when [s] begins
    with one of them. *)
Definition lineSeparator (s : string) : option ascii :=
  match s with
  | String b0 (String b1 (String b2 _)) =>
      if (utf8.byte b0 =? 226)%N && (utf8.byte b1 =? 128)%N then
        if (utf8.byte b2 =? 168)%N then Some "8"%char
        else if (utf8.byte b2 =? 169)%N then Some "9"%char
        else None
      else None
  | _ => None
  end.

(** The body of [appendString] with HTML escaping, the quotes apart.
    [copy] bytes of the encoding at hand are still to be copied, or
    [drop] of them still to be passed over. *)
Fixpoint appendString (copy drop : nat) (s : string) : string :=
  match s with
  | EmptyString => EmptyString
  | String c r =>
      match copy, drop with
      | S k, _ => String c (appendString k 0 r)
      | O, S k => appendString 0 k r
      | O, O =>
          if (utf8.byte c <? 128)%N then
            if htmlSafe c then String c (appendString 0 0 r)
            else escapeByte c +:+ appendString 0 0 r
          else
            match utf8.runeLen s with
            | None =>
                String backslash (String "u" (String "f" (String "f" (String "f" (String "d"
                  (appendString 0 0 r))))))
            | Some n =>
                match lineSeparator s with
                | Some d =>
                    String backslash (String "u" (String "2" (String "0" (String "2" (String d
                      (appendString 0 2 r))))))
                | None => String c (appendString (Nat.pred n) 0 r)
                end
            end
      end
  end.

(** A Go string as a JSON string. *)
Definition quote (s : string) : string :=
  String dquote (appendString 0 0 s +:+ quoteMark).

Definition prepend (p : string) (o : option (string * string)) : option (string * string) :=
  match o with
  | Some (decoded, rest) => Some (p +:+ decoded, rest)
  | None => None
  end.

(** [getu4] on what follows the [u] of an escape. *)
Definition hex4 (s : string) : option N :=
  match s with
  | String a (String b (String c (String d _))) =>
      match unhex a, unhex b, unhex c, unhex d with
      | Some x, Some y, Some z, Some t => Some (x * 4096 + y * 256 + z * 16 + t)%N
      | _, _, _, _ => None
      end
  | _ => None
  end.

(** [utf16.IsSurrogate]. *)
Definition isSurrogate (cp : N) : bool := ((55296 <=? cp) && (cp <? 57344))%N.

(** [utf16.DecodeRune]. *)
Definition decodePair (r1 r2 : N) : N :=
  if ((55296 <=? r1) && (r1 <? 56320) && (56320 <=? r2) && (r2 <? 57344))%N
  then ((r1 - 55296) * 1024 + (r2 - 56320) + 65536)%N
  else utf8.RuneError.

(** The escape [\uXXXX] that may follow a high surrogate. *)
Definition getu4 (s : string) : option N :=
  match s with
  | String b (String u r) =>
      if Ascii.eqb b backslash && Ascii.eqb u "u" then hex4 r else None
  | _ => None
  end.

(** The byte a one-letter escape stands for. *)
Definition simpleEscape (e : ascii) : option ascii :=
  if Ascii.eqb e dquote || Ascii.eqb e backslash || Ascii.eqb e "/" then Some e
  else if Ascii.eqb e "b" then Some (ascii_of_nat 8)
  else if Ascii.eqb e "f" then Some (ascii_of_nat 12)
  else if Ascii.eqb e "n" then Some (ascii_of_nat 10)
  else if Ascii.eqb e "r" then Some (ascii_of_nat 13)
  else if Ascii.eqb e "t" then Some (ascii_of_nat 9)
  else None.

Definition skip4 (s : string) : string :=
  match s with
  | String _ (String _ (String _ (String _ r))) => r
  | _ => EmptyString
  end.

(** [unquote] behind the opening quote: the string the literal stands
    for, and what follows its closing quote. *)
Fixpoint unquoteFrom (copy drop : nat) (s : string) : option (string * string) :=
  match s with
  | EmptyString => None
  | String c r =>
      match copy, drop with
      | S k, _ => prepend (String c EmptyString) (unquoteFrom k 0 r)
      | O, S k => unquoteFrom 0 k r
      | O, O =>
          if Ascii.eqb c dquote then Some (EmptyString, r)
          else if Ascii.eqb c backslash then
            match r with
            | EmptyString => None
            | String e r' =>
                match simpleEscape e with
                | Some b => prepend (String b EmptyString) (unquoteFrom 0 1 r)
                | None =>
                    if Ascii.eqb e "u" then
                      match hex4 r' with
                      | None => None
                      | Some rr =>
                          if isSurrogate rr then
                            match getu4 (skip4 r') with
                            | Some rr1 =>
                                if (decodePair rr rr1 =? utf8.RuneError)%N
                                then prepend (utf8.encodeRune utf8.RuneError) (unquoteFrom 0 5 r)
                                else prepend (utf8.encodeRune (decodePair rr rr1))
                                             (unquoteFrom 0 11 r)
                            | None => prepend (utf8.encodeRune utf8.RuneError) (unquoteFrom 0 5 r)
                            end
                          else prepend (utf8.encodeRune rr) (unquoteFrom 0 5 r)
                      end
                    else None
                end
            end
          else if (utf8.byte c <? 32)%N then None
          else if (utf8.byte c <? 128)%N then prepend (String c EmptyString) (unquoteFrom 0 0 r)
          else
            match utf8.runeLen s with
            | None => prepend (utf8.encodeRune utf8.RuneError) (unquoteFrom 0 0 r)
            | Some n => prepend (String c EmptyString) (unquoteFrom (Nat.pred n) 0 r)
            end
      end
  end.

(** A JSON string literal at the head of [s]. *)
Definition parseString (s : string) : option (string * string) :=
  match s with
  | String c r => if Ascii.eqb c dquote then unquoteFrom 0 0 r else None
  | EmptyString => None
  end.

(** A JSON text, parsed. A number is kept as written. *)
#[warnings="-register-all"]
Inductive Value :=
| Null
| Bool (b : bool)
| Number (literal : string)
| Str (s : string)
| Array (elements : list Value)
| Object (members : list (string * Value)).

Definition isSpace (c : ascii) : bool :=
  Ascii.eqb c " " || (utf8.byte c =? 9)%N || (utf8.byte c =? 10)%N || (utf8.byte c =? 13)%N.

Fixpoint skipSpace (s : string) : string :=
  match s with
  | String c r => if isSpace c then skipSpace r else s
  | EmptyString => EmptyString
  end.

(** [s] without the prefix [word], when it has it. *)
Fixpoint stripPrefix (word s : string) : option string :=
  match word, s with
  | EmptyString, _ => Some s
  | String a word', String b s' => if Ascii.eqb a b then stripPrefix word' s' else None
  | String _ _, EmptyString => None
  end.

Definition isDigit (c : ascii) : bool := utf8.between 48 57 c.

(** The digits that begin [s], and what follows them. *)
Fixpoint digits (s : string) : string * string :=
  match s with
  | String c r =>
      if isDigit c then let '(ds, rest) := digits r in (String c ds, rest) else (EmptyString, s)
  | EmptyString => (EmptyString, EmptyString)
  end.

(** A JSON number at the head of [s]: sign, integer part without a
    leading zero, fraction, exponent. *)
Definition parseNumber (s : string) : option (string * string) :=
  let '(sign, s1) :=
    match s with
    | String "-" r => ("-", r)
    | _ => (EmptyString, s)
    end in
  let '(int, s2) := digits s1 in
  match int with
  | EmptyString => None
  | String d more =>
      if Ascii.eqb d "0" && negb (String.eqb more EmptyString) then None
      else
        let frac :=
          match s2 with
          | String "." r =>
              let '(fs, s3) := digits r in
              match fs with
              | EmptyString => None
              | _ => Some ("." +:+ fs, s3)
              end
          | _ => Some (EmptyString, s2)
          end in
        match frac with
        | None => None
        | Some (fs, s3) =>
            let exp :=
              match s3 with
              | String e r =>
                  if Ascii.eqb e "e" || Ascii.eqb e "E" then
                    let '(sg, r1) :=
                      match r with
                      | String "+" r1 => ("+", r1)
                      | String "-" r1 => ("-", r1)
                      | _ => (EmptyString, r)
                      end in
                    let '(es, s4) := digits r1 in
                    match es with
                    | EmptyString => None
                    | _ => Some (String e (sg +:+ es), s4)
                    end
                  else Some (EmptyString, s3)
              | EmptyString => Some (EmptyString, s3)
              end in
            match exp with
            | None => None
            | Some (es, s4) => Some (sign +:+ int +:+ fs +:+ es, s4)
            end
        end
  end.

(** The arrays and objects the scanner lets enclose one another. *)
Definition maxNestingDepth : N := 10000.

(** The parser. [fuel] bounds the number of values, elements and members
    read; [depth] arrays and objects enclose the value at hand. *)
Fixpoint parseValue (fuel : nat) (depth : N) (s : string) : option (Value * string) :=
  match fuel with
  | O => None
  | S fuel =>
      match skipSpace s with
      | EmptyString => None
      | String c r =>
          if Ascii.eqb c "[" then
            if (maxNestingDepth <=? depth)%N then None
            else
              match skipSpace r with
              | String "]" r' => Some (Array [], r')
              | _ =>
                  match parseElements fuel (N.succ depth) r with
                  | Some (vs, r') => Some (Array vs, r')
                  | None => None
                  end
              end
          else if Ascii.eqb c "{" then
            if (maxNestingDepth <=? depth)%N then None
            else
              match skipSpace r with
              | String "}" r' => Some (Object [], r')
              | _ =>
                  match parseMembers fuel (N.succ depth) r with
                  | Some (ms, r') => Some (Object ms, r')
                  | None => None
                  end
              end
          else if Ascii.eqb c dquote then
            match parseString (String c r) with
            | Some (str, r') => Some (Str str, r')
            | None => None
            end
          else
            match stripPrefix "true" (String c r), stripPrefix "false" (String c r),
                  stripPrefix "null" (String c r) with
            | Some r', _, _ => Some (Bool true, r')
            | _, Some r', _ => Some (Bool false, r')
            | _, _, Some r' => Some (Null, r')
            | None, None, None =>
                match parseNumber (String c r) with
                | Some (lit, r') => Some (Number lit, r')
                | None => None
                end
            end
      end
  end
with parseElements (fuel : nat) (depth : N) (s : string) : option (list Value * string) :=
  match fuel with
  | O => None
  | S fuel =>
      match parseValue fuel depth s with
      | None => None
      | Some (v, r) =>
          match skipSpace r with
          | String c r' =>
              if Ascii.eqb c "," then
                match parseElements fuel depth r' with
                | Some (vs, r'') => Some (v :: vs, r'')
                | None => None
                end
              else if Ascii.eqb c "]" then Some ([v], r')
              else None
          | EmptyString => None
          end
      end
  end
with parseMembers (fuel : nat) (depth : N) (s : string)
    : option (list (string * Value) * string) :=
  match fuel with
  | O => None
  | S fuel =>
      match parseString (skipSpace s) with
      | None => None
      | Some (key, r) =>
          match skipSpace r with
          | String ":" r1 =>
              match parseValue fuel depth r1 with
              | None => None
              | Some (v, r2) =>
                  match skipSpace r2 with
                  | String c r3 =>
                      if Ascii.eqb c "," then
                        match parseMembers fuel depth r3 with
                        | Some (ms, r4) => Some ((key, v) :: ms, r4)
                        | None => None
                        end
                      else if Ascii.eqb c "}" then Some ([(key, v)], r3)
                      else None
                  | EmptyString => None
                  end
              end
          | _ => None
          end
      end
  end.

(** A whole JSON text: one value, and nothing but space after it. The
    fuel is more than a text of that length can use. *)
Definition parse (data : string) : option Value :=
  match parseValue (S (2 * String.length data)) 0 data with
  | Some (v, rest) =>
      match skipSpace rest with
      | EmptyString => Some v
      | String _ _ => None
      end
  | None => None
  end.

(** ** The codec of [[]docker.MountMapping] *)

Definition boolLiteral (b : bool) : string := if b then "true" else "false".

(** One member of an object of the second level, as [Indent] lays it
    out. *)
Definition member (name value : string) : string :=
  "    " +:+ quote name +:+ ": " +:+ value.

(** A [MountMapping] as [MarshalIndent] writes it inside the array:
    the fields in the order of the struct, under the names of their
    tags. *)
Definition marshalMapping (m : MountMapping) : string :=
  "{" +:+ LF +:+
  member "container_path" (quote (ContainerPath m)) +:+ "," +:+ LF +:+
  member "host_path" (quote (HostPath m)) +:+ "," +:+ LF +:+
  member "type" (quote (Type_ m)) +:+ "," +:+ LF +:+
  member "options" (quote (Options m)) +:+ "," +:+ LF +:+
  member "is_external" (boolLiteral (IsExternal m)) +:+ "," +:+ LF +:+
  member "read_only" (boolLiteral (ReadOnly m)) +:+ LF +:+
  "  }".

Fixpoint marshalElements (ms : list MountMapping) : string :=
  match ms with
  | [] => EmptyString
  | [m] => "  " +:+ marshalMapping m +:+ LF
  | m :: ms' => "  " +:+ marshalMapping m +:+ "," +:+ LF +:+ marshalElements ms'
  end.

(** [json.MarshalIndent(mappings, "", "  ")]. The empty list is the nil
    slice. No value of the type makes the encoder fail. *)
Definition MarshalIndent_mappings (mappings : list MountMapping) : result string :=
  match mappings with
  | [] => Ok "null"
  | _ => Ok ("[" +:+ LF +:+ marshalElements mappings +:+ "]")
  end.

Inductive Field :=
  FContainerPath | FHostPath | FType | FOptions | FIsExternal | FReadOnly.

Definition fields : list (string * Field) :=
  [("container_path", FContainerPath); ("host_path", FHostPath); ("type", FType);
   ("options", FOptions); ("is_external", FIsExternal); ("read_only", FReadOnly)].

(** [foldName]: a name up to Unicode case folding. Beside the ASCII
    letters, U+017F folds with [S] and U+212A with [K]. *)
Fixpoint foldName (s : string) : string :=
  match s with
  | EmptyString => EmptyString
  | String c r =>
      if utf8.between 97 122 c then String (ascii_of_N (utf8.byte c - 32)) (foldName r)
      else
        match r with
        | String c1 r1 =>
            if (utf8.byte c =? 197)%N && (utf8.byte c1 =? 191)%N then String "S" (foldName r1)
            else
              match r1 with
              | String c2 r2 =>
                  if (utf8.byte c =? 226)%N && (utf8.byte c1 =? 132)%N
                     && (utf8.byte c2 =? 170)%N
                  then String "K" (foldName r2)
                  else String c (foldName r)
              | EmptyString => String c (foldName r)
              end
        | EmptyString => String c EmptyString
        end
  end.

Fixpoint lookupBy (same : string -> string -> bool) (key : string)
    (l : list (string * Field)) : option Field :=
  match l with
  | [] => None
  | (name, f) :: l' => if same key name then Some f else lookupBy same key l'
  end.

(** The field a key of the object stands for: the one of that name, or
    else the one of that name up to case. *)
Definition findField (key : string) : option Field :=
  match lookupBy String.eqb key fields with
  | Some f => Some f
  | None => lookupBy (fun k name => String.eqb (foldName k) (foldName name)) key fields
  end.

Definition kindOf (v : Value) : string :=
  match v with
  | Null => "null"
  | Bool _ => "bool"
  | Number _ => "number"
  | Str _ => "string"
  | Array _ => "array"
  | Object _ => "object"
  end.

Definition typeError (v : Value) (goType : string) : string :=
  "json: cannot unmarshal " +:+ kindOf v +:+ " into Go value of type " +:+ goType.

Definition setString (v : Value) (set : string -> MountMapping) (m : MountMapping)
    : result MountMapping :=
  match v with
  | Str s => Ok (set s)
  | Null => Ok m
  | _ => Fail (typeError v "string")
  end.

Definition setBool (v : Value) (set : bool -> MountMapping) (m : MountMapping)
    : result MountMapping :=
  match v with
  | Bool b => Ok (set b)
  | Null => Ok m
  | _ => Fail (typeError v "bool")
  end.

(** A member of the object, stored in the struct. [null] leaves a field
    as it is. *)
Definition setField (f : Field) (v : Value) (m : MountMapping) : result MountMapping :=
  let '(mkMountMapping cp hp ty op ext ro) := m in
  match f with
  | FContainerPath => setString v (fun s => mkMountMapping s hp ty op ext ro) m
  | FHostPath => setString v (fun s => mkMountMapping cp s ty op ext ro) m
  | FType => setString v (fun s => mkMountMapping cp hp s op ext ro) m
  | FOptions => setString v (fun s => mkMountMapping cp hp ty s ext ro) m
  | FIsExternal => setBool v (fun b => mkMountMapping cp hp ty op b ro) m
  | FReadOnly => setBool v (fun b => mkMountMapping cp hp ty op ext b) m
  end.

(** The members of an object in their order, so that of two members of
    one name the later one stays; a key that names no field is passed
    over. *)
Fixpoint setMembers (members : list (string * Value)) (m : MountMapping)
    : result MountMapping :=
  match members with
  | [] => Ok m
  | (key, v) :: members' =>
      match findField key with
      | None => setMembers members' m
      | Some f =>
          match setField f v m with
          | Ok m' => setMembers members' m'
          | Fail msg => Fail msg
          end
      end
  end.

Definition zeroMapping : MountMapping :=
  mkMountMapping EmptyString EmptyString EmptyString EmptyString false false.

Definition decodeMapping (v : Value) : result MountMapping :=
  match v with
  | Null => Ok zeroMapping
  | Object members => setMembers members zeroMapping
  | _ => Fail (typeError v "docker.MountMapping")
  end.

Fixpoint decodeElements (vs : list Value) : result (list MountMapping) :=
  match vs with
  | [] => Ok []
  | v :: vs' =>
      match decodeMapping v, decodeElements vs' with
      | Ok m, Ok ms => Ok (m :: ms)
      | Fail msg, _ => Fail msg
      | _, Fail msg => Fail msg
      end
  end.

(** [json.Unmarshal(data, &mappings)] into a nil slice. The texts of
    the errors are abridged: the one of a syntax error does not name the
    offending byte, and a value of the wrong type fails at once, where
    the package goes on and returns the first such error at the end. *)
Definition Unmarshal_mappings (data : string) : result (list MountMapping) :=
  match parse data with
  | None => Fail "invalid JSON text"
  | Some Null => Ok []
  | Some (Array vs) => decodeElements vs
  | Some v => Fail (typeError v "[]docker.MountMapping")
  end.

(** The value [MarshalIndent] writes a mapping as. *)
Definition valueOf (m : MountMapping) : Value :=
  Object [("container_path", Str (ContainerPath m)); ("host_path", Str (HostPath m));
          ("type", Str (Type_ m)); ("options", Str (Options m));
          ("is_external", Bool (IsExternal m)); ("read_only", Bool (ReadOnly m))].

End json.

(** [encoding/json] at the types that embed those of the Docker API and
    of [time], whose codecs lie outside these packages. *)
Class Json := {
  json_MarshalIndent_state : ContainerState -> result string;
  json_Unmarshal_state : string -> result ContainerState;
  json_Unmarshal_metadata : string -> result checkpoint.CheckpointMetadata
}.

(** ** Package checkpoint: the CRIU manager (pkg/checkpoint/criu.go, criu_cmd.go) *)

Module CRIUManager.
Import checkpoint.

Definition standardMounts : list string :=
  [ "mnt[/proc/sys]";
    "mnt[/proc/sysrq-trigger]";
    "mnt[/proc/irq]";
    "mnt[/proc/bus]";
    "mnt[/sys/fs/cgroup]";
    "mnt[/sys]";
    "mnt[/dev]";
    "mnt[.dockerenv]";
    "mnt[/etc/hosts]";
    "mnt[/etc/hostname]";
    "mnt[/etc/resolv.conf]" ].

(** [fmt.Sprintf("mnt[%s]", p)]. *)
Definition mnt (p : string) : string := "mnt[" +:+ p +:+ "]".

(** The guard of the loop of [BuildExternalMountMappings]. *)
Definition userVolume (mapping : MountMapping) : bool :=
  IsExternal mapping && nonEmpty (HostPath mapping) &&
  negb (strings.HasPrefix (ContainerPath mapping) "/proc") &&
  negb (strings.HasPrefix (ContainerPath mapping) "/sys") &&
  negb (strings.HasPrefix (ContainerPath mapping) "/dev").

Definition BuildExternalMountMappings (mappings : list MountMapping) : list string :=
  fold_left (appendWhen userVolume (fun mapping => mnt (ContainerPath mapping)))
            mappings standardMounts.

(** The guard shared by [BuildExtMountMapArgs], [ValidateMountSources] and
    [CreateExtMountMapFile]: [mapping.IsExternal && mapping.HostPath != ""]. *)
Definition externalWithSource (mapping : MountMapping) : bool :=
  IsExternal mapping && nonEmpty (HostPath mapping).

Definition BuildExtMountMapArgs (mappings : list MountMapping) : list string :=
  fold_left (appendWhen externalWithSource
               (fun mapping => "auto:" +:+ ContainerPath mapping +:+ ":" +:+ HostPath mapping))
            mappings [].

(** The argument vector [CheckpointProcessCmd] hands to [exec.Command]. *)
Definition CheckpointProcessCmd_args (pid : Z) (opts : CheckpointOptions) : list string :=
  let args :=
    [ "dump";
      "-t"; fmt.d pid;
      "-D"; ImagesDir opts;
      "--log-file"; LogFile opts;
      "-v4";
      "--tcp-established";
      "--file-locks";
      "--link-remap";
      "--force-irmap";
      "--manage-cgroups";
      "--enable-external-sharing";
      "--enable-external-masters";
      "--enable-fs"; "hugetlbfs";
      "--enable-fs"; "tracefs";
      "--skip-mnt"; "/proc";
      "--skip-mnt"; "/dev";
      "--skip-mnt"; "/sys";
      "--skip-mnt"; "/run" ] in
  let args := if LeaveRunning opts then args ++ ["--leave-running"] else args in
  fold_left (fun args ext => args ++ ["--external"; ext]) (External opts) args.

(** [BuildCRIUCommandArgs] of criu_cmd.go. *)
Definition BuildCRIUCommandArgs (pid : Z) (opts : CheckpointOptions) : list string :=
  let args :=
    [ "criu"; "dump";
      "-t"; fmt.d pid;
      "-D"; ImagesDir opts;
      "--log-file"; LogFile opts;
      "-v4" ] in
  let args := if LeaveRunning opts then args ++ ["--leave-running"] else args in
  let args := if TcpEstablished opts then args ++ ["--tcp-established"] else args in
  let args := if FileLocks opts then args ++ ["--file-locks"] else args in
  let args := if ManageCgroups opts then args ++ ["--manage-cgroups"] else args in
  let args := if Shell opts then args ++ ["--shell-job"] else args in
  fold_left (fun args ext => args ++ ["--external"; ext]) (External opts) args.

(** The options message [CheckpointProcess] builds before it opens the two
    directories. *)
Definition dumpOpts (pid : Z) (opts : CheckpointOptions) : rpc.CriuOpts :=
  {| rpc.Pid := Some (int32 pid);
     rpc.LogLevel := Some (int32 (LogLevel opts));
     rpc.LogFile := Some (LogFile opts);
     rpc.ManageCgroups := Some (ManageCgroups opts);
     rpc.TcpEstablished := Some (TcpEstablished opts);
     rpc.FileLocks := Some (FileLocks opts);
     rpc.LeaveRunning := Some (LeaveRunning opts);
     rpc.ShellJob := Some (Shell opts);
     rpc.External := External opts;
     rpc.ExtUnixSk := Some true;
     rpc.GhostLimit := Some 0%Z;
     rpc.ManageCgroupsMode := Some rpc.CgSOFT;
     rpc.ImagesDirFd := None;
     rpc.WorkDirFd := None;
     rpc.RstSibling := None;
     rpc.TrackMem := None;
     rpc.EmptyNs := None |}.

(** The options message of [RestoreProcess]. *)
Definition restoreOpts (opts : RestoreOptions) : rpc.CriuOpts :=
  {| rpc.LogLevel := Some (int32 (rLogLevel opts));
     rpc.LogFile := Some (rLogFile opts);
     rpc.ManageCgroups := Some (rManageCgroups opts);
     rpc.TcpEstablished := Some (rTcpEstablished opts);
     rpc.RstSibling := Some (RestoreSibling opts);
     rpc.ShellJob := Some (rShell opts);
     rpc.External := rExternal opts;
     rpc.EmptyNs := Some (uint32 (EmptyNs opts));
     rpc.Pid := None;
     rpc.FileLocks := None;
     rpc.LeaveRunning := None;
     rpc.ExtUnixSk := None;
     rpc.GhostLimit := None;
     rpc.ManageCgroupsMode := None;
     rpc.ImagesDirFd := None;
     rpc.WorkDirFd := None;
     rpc.TrackMem := None |}.

(** The entries of the map literal [standardMappings] of
    [CreateExtMountMapFile]. *)
Definition standardMappings : list (string * string) :=
  [ ("/proc", "/proc");
    ("/sys", "/sys");
    ("/dev", "/dev");
    ("/dev/shm", "/dev/shm");
    ("/dev/pts", "/dev/pts");
    ("/dev/mqueue", "/dev/mqueue");
    ("/sys/fs/cgroup", "/sys/fs/cgroup") ].

Section CRIUManager.
Context `{Host}.

Definition logCRIUError (logFile : string) : M unit :=
  if nonEmpty logFile then
    exists_ ← utils.FileExists logFile;
    if (exists_ : bool) then
      r ← utils.ReadFile logFile;
      match r with
      | Ok logData => log ErrorLevel ("CRIU error log:" +:+ LF +:+ logData)
      | Fail _ => mret tt
      end
    else mret tt
  else mret tt.

Definition CheckpointProcessCmd (pid : Z) (opts : CheckpointOptions) : M error :=
  log InfoLevel ("Starting CRIU checkpoint via command for PID " +:+ fmt.d pid);;
  let args := CheckpointProcessCmd_args pid opts in
  log DebugLevel ("Executing: criu " +:+ strings.Join args " ");;
  '(output, err) ← invoke (fun w => exec_CombinedOutput w "criu" args (WorkDir opts))
                          (fun r => EvExec "criu" args (WorkDir opts) r.1 r.2);
  match err with
  | mkError msg =>
      log ErrorLevel ("CRIU command failed: " +:+ output);;
      mret (mkError ("CRIU checkpoint failed: " +:+ msg +:+ LF +:+ "Output: " +:+ output))
  | nil =>
      log InfoLevel "CRIU checkpoint completed successfully";;
      mret nil
  end.

(** [TryCommandLineFallback] of criu_cmd.go. *)
Definition TryCommandLineFallback (pid : Z) (opts : CheckpointOptions) : M error :=
  log WarnLevel "Falling back to command-line CRIU execution";;
  CheckpointProcessCmd pid opts.

Definition CheckpointProcess (pid : Z) (opts : CheckpointOptions) : M error :=
  log InfoLevel ("Starting CRIU checkpoint for PID " +:+ fmt.d pid);;
  err ← utils.EnsureDir (WorkDir opts);
  match err with
  | mkError msg => mret (mkError ("failed to create work directory: " +:+ msg))
  | nil =>
  err ← utils.EnsureDir (ImagesDir opts);
  match err with
  | mkError msg => mret (mkError ("failed to create images directory: " +:+ msg))
  | nil =>
  let criuOpts := dumpOpts pid opts in
  workDir ← observe (fun w => os_Open w (WorkDir opts));
  match workDir with
  | Fail msg => mret (mkError ("failed to open work directory: " +:+ msg))
  | Ok workDirFd =>
  let criuOpts := rpc.setWorkDirFd (Some (int32 workDirFd)) criuOpts in
  imagesDir ← observe (fun w => os_Open w (ImagesDir opts));
  match imagesDir with
  | Fail msg => mret (mkError ("failed to open images directory: " +:+ msg))
  | Ok imagesDirFd =>
  let criuOpts := rpc.setImagesDirFd (Some (int32 imagesDirFd)) criuOpts in
  preDumpErr ←
    (if PreDump opts then
       log InfoLevel "Performing pre-dump...";;
       let preDumpOpts :=
         rpc.setTcpEstablished (Some false) (rpc.setTrackMem (Some (TrackMem opts)) criuOpts) in
       invoke (fun w => criu_PreDump w preDumpOpts) (EvPreDump preDumpOpts)
     else mret nil);
  match preDumpErr with
  | mkError msg => mret (mkError ("pre-dump failed: " +:+ msg))
  | nil =>
  log InfoLevel "Performing checkpoint...";;
  err ← invoke (fun w => criu_Dump w criuOpts) (EvDump criuOpts);
  match err with
  | mkError msg =>
      logCRIUError (LogFile opts);;
      log WarnLevel ("go-criu library failed, trying command-line fallback: " +:+ msg);;
      cmdErr ← CheckpointProcessCmd pid opts;
      match cmdErr with
      | mkError cmdMsg =>
          mret (mkError ("both go-criu and command-line CRIU failed." +:+ LF +:+
                         "Library error: " +:+ msg +:+ LF +:+
                         "Command error: " +:+ cmdMsg))
      | nil =>
          log InfoLevel "CRIU checkpoint completed successfully via command-line";;
          mret nil
      end
  | nil =>
      log InfoLevel "CRIU checkpoint completed successfully";;
      mret nil
  end end end end end end.

Definition RestoreProcess (opts : RestoreOptions) : M error :=
  log InfoLevel "Starting CRIU restore";;
  err ← utils.EnsureDir (rWorkDir opts);
  match err with
  | mkError msg => mret (mkError ("failed to create work directory: " +:+ msg))
  | nil =>
  exists_ ← utils.DirExists (rImagesDir opts);
  if negb exists_ then
    mret (mkError ("images directory does not exist: " +:+ rImagesDir opts))
  else
  let criuOpts := restoreOpts opts in
  workDir ← observe (fun w => os_Open w (rImagesDir opts));
  match workDir with
  | Fail msg => mret (mkError ("failed to open images directory: " +:+ msg))
  | Ok fd =>
  let criuOpts := rpc.setImagesDirFd (Some (int32 fd)) criuOpts in
  criuOpts ←
    (if (0 <? length (ExtMountMap opts))%nat then
       log InfoLevel ("Using external mount mappings: " +:+ fmt.vStrings (ExtMountMap opts));;
       mret (rpc.setExternal (rpc.External criuOpts ++ ExtMountMap opts) criuOpts)
     else mret criuOpts);
  log InfoLevel "Performing restore...";;
  err ← invoke (fun w => criu_Restore w criuOpts) (EvRestore criuOpts);
  match err with
  | mkError msg =>
      logCRIUError (rLogFile opts);;
      mret (mkError ("CRIU restore failed: " +:+ msg))
  | nil =>
      log InfoLevel "CRIU restore completed successfully";;
      mret nil
  end end end.

(** The body of the loop of [ValidateMountSources]; [Some err] stands for
    [return err]. *)
Definition ValidateMountSources_body (mapping : MountMapping) : M (option error) :=
  if IsExternal mapping && nonEmpty (HostPath mapping) then
    missing ← utils.neitherFileNorDir (HostPath mapping);
    if (missing : bool) then
      log WarnLevel ("Mount source does not exist, will create placeholder: "
                     +:+ HostPath mapping);;
      err ← utils.EnsureDir (HostPath mapping);
      match err with
      | mkError msg =>
          mret (Some (mkError ("failed to create mount source placeholder "
                               +:+ HostPath mapping +:+ ": " +:+ msg)))
      | nil => mret None
      end
    else mret None
  else mret None.

Definition ValidateMountSources (mappings : list MountMapping) : M error :=
  r ← forRange mappings ValidateMountSources_body;
  match r with
  | Some err => mret err
  | None => mret nil
  end.

Definition CreateExtMountMapFile (mappings : list MountMapping) (filePath : string) : M error :=
  let content := "# External mount map for Docker container restore" +:+ LF in
  let content := content +:+ "# Format: container_path:host_path" +:+ LF in
  let content :=
    fold_left (fun content mapping =>
                 if IsExternal mapping && nonEmpty (HostPath mapping)
                 then content +:+ ContainerPath mapping +:+ ":" +:+ HostPath mapping +:+ LF
                 else content)
              mappings content in
  order ← observe (fun w => rangeOrder w standardMappings);
  let content :=
    fold_left (fun content '(containerPath, hostPath) =>
                 content +:+ containerPath +:+ ":" +:+ hostPath +:+ LF)
              order content in
  utils.WriteFile filePath content.

End CRIUManager.
End CRIUManager.


(** ** Package checkpoint: the checkpoint manager *)

Module checkpointManager.
Import checkpoint.

Definition requiredFiles : list string :=
  [ "container_metadata.json";
    "mount_mappings.json";
    "checkpoint_metadata.json";
    "images" ].

Section checkpointManager.
Context `{Host} `{Json}.

Definition ValidateCheckpoint (checkpointDir : string) : M error :=
  exists_ ← utils.DirExists checkpointDir;
  if negb exists_ then
    mret (mkError ("checkpoint directory does not exist: " +:+ checkpointDir))
  else
  r ← forRange requiredFiles (fun file =>
    let filePath := filepath_Join [checkpointDir; file] in
    if String.eqb file "images" then
      isDir ← utils.DirExists filePath;
      if negb isDir then mret (Some (mkError ("missing required directory: " +:+ file)))
      else mret None
    else
      isFile ← utils.FileExists filePath;
      if negb isFile then mret (Some (mkError ("missing required file: " +:+ file)))
      else mret None);
  match r with
  | Some err => mret err
  | None =>
  let imagesDir := filepath_Join [checkpointDir; "images"] in
  files ← utils.ListFiles imagesDir;
  match files with
  | Fail msg => mret (mkError ("failed to list images directory: " +:+ msg))
  | Ok files =>
  if (length files =? 0)%nat then
    mret (mkError "checkpoint images directory is empty")
  else
    log InfoLevel ("Checkpoint validation successful: "
                   +:+ fmt.d (Z.of_nat (length files)) +:+ " image files found");;
    mret nil
  end end.

Definition GetCheckpointInfo (checkpointDir : string) : M (result CheckpointMetadata) :=
  let metadataPath := filepath_Join [checkpointDir; "checkpoint_metadata.json"] in
  exists_ ← utils.FileExists metadataPath;
  if negb exists_ then
    mret (Fail ("checkpoint metadata file not found: " +:+ metadataPath))
  else
  data ← utils.ReadFile metadataPath;
  match data with
  | Fail msg => mret (Fail ("failed to read checkpoint metadata: " +:+ msg))
  | Ok data =>
  match json_Unmarshal_metadata data with
  | Fail msg => mret (Fail ("failed to parse checkpoint metadata: " +:+ msg))
  | Ok metadata => mret (Ok metadata)
  end end.

Definition SaveMountMappings (mappings : list MountMapping) (filePath : string) : M error :=
  match json.MarshalIndent_mappings mappings with
  | Fail msg => mret (mkError ("failed to marshal mount mappings: " +:+ msg))
  | Ok data => utils.WriteFile filePath data
  end.

Definition LoadMountMappings (filePath : string) : M (result (list MountMapping)) :=
  exists_ ← utils.FileExists filePath;
  if negb exists_ then
    mret (Fail ("mount mappings file not found: " +:+ filePath))
  else
  data ← utils.ReadFile filePath;
  match data with
  | Fail msg => mret (Fail ("failed to read mount mappings: " +:+ msg))
  | Ok data =>
  match json.Unmarshal_mappings data with
  | Fail msg => mret (Fail ("failed to parse mount mappings: " +:+ msg))
  | Ok mappings => mret (Ok mappings)
  end end.

End checkpointManager.
End checkpointManager.

(** ** Package docker: the manager (pkg/docker/manager.go) *)

Module dockerManager.

(** The namespace kinds [nsTypes] of [GetContainerState]. *)
Definition nsTypes : list string := ["ipc"; "mnt"; "net"; "pid"; "user"; "uts"; "cgroup"].

(** The loop of [GetContainerState] over [containerJSON.Config.Env]. *)
Definition parseEnv (env : list string) : gmap string string :=
  fold_left (fun envMap e =>
               match strings.SplitEq e with
               | Some (k, v) => <[k := v]> envMap
               | None => envMap
               end) env ∅.

(** The system mounts [GetMountMappings] appends. *)
Definition systemMounts : list MountMapping :=
  [ mkMountMapping "/proc" "/proc" "proc" "" true false;
    mkMountMapping "/sys" "/sys" "sysfs" "" true false;
    mkMountMapping "/dev" "/dev" "devtmpfs" "" true false;
    mkMountMapping "/dev/shm" "/dev/shm" "tmpfs" "" true false;
    mkMountMapping "/dev/pts" "/dev/pts" "devpts" "" true false;
    mkMountMapping "/dev/mqueue" "/dev/mqueue" "mqueue" "" true false;
    mkMountMapping "/sys/fs/cgroup" "/sys/fs/cgroup" "cgroup" "" true false ].

(** [GetMountMappings]; its error result is always nil. *)
Definition GetMountMappings (state : ContainerState) : list MountMapping :=
  fold_left (fun mappings mount =>
               mappings ++ [ {| ContainerPath := types.Destination mount;
                                HostPath := types.Source mount;
                                Type_ := types.mpType mount;
                                Options := types.Mode mount;
                                IsExternal := true;
                                ReadOnly := negb (types.RW mount) |} ])
            (Mounts state) []
  ++ systemMounts.

(** The [container.Config] literal of [CreateRestoreContainer]. *)
Definition restoreConfig (image : string) (c : container.Config) : container.Config :=
  {| container.Image := image;
     container.Cmd := container.Cmd c;
     container.Entrypoint := container.Entrypoint c;
     container.Env := container.Env c;
     container.WorkingDir := container.WorkingDir c;
     container.User := container.User c;
     container.ExposedPorts := container.ExposedPorts c;
     container.Labels := container.Labels c;
     container.Tty := container.Tty c;
     container.OpenStdin := container.OpenStdin c;
     container.StdinOnce := container.StdinOnce c;
     container.Hostname := "";
     container.Domainname := "";
     container.AttachStdin := false;
     container.AttachStdout := false;
     container.AttachStderr := false;
     container.Volumes := ∅;
     container.StopSignal := "" |}.

(** The [container.HostConfig] literal of [CreateRestoreContainer]. *)
Definition restoreHostConfig (hc : container.HostConfig) : container.HostConfig :=
  {| container.Privileged := true;
     container.PidMode := "host";
     container.IpcMode := "host";
     container.NetworkMode := "host";
     container.SecurityOpt := ["seccomp=unconfined"];
     container.CapAdd := ["SYS_PTRACE"; "SYS_ADMIN"];
     container.Resources_ := container.Resources_ hc;
     container.RestartPolicy_ := container.RestartPolicy_ hc;
     container.Binds := [];
     container.PortBindings := ∅;
     container.AutoRemove := false;
     container.VolumesFrom := [];
     container.CapDrop := [];
     container.DNS := [];
     container.ExtraHosts := [];
     container.ReadonlyRootfs := false;
     container.Runtime := "" |}.

Section dockerManager.
Context `{Host} `{Json}.

Definition GetContainerState (nameOrID : string) : M (result ContainerState) :=
  r ← invoke (fun w => client_ContainerInspect w nameOrID) (EvContainerInspect nameOrID);
  match r with
  | Fail msg => mret (Fail ("failed to inspect container: " +:+ msg))
  | Ok containerJSON =>
  if negb (types.StateRunning containerJSON) then
    mret (Fail ("container " +:+ nameOrID +:+ " is not running"))
  else
  let runtime := container.Runtime (types.cjHostConfig containerJSON) in
  let runtime := if nonEmpty runtime then runtime else "runc" in
  let envMap := parseEnv (container.Env (types.cjConfig containerJSON)) in
  let labelMap := container.Labels (types.cjConfig containerJSON) in
  createdTime ←
    match time_ParseRFC3339Nano (types.cjCreated containerJSON) with
    | Ok t => mret t
    | Fail _ => observe time_Now
    end;
  let pid := types.StatePid containerJSON in
  mret (Ok
    {| ID := types.cjID containerJSON;
       Name := strings.TrimSlash (types.cjName containerJSON);
       Image := container.Image (types.cjConfig containerJSON);
       Config := Some (types.cjConfig containerJSON);
       HostConfig := Some (types.cjHostConfig containerJSON);
       NetworkConfig := types.Networks containerJSON;
       Mounts := types.cjMounts containerJSON;
       ProcessPID := pid;
       Created := createdTime;
       RootFS := default "" (types.GraphDriverData containerJSON !! "MergedDir");
       Runtime := runtime;
       BundlePath := "/run/docker/runtime-" +:+ runtime +:+ "/moby/" +:+ types.cjID containerJSON;
       CgroupPath := container.CgroupParent
                       (container.Resources_ (types.cjHostConfig containerJSON));
       Namespaces :=
         fold_left (fun m ns => <[ns := "/proc/" +:+ fmt.d pid +:+ "/ns/" +:+ ns]> m) nsTypes ∅;
       Environment := envMap;
       Labels := labelMap |})
  end.

(** [originalState.Config] and [originalState.HostConfig] are dereferenced
    while the two literals are built: a nil pointer panics. *)
Definition CreateRestoreContainer (originalState : ContainerState) (newName : string)
  : M (result string) :=
  match Config originalState with
  | None => panic
  | Some c =>
  let config := restoreConfig (Image originalState) c in
  match HostConfig originalState with
  | None => panic
  | Some hc =>
  let hostConfig := restoreHostConfig hc in
  resp ← invoke (fun w => client_ContainerCreate w config hostConfig newName)
                (EvContainerCreate config hostConfig newName);
  match resp with
  | Fail msg => mret (Fail ("failed to create restore container: " +:+ msg))
  | Ok respID =>
      short ← sliceTo 12 respID;
      log InfoLevel ("Created restore container: " +:+ short);;
      mret (Ok respID)
  end end end.

Definition GetContainerPID (containerID : string) : M (result Z) :=
  r ← invoke (fun w => client_ContainerInspect w containerID) (EvContainerInspect containerID);
  match r with
  | Fail msg => mret (Fail ("failed to inspect container: " +:+ msg))
  | Ok containerJSON =>
      if (types.StatePid containerJSON =? 0)%Z then
        mret (Fail "container has no PID (not running)")
      else mret (Ok (types.StatePid containerJSON))
  end.

Definition StartContainer (containerID : string) : M error :=
  err ← invoke (fun w => client_ContainerStart w containerID) (EvContainerStart containerID);
  match err with
  | mkError msg => mret (mkError ("failed to start container: " +:+ msg))
  | nil => mret nil
  end.

Definition StopContainer (containerID : string) (timeout : option Z) : M error :=
  err ← invoke (fun w => client_ContainerStop w containerID timeout)
               (EvContainerStop containerID timeout);
  match err with
  | mkError msg => mret (mkError ("failed to stop container: " +:+ msg))
  | nil => mret nil
  end.

Definition SaveContainerMetadata (state : ContainerState) (filePath : string) : M error :=
  match json_MarshalIndent_state state with
  | Fail msg => mret (mkError ("failed to marshal container metadata: " +:+ msg))
  | Ok data =>
      err ← utils.WriteFile filePath data;
      match err with
      | mkError msg => mret (mkError ("failed to write metadata file: " +:+ msg))
      | nil => mret nil
      end
  end.


Definition GetContainerLogs (containerID tail : string) : M (result string) :=
  r ← invoke (fun w => client_ContainerLogs w containerID tail)
             (EvContainerLogs containerID tail);
  match r with
  | Fail msg => mret (Fail ("failed to get container logs: " +:+ msg))
  | Ok logs => mret (Ok logs)
  end.

End dockerManager.
End dockerManager.

(** ** Package restore: the restore manager *)

Module restore.
(** [type RestoreConfig struct]. *)
Record RestoreConfig := mkRestoreConfig {
  CheckpointDir    : string;
  NewContainerName : string;
  LogLevel         : Z;
  ManageCgroups    : bool;
  TcpEstablished   : bool;
  RestoreSibling   : bool;
  Shell            : bool;
  ValidateEnv      : bool;
  AutoFixMounts    : bool;
  SkipMounts       : list string
}.
End restore.

Module restoreManager.
Import restore.

(** The entries [buildExternalMountArgs] appends after the loop. *)
Definition essentialMounts : list string := ["mnt:/proc"; "mnt:/dev"; "mnt:/sys"].

(** [skipMap]: the Go map filled from [skipMounts]. *)
Definition makeSkipMap (skipMounts : list string) : gmap string bool :=
  fold_left (fun skipMap skip => <[skip := true]> skipMap) skipMounts ∅.

(** [skipMap[k]]: the zero value [false] for an absent key. *)
Definition skipped (skipMap : gmap string bool) (k : string) : bool :=
  default false (skipMap !! k).

(** The descriptor the loop of [buildExternalMountArgs] makes of a mapping. *)
Definition restoreDescriptor (mapping : MountMapping) : string :=
  if nonEmpty (HostPath mapping)
  then "mnt[" +:+ ContainerPath mapping +:+ "]:" +:+ HostPath mapping
  else "mnt:" +:+ ContainerPath mapping.

Definition buildExternalMountArgs (mappings : list MountMapping) (skipMounts : list string)
  : list string :=
  let skipMap := makeSkipMap skipMounts in
  let external :=
    fold_left (appendWhen
                 (fun mapping => IsExternal mapping && negb (skipped skipMap (ContainerPath mapping)))
                 restoreDescriptor)
              mappings [] in
  fold_left (fun external mount => external ++ [mount]) essentialMounts external.

Section restoreManager.
Context `{Host} `{Json}.

Definition prepareMountNamespace (containerID : string) (mappings : list MountMapping)
                                 (autoFix : bool) : M error :=
  log InfoLevel "Preparing mount namespace for restore";;
  r ← forRange mappings (fun mapping =>
    if IsExternal mapping && nonEmpty (HostPath mapping) then
      missing ← utils.neitherFileNorDir (HostPath mapping);
      if (missing : bool) then
        if autoFix then
          log InfoLevel ("Creating missing mount source: " +:+ HostPath mapping);;
          err ← utils.EnsureDir (HostPath mapping);
          match err with
          | mkError msg =>
              mret (Some (mkError ("failed to create mount source "
                                   +:+ HostPath mapping +:+ ": " +:+ msg)))
          | nil => mret None
          end
        else
          log WarnLevel ("Mount source does not exist: " +:+ HostPath mapping);;
          mret None
      else mret None
    else mret None);
  match r with
  | Some err => mret err
  | None => mret nil
  end.

Definition checkPtraceConflicts : M error := mret nil.

Definition validateRestoreEnvironment (originalState : ContainerState)
                                      (mappings : list MountMapping) : M error :=
  log InfoLevel "Validating restore environment";;
  log InfoLevel ("Original image: " +:+ Image originalState);;
  missingMounts ← foldRange mappings (fun missingMounts mapping =>
    if IsExternal mapping && nonEmpty (HostPath mapping) then
      missing ← utils.neitherFileNorDir (HostPath mapping);
      if (missing : bool) then
        log WarnLevel ("Mount source missing: " +:+ ContainerPath mapping
                       +:+ " -> " +:+ HostPath mapping);;
        mret (missingMounts + 1)%Z
      else mret missingMounts
    else mret missingMounts) 0%Z;
  (if (0 <? missingMounts)%Z then
     log WarnLevel ("Found " +:+ fmt.d missingMounts +:+ " missing mount sources")
   else mret tt);;
  err ← checkPtraceConflicts;
  match err with
  | mkError msg => mret (mkError ("ptrace conflict detected: " +:+ msg))
  | nil => mret nil
  end.

Definition verifyRestoration (containerName : string) : M error :=
  log InfoLevel "Verifying restoration...";;
  r ← dockerManager.GetContainerState containerName;
  match r with
  | Fail _ =>
      log WarnLevel "Container not running, checking basic status...";;
      mret nil
  | Ok state =>
      log InfoLevel "Restored container state:";;
      log InfoLevel ("  Name: " +:+ Name state);;
      short ← sliceTo 12 (ID state);
      log InfoLevel ("  ID: " +:+ short);;
      log InfoLevel ("  PID: " +:+ fmt.d (ProcessPID state));;
      log InfoLevel ("  Image: " +:+ Image state);;
      logs ← dockerManager.GetContainerLogs (ID state) "10";
      match logs with
      | Ok logs =>
          if nonEmpty logs then log InfoLevel ("Recent container logs:" +:+ LF +:+ logs)
          else mret tt
      | Fail _ => mret tt
      end;;
      mret nil
  end.

Definition Restore (config : RestoreConfig) : M error :=
  log InfoLevel ("Starting restore from checkpoint: " +:+ CheckpointDir config);;
  (* 1. Validate checkpoint exists and is complete *)
  err ← checkpointManager.ValidateCheckpoint (CheckpointDir config);
  match err with
  | mkError msg => mret (mkError ("checkpoint validation failed: " +:+ msg))
  | nil =>
  (* 2. Load checkpoint metadata *)
  metadata ← checkpointManager.GetCheckpointInfo (CheckpointDir config);
  match metadata with
  | Fail msg => mret (mkError ("failed to load checkpoint metadata: " +:+ msg))
  | Ok metadata =>
  match checkpoint.ContainerState_ metadata with
  | None => panic
  | Some originalState =>
  short ← sliceTo 12 (ID originalState);
  log InfoLevel ("Original container: " +:+ Name originalState +:+ " (ID: " +:+ short +:+ ")");;
  (* 3. Load mount mappings *)
  let mountMappingsFile := filepath_Join [CheckpointDir config; "mount_mappings.json"] in
  mountMappings ← checkpointManager.LoadMountMappings mountMappingsFile;
  match mountMappings with
  | Fail msg => mret (mkError ("failed to load mount mappings: " +:+ msg))
  | Ok mountMappings =>
  (* 4. Validate restore environment *)
  err ← (if ValidateEnv config
         then validateRestoreEnvironment originalState mountMappings
         else mret nil);
  match err with
  | mkError msg => mret (mkError ("restore environment validation failed: " +:+ msg))
  | nil =>
  (* 5. Create target container for restore *)
  containerID ← dockerManager.CreateRestoreContainer originalState (NewContainerName config);
  match containerID with
  | Fail msg => mret (mkError ("failed to create restore container: " +:+ msg))
  | Ok containerID =>
  short ← sliceTo 12 containerID;
  log InfoLevel ("Created restore container: " +:+ short);;
  (* 6. Prepare mount namespace *)
  err ← prepareMountNamespace containerID mountMappings (AutoFixMounts config);
  match err with
  | mkError msg => mret (mkError ("failed to prepare mount namespace: " +:+ msg))
  | nil =>
  (* 7. Start the container to get a PID *)
  err ← dockerManager.StartContainer containerID;
  match err with
  | mkError msg => mret (mkError ("failed to start restore container: " +:+ msg))
  | nil =>
  (* 8. Get container PID for restore target *)
  newPID ← dockerManager.GetContainerPID containerID;
  match newPID with
  | Fail msg => mret (mkError ("failed to get container PID: " +:+ msg))
  | Ok newPID =>
  log InfoLevel ("Restore target PID: " +:+ fmt.d newPID);;
  (* 9. Stop the container *)
  err ← dockerManager.StopContainer containerID (Some 5%Z);
  match err with
  | mkError msg =>
      log WarnLevel ("Failed to gracefully stop container, continuing: " +:+ msg)
  | nil => mret tt
  end;;
  (* 10. Configure CRIU restore options *)
  let imagesDir := filepath_Join [CheckpointDir config; "images"] in
  let extMountMapFile := filepath_Join [CheckpointDir config; "ext_mount_map"] in
  err ← CRIUManager.CreateExtMountMapFile mountMappings extMountMapFile;
  match err with
  | mkError msg => mret (mkError ("failed to create external mount map: " +:+ msg))
  | nil =>
  let criuOpts :=
    {| checkpoint.rWorkDir := CheckpointDir config;
       checkpoint.rImagesDir := imagesDir;
       checkpoint.rLogFile := filepath_Join [CheckpointDir config; "restore.log"];
       checkpoint.rLogLevel := LogLevel config;
       checkpoint.rExternal := buildExternalMountArgs mountMappings (SkipMounts config);
       checkpoint.ExtMountMap := CRIUManager.BuildExtMountMapArgs mountMappings;
       checkpoint.SkipMnt := SkipMounts config;
       checkpoint.PidFile := "";
       checkpoint.rManageCgroups := ManageCgroups config;
       checkpoint.rTcpEstablished := TcpEstablished config;
       checkpoint.RestoreSibling := RestoreSibling config;
       checkpoint.rShell := Shell config;
       checkpoint.EmptyNs := 64 |} in
  (* 11. Perform CRIU restore *)
  err ← CRIUManager.RestoreProcess criuOpts;
  match err with
  | mkError msg => mret (mkError ("CRIU restore failed: " +:+ msg))
  | nil =>
  (* 12. Verify restoration *)
  err ← verifyRestoration (NewContainerName config);
  match err with
  | mkError msg =>
      log WarnLevel ("Restoration verification failed: " +:+ msg);;
      mret (mkError ("restore verification failed: " +:+ msg))
  | nil =>
      log InfoLevel ("Container restored successfully as: " +:+ NewContainerName config);;
      mret nil
  end end end end end end end end end end end end.

End restoreManager.
End restoreManager.

(** ** The wording of the design document, for comparison with the code *)

Module Spec.
Import CRIUManager.

(** The bytes of [root] begin [path]. *)
Definition beginsWith (root path : string) : Prop :=
  list_ascii_of_string root `prefix_of` list_ascii_of_string path.

#[global] Instance beginsWith_dec (root path : string) : Decision (beginsWith root path) :=
  ltac:(unfold beginsWith; exact _).

(** "[path] falls under [root]", as paths are read: it is [root] or lies
    below it. *)
Definition fallsUnder (root path : string) : Prop :=
  path = root \/ beginsWith (root +:+ "/") path.

#[global] Instance fallsUnder_dec (root path : string) : Decision (fallsUnder root path) :=
  ltac:(unfold fallsUnder; exact _).

(** The descriptor [mnt[<container_path>]]. *)
Definition descriptor (path : string) : string := "mnt[" +:+ path +:+ "]".

(** The fixed allow-list of well-known virtual mounts. *)
Definition allowList : list string :=
  [ "mnt[/proc/sys]"; "mnt[/proc/sysrq-trigger]"; "mnt[/proc/irq]"; "mnt[/proc/bus]";
    "mnt[/sys/fs/cgroup]"; "mnt[/sys]"; "mnt[/dev]"; "mnt[.dockerenv]";
    "mnt[/etc/hosts]"; "mnt[/etc/hostname]"; "mnt[/etc/resolv.conf]" ].


(** The same with the container path tested by its first bytes: it does
    not begin with /proc, /sys or /dev. *)
Definition kept (m : MountMapping) : Prop :=
  IsExternal m = true /\ HostPath m <> "" /\
  ~ beginsWith "/proc" (ContainerPath m) /\ ~ beginsWith "/sys" (ContainerPath m) /\
  ~ beginsWith "/dev" (ContainerPath m).

#[global] Instance kept_dec (m : MountMapping) : Decision (kept m) :=
  ltac:(unfold kept; exact _).


(** The container paths of the fixed allow-list. *)
Definition standardPaths : list string :=
  [ "/proc/sys"; "/proc/sysrq-trigger"; "/proc/irq"; "/proc/bus"; "/sys/fs/cgroup";
    "/sys"; "/dev"; ".dockerenv"; "/etc/hosts"; "/etc/hostname"; "/etc/resolv.conf" ].

(** No two descriptors of [ds], at different positions, name the same
    container path. *)
Definition noSharedPath (ds : list string) : Prop :=
  forall (i j : nat) (p : string),
    ds !! i = Some (mnt p) -> ds !! j = Some (mnt p) -> i = j.


(** A checkpoint directory that lacks one of the four required artifacts:
    one of the three files does not exist, or the images directory does
    not exist, or it has no entry. *)
Definition incomplete `{Host} (w : world) (checkpointDir : string) : Prop :=
  os_Stat w (filepath_Join [checkpointDir; "container_metadata.json"]) = StatNotExist \/
  os_Stat w (filepath_Join [checkpointDir; "mount_mappings.json"]) = StatNotExist \/
  os_Stat w (filepath_Join [checkpointDir; "checkpoint_metadata.json"]) = StatNotExist \/
  os_Stat w (filepath_Join [checkpointDir; "images"]) = StatNotExist \/
  os_ReadDir w (filepath_Join [checkpointDir; "images"]) = Ok [].

(** The calls by which a restore reaches the runtime or the engine. *)
Definition reachesRuntimeOrEngine (e : Event) : bool :=
  match e with
  | EvContainerCreate _ _ _ _ | EvContainerStart _ _ | EvContainerStop _ _ _
  | EvContainerInspect _ _ | EvContainerLogs _ _ _
  | EvPreDump _ _ | EvDump _ _ | EvRestore _ _ | EvExec _ _ _ _ _ => true
  | EvLog _ _ | EvMkdirAll _ _ _ | EvWriteFile _ _ _ _ => false
  end.

(** An attempt at the dump itself: the structured call, or the subprocess. *)
Definition dumpAttempt (e : Event) : bool :=
  match e with
  | EvDump _ _ | EvExec _ _ _ _ _ => true
  | _ => false
  end.

(** [sub] occurs in [s]. *)
Definition contains (sub s : string) : Prop :=
  exists pre post, s = pre +:+ sub +:+ post.

(** What [CheckpointProcess] returns, by the attempts at the dump that its
    run made: none; or the structured call alone, which succeeded; or the
    structured call, which failed, and then the subprocess, once. *)
Definition dumpAttemptsExplain (pid : Z) (opts : checkpoint.CheckpointOptions)
    (o : Outcome error) (attempts : list Event) : Prop :=
  match attempts with
  | [] => True
  | [EvDump _ nil] => o = Done nil
  | [EvDump _ (mkError libMsg); EvExec name args dir output cmdErr] =>
      name = "criu" /\ args = CheckpointProcessCmd_args pid opts /\
      dir = checkpoint.WorkDir opts /\
      match cmdErr with
      | nil => o = Done nil
      | mkError cmdMsg =>
          exists msg, o = Done (mkError msg) /\
                      contains libMsg msg /\ contains cmdMsg msg /\ contains output msg
      end
  | _ => False
  end.

(** The re-query of [verifyRestoration] fails: the inspect request
    fails, or the container it finds is not running. *)
Definition requeryFailed (requery : result types.ContainerJSON) : bool :=
  match requery with
  | Fail _ => true
  | Ok containerJSON => negb (types.StateRunning containerJSON)
  end.

(** The end of a restore whose engine call succeeded: [post] is what the
    trace holds after that call, [o] is the outcome of [Restore]. The
    runtime is asked for the container [name]; when that fails, a warning
    is logged and [Restore] returns nil; when it succeeds, [Restore]
    returns nil as well, given an identifier of at least 12 bytes. *)
Definition verified (name : string) (o : Outcome error) (post : list Event) : Prop :=
  (forall msg, o <> Done (mkError msg)) /\
  exists requery rest,
    post = [ EvLog InfoLevel "CRIU restore completed successfully";
             EvLog InfoLevel "Verifying restoration...";
             EvContainerInspect name requery ] ++ rest /\
    if requeryFailed requery then
      o = Done nil /\
      rest = [ EvLog WarnLevel "Container not running, checking basic status...";
               EvLog InfoLevel ("Container restored successfully as: " +:+ name) ]
    else
      exists containerJSON, requery = Ok containerJSON /\
        ((12 <= String.length (types.cjID containerJSON))%nat -> o = Done nil).

(** [RestoreProcess] returns nil exactly when its engine call succeeded,
    and then it only logs one more line. *)
Definition restoreProcessExplains (o : Outcome error) (after : option (list Event)) : Prop :=
  match after with
  | None => o <> Done nil
  | Some post => o = Done nil /\
                 post = [EvLog InfoLevel "CRIU restore completed successfully"]
  end.

(** [Restore], once its engine call succeeded, ends as [verified] says. *)
Definition restoreExplains (name : string) (o : Outcome error)
    (after : option (list Event)) : Prop :=
  match after with
  | None => True
  | Some post => verified name o post
  end.

(** The host configuration of the first create request of a trace. *)
Definition createdHostConfig (tr : list Event) : option container.HostConfig :=
  match List.filter (fun e => match e with EvContainerCreate _ _ _ _ => true | _ => false end) tr with
  | EvContainerCreate _ hostConfig _ _ :: _ => Some hostConfig
  | _ => None
  end.

(** "Built from scratch, copying only Resources and RestartPolicy from the
    original". *)
Definition builtFromScratch (orig hc : container.HostConfig) : Prop :=
  container.Privileged hc = true /\
  container.PidMode hc = "host" /\
  container.IpcMode hc = "host" /\
  container.NetworkMode hc = "host" /\
  container.SecurityOpt hc = ["seccomp=unconfined"] /\
  container.CapAdd hc = ["SYS_PTRACE"; "SYS_ADMIN"] /\
  container.Resources_ hc = container.Resources_ orig /\
  container.RestartPolicy_ hc = container.RestartPolicy_ orig.

(** "Port bindings, volume binds, devices are not carried into the restore
    container". *)
Definition othersNotCarried (hc : container.HostConfig) : Prop :=
  container.PortBindings hc = ∅ /\
  container.Binds hc = [] /\
  container.Devices (container.Resources_ hc) = [].

(** The five switches of a dump that both invocation paths can carry. *)
Inductive Switch := SwTcpEstablished | SwFileLocks | SwManageCgroups | SwShellJob | SwLeaveRunning.

Definition flagOf (sw : Switch) : string :=
  match sw with
  | SwTcpEstablished => "--tcp-established"
  | SwFileLocks => "--file-locks"
  | SwManageCgroups => "--manage-cgroups"
  | SwShellJob => "--shell-job"
  | SwLeaveRunning => "--leave-running"
  end.

(** The option field a switch corresponds to. *)
Definition fieldOf (sw : Switch) (opts : checkpoint.CheckpointOptions) : bool :=
  match sw with
  | SwTcpEstablished => checkpoint.TcpEstablished opts
  | SwFileLocks => checkpoint.FileLocks opts
  | SwManageCgroups => checkpoint.ManageCgroups opts
  | SwShellJob => checkpoint.Shell opts
  | SwLeaveRunning => checkpoint.LeaveRunning opts
  end.

(** The value the structured call carries for a switch. *)
Definition structuredOf (sw : Switch) (o : rpc.CriuOpts) : option bool :=
  match sw with
  | SwTcpEstablished => rpc.TcpEstablished o
  | SwFileLocks => rpc.FileLocks o
  | SwManageCgroups => rpc.ManageCgroups o
  | SwShellJob => rpc.ShellJob o
  | SwLeaveRunning => rpc.LeaveRunning o
  end.

(** Whether an argument vector passes [flag] as an option of its own, and
    not as the operand of [--external], [-t], [-D] and the like. The
    vectors of this package put operands only after the options listed in
    [takesOperand]. *)
Definition takesOperand (a : string) : bool :=
  existsb (String.eqb a) ["-t"; "-D"; "--log-file"; "--enable-fs"; "--skip-mnt"; "--external"].

Fixpoint passes (flag : string) (args : list string) : bool :=
  match args with
  | [] => false
  | a :: rest =>
      if takesOperand a then
        match rest with
        | [] => false
        | _ :: rest' => passes flag rest'
        end
      else String.eqb a flag || passes flag rest
  end.

(** The strings of a mapping are valid UTF-8. *)
Definition validUTF8 (m : MountMapping) : bool :=
  utf8.ValidString (ContainerPath m) && utf8.ValidString (HostPath m) &&
  utf8.ValidString (Type_ m) && utf8.ValidString (Options m).


End Spec.

(** A sample: one bind mount of the data directory. *)
Definition dataMount : MountMapping :=
  {| ContainerPath := "/data"; HostPath := "/tmp/d1"; Type_ := "bind"; Options := "";
     IsExternal := true; ReadOnly := false |}.

(** A sample: a bind mount whose source is named in Latin-1. The byte
    [0xE9] of its last letter begins no UTF-8 encoding here. *)
Definition latin1Mount : MountMapping :=
  {| ContainerPath := "/data";
     HostPath := "/srv/caf" +:+ String (ascii_of_nat 233) EmptyString;
     Type_ := "bind"; Options := "rw"; IsExternal := true; ReadOnly := false |}.


(** A sample: the options of a dump of a shell job, every other switch off. *)
Definition shellJobOptions : checkpoint.CheckpointOptions :=
  {| checkpoint.WorkDir := "/out/c1/checkpoint";
     checkpoint.ImagesDir := "/out/c1/checkpoint/images";
     checkpoint.LogFile := "/out/c1/checkpoint/dump.log";
     checkpoint.LogLevel := 4;
     checkpoint.External := CRIUManager.standardMounts;
     checkpoint.ManageCgroups := false;
     checkpoint.TcpEstablished := false;
     checkpoint.FileLocks := false;
     checkpoint.LeaveRunning := false;
     checkpoint.Shell := true;
     checkpoint.PreDump := false;
     checkpoint.TrackMem := false |}.

(** ** A small host, for running the packages on examples

    Directories and files are kept by name; nothing can be created at a
    path listed as denied; the engine and the subprocess answer as the
    world says. *)

Module Toy.

Record World := mkWorld {
  dirs : list string;
  files : list (string * string);
  denied : list string;
  containers : list (string * types.ContainerJSON);
  dumpErr : error;
  execErr : error;
  restoreErr : error
}.

Definition member (p : string) (l : list string) : bool := existsb (String.eqb p) l.

Fixpoint lookup {V} (k : string) (l : list (string * V)) : option V :=
  match l with
  | [] => None
  | (k', v) :: l' => if String.eqb k k' then Some v else lookup k l'
  end.

(** The part of a path before its last slash. *)
Fixpoint stripLast (s : string) : option string :=
  match s with
  | EmptyString => None
  | String c r =>
      match stripLast r with
      | Some d => Some (String c d)
      | None => if Ascii.eqb c "/" then Some EmptyString else None
      end
  end.

Definition dirOf (s : string) : string := default "." (stripLast s).

Definition stat (w : World) (p : string) : StatResult :=
  if member p (dirs w) then StatInfo true
  else match lookup p (files w) with
       | Some _ => StatInfo false
       | None => StatNotExist
       end.

Definition readFile (w : World) (p : string) : result string :=
  match lookup p (files w) with
  | Some data => Ok data
  | None => Fail ("open " +:+ p +:+ ": no such file or directory")
  end.

Definition readDir (w : World) (p : string) : result (list (option FileInfo)) :=
  if member p (dirs w) then
    Ok (map (fun '(f, data) => Some (mkFileInfo f (Z.of_nat (String.length data))))
            (List.filter (fun '(f, _) => String.eqb (dirOf f) p) (files w)))
  else Fail ("open " +:+ p +:+ ": no such file or directory").

Definition open (w : World) (p : string) : result Z :=
  match stat w p with
  | StatInfo _ => Ok 3%Z
  | _ => Fail ("open " +:+ p +:+ ": no such file or directory")
  end.

Definition mkdirAll (w : World) (p : string) (perm : Z) : World * error :=
  if member p (denied w) then (w, mkError ("mkdir " +:+ p +:+ ": permission denied"))
  else (mkWorld (p :: dirs w) (files w) (denied w) (containers w)
                (dumpErr w) (execErr w) (restoreErr w), nil).

Definition writeFile (w : World) (p data : string) (perm : Z) : World * error :=
  if member p (denied w) then (w, mkError ("open " +:+ p +:+ ": permission denied"))
  else (mkWorld (dirs w) ((p, data) :: files w) (denied w) (containers w)
                (dumpErr w) (execErr w) (restoreErr w), nil).

Definition withContainers (w : World) (cs : list (string * types.ContainerJSON)) : World :=
  mkWorld (dirs w) (files w) (denied w) cs (dumpErr w) (execErr w) (restoreErr w).

Definition newID : string := "c0ffee0123456789c0ffee0123456789c0ffee0123456789c0ffee0123456789".

Definition inspect (w : World) (name : string) : World * result types.ContainerJSON :=
  match lookup name (containers w) with
  | Some cj => (w, Ok cj)
  | None => (w, Fail ("No such container: " +:+ name))
  end.

Definition create (w : World) (config : container.Config) (hostConfig : container.HostConfig)
                  (name : string) : World * result string :=
  let cj := types.mkContainerJSON newID ("/" +:+ name) "" false 0 config hostConfig ∅ [] ∅ in
  (withContainers w ((newID, cj) :: (name, cj) :: containers w), Ok newID).

Definition setState (running : bool) (pid : Z) (cj : types.ContainerJSON) : types.ContainerJSON :=
  types.mkContainerJSON (types.cjID cj) (types.cjName cj) (types.cjCreated cj) running pid
    (types.cjConfig cj) (types.cjHostConfig cj) (types.Networks cj) (types.cjMounts cj)
    (types.GraphDriverData cj).

Definition setStateOf (id : string) (running : bool) (pid : Z) (w : World) : World * error :=
  match lookup id (containers w) with
  | None => (w, mkError ("No such container: " +:+ id))
  | Some _ =>
      (withContainers w
         (map (fun '(k, cj) =>
                 (k, if String.eqb (types.cjID cj) id then setState running pid cj else cj))
              (containers w)), nil)
  end.

#[export] Instance host : Host := {|
  world := World;
  os_Stat := stat;
  os_ReadFile := readFile;
  os_ReadDir := readDir;
  os_Open := open;
  os_MkdirAll := mkdirAll;
  os_WriteFile := writeFile;
  filepath_Join := fun elems => strings.Join elems "/";
  filepath_Dir := dirOf;
  rangeOrder := fun _ entries => entries;
  time_ParseRFC3339Nano := fun _ => Fail "cannot parse";
  time_Now := fun _ => time.mkTime 0;
  client_ContainerInspect := inspect;
  client_ContainerCreate := create;
  client_ContainerStart := fun w id => setStateOf id true 4242 w;
  client_ContainerStop := fun w id _ => setStateOf id false 0 w;
  client_ContainerLogs := fun w _ _ => (w, Ok "");
  criu_PreDump := fun w _ => (w, nil);
  criu_Dump := fun w _ => (w, dumpErr w);
  criu_Restore := fun w _ => (w, restoreErr w);
  exec_CombinedOutput := fun w _ _ _ => (w, ("", execErr w))
|}.

(** The container of the samples. *)
Definition sampleHostConfig : container.HostConfig :=
  {| container.Binds := ["/tmp/d1:/data"];
     container.NetworkMode := "bridge";
     container.PortBindings := {[ "80/tcp" := [container.mkPortBinding "0.0.0.0" "8080"] ]};
     container.RestartPolicy_ := container.mkRestartPolicy "on-failure" 3;
     container.AutoRemove := false;
     container.VolumesFrom := [];
     container.CapAdd := [];
     container.CapDrop := ["NET_RAW"];
     container.DNS := [];
     container.ExtraHosts := [];
     container.IpcMode := "private";
     container.PidMode := "";
     container.Privileged := false;
     container.ReadonlyRootfs := true;
     container.SecurityOpt := ["no-new-privileges"];
     container.Runtime := "runc";
     container.Resources_ :=
       {| container.CPUShares := 512;
          container.Memory := 268435456;
          container.NanoCPUs := 0;
          container.CgroupParent := "";
          container.CpusetCpus := "";
          container.Devices := [container.mkDeviceMapping "/dev/fuse" "/dev/fuse" "rwm"];
          container.DeviceCgroupRules := [];
          container.PidsLimit := None |} |}.

Definition sampleConfig : container.Config :=
  {| container.Hostname := "c1";
     container.Domainname := "";
     container.User := "";
     container.AttachStdin := false;
     container.AttachStdout := false;
     container.AttachStderr := false;
     container.ExposedPorts := {[ "80/tcp" ]};
     container.Tty := false;
     container.OpenStdin := false;
     container.StdinOnce := false;
     container.Env := ["PATH=/usr/bin:/bin"];
     container.Cmd := ["sleep"; "300"];
     container.Image := "busybox:latest";
     container.Volumes := ∅;
     container.WorkingDir := "/";
     container.Entrypoint := [];
     container.Labels := ∅;
     container.StopSignal := "" |}.

Definition sampleState : ContainerState :=
  {| ID := "4f5e6d7c8b9a4f5e6d7c8b9a4f5e6d7c8b9a4f5e6d7c8b9a4f5e6d7c8b9a0123";
     Name := "c1";
     Image := "busybox:latest";
     Config := Some sampleConfig;
     HostConfig := Some sampleHostConfig;
     NetworkConfig := ∅;
     Mounts := [types.mkMountPoint "bind" "" "/tmp/d1" "/data" "" "" true "rprivate"];
     ProcessPID := 4242;
     Created := time.mkTime 0;
     RootFS := "";
     Runtime := "runc";
     BundlePath := "";
     CgroupPath := "";
     Namespaces := ∅;
     Environment := {[ "PATH" := "/usr/bin:/bin" ]};
     Labels := ∅ |}.

Definition sampleMetadata : checkpoint.CheckpointMetadata :=
  {| checkpoint.ContainerState_ := Some sampleState;
     checkpoint.MountMappings := [dataMount];
     checkpoint.CheckpointPath := "/out/c1/checkpoint";
     checkpoint.CreatedAt := "2024-01-01T00:00:00Z";
     checkpoint.Version := "1.0" |}.

(** A stand-in codec of the engine's types: it knows the samples only. *)
#[export] Instance codec : Json := {|
  json_MarshalIndent_state := fun _ => Ok "{state}";
  json_Unmarshal_state := fun _ => Ok sampleState;
  json_Unmarshal_metadata := fun _ => Ok sampleMetadata
|}.

(** The mount mappings of the samples, as they are saved. *)
Definition mappingsFile : string :=
  match json.MarshalIndent_mappings [dataMount] with
  | Ok data => data
  | Fail _ => EmptyString
  end.

(** A complete checkpoint of [c1] under /out/c1/checkpoint; the source of
    the data mount is gone. When the engine is called, it answers with the
    errors given. *)
Definition checkpointed (dumpErr execErr restoreErr : error) : World :=
  {| dirs := ["/out/c1/checkpoint"; "/out/c1/checkpoint/images"];
     files := [ ("/out/c1/checkpoint/container_metadata.json", "{state}");
                ("/out/c1/checkpoint/mount_mappings.json", mappingsFile);
                ("/out/c1/checkpoint/checkpoint_metadata.json", "{metadata}");
                ("/out/c1/checkpoint/images/pstree.img", "img") ];
     denied := [];
     containers := [];
     dumpErr := dumpErr;
     execErr := execErr;
     restoreErr := restoreErr |}.

(** The same directory with the terminal marker missing. *)
Definition incompleteCheckpoint : World :=
  {| dirs := ["/out/c1/checkpoint"; "/out/c1/checkpoint/images"];
     files := [ ("/out/c1/checkpoint/container_metadata.json", "{state}");
                ("/out/c1/checkpoint/mount_mappings.json", mappingsFile);
                ("/out/c1/checkpoint/images/pstree.img", "img") ];
     denied := [];
     containers := [];
     dumpErr := nil;
     execErr := nil;
     restoreErr := nil |}.

Definition restoreConfig : restore.RestoreConfig :=
  {| restore.CheckpointDir := "/out/c1/checkpoint";
     restore.NewContainerName := "c1-restored";
     restore.LogLevel := 4;
     restore.ManageCgroups := false;
     restore.TcpEstablished := false;
     restore.RestoreSibling := false;
     restore.Shell := true;
     restore.ValidateEnv := true;
     restore.AutoFixMounts := true;
     restore.SkipMounts := [] |}.

End Toy.

(** A second sample host: as a POSIX file system does, it cannot examine
    a path below a regular file. There [os.Stat] fails with an error
    that is not [os.IsNotExist], and [os.MkdirAll] fails as well. *)
Module Nested.

Definition belowFile (w : Toy.World) (p : string) : bool :=
  existsb (fun '(f, _) => String.prefix (f +:+ "/") p) (Toy.files w).

Definition stat (w : Toy.World) (p : string) : StatResult :=
  if belowFile w p then StatFailed else Toy.stat w p.

Definition mkdirAll (w : Toy.World) (p : string) (perm : Z) : Toy.World * error :=
  if belowFile w p then (w, mkError ("mkdir " +:+ p +:+ ": not a directory"))
  else Toy.mkdirAll w p perm.

Definition host : Host := {|
  world := Toy.World;
  os_Stat := stat;
  os_ReadFile := Toy.readFile;
  os_ReadDir := Toy.readDir;
  os_Open := Toy.open;
  os_MkdirAll := mkdirAll;
  os_WriteFile := Toy.writeFile;
  filepath_Join := fun elems => strings.Join elems "/";
  filepath_Dir := Toy.dirOf;
  rangeOrder := fun _ entries => entries;
  time_ParseRFC3339Nano := fun _ => Fail "cannot parse";
  time_Now := fun _ => time.mkTime 0;
  client_ContainerInspect := Toy.inspect;
  client_ContainerCreate := Toy.create;
  client_ContainerStart := fun w id => Toy.setStateOf id true 4242 w;
  client_ContainerStop := fun w id _ => Toy.setStateOf id false 0 w;
  client_ContainerLogs := fun w _ _ => (w, Ok "");
  criu_PreDump := fun w _ => (w, nil);
  criu_Dump := fun w _ => (w, Toy.dumpErr w);
  criu_Restore := fun w _ => (w, Toy.restoreErr w);
  exec_CombinedOutput := fun w _ _ _ => (w, ("", Toy.execErr w))
|}.

(** A disk image under /srv, and a mapping whose host path lies below it. *)
Definition world : Toy.World :=
  {| Toy.dirs := ["/srv"];
     Toy.files := [("/srv/disk.img", "img")];
     Toy.denied := [];
     Toy.containers := [];
     Toy.dumpErr := nil;
     Toy.execErr := nil;
     Toy.restoreErr := nil |}.


End Nested.

(** * Further functions of the packages

    Further functions of the same source files: the restore by
    subprocess, the checkpoint of a container from end to end, the
    listing of a checkpoint, the defaults of a restore and the viewer of
    mount mappings. *)

(** ** Package checkpoint: the restore by subprocess (pkg/checkpoint/criu_cmd.go) *)

Module criuCmd.
Import checkpoint.

(** The argument vector [RestoreProcessCmd] hands to [exec.Command]. *)
Definition RestoreProcessCmd_args (opts : RestoreOptions) : list string :=
  let args :=
    [ "restore";
      "-D"; rImagesDir opts;
      "--log-file"; rLogFile opts;
      "-v4";
      "--tcp-established";
      "--file-locks";
      "--link-remap";
      "--manage-cgroups";
      "--enable-external-sharing";
      "--enable-external-masters";
      "--enable-fs"; "hugetlbfs";
      "--enable-fs"; "tracefs" ] in
  let args := if RestoreSibling opts then args ++ ["--restore-sibling"] else args in
  let args := if rShell opts then args ++ ["--shell-job"] else args in
  let args := if nonEmpty (PidFile opts) then args ++ ["--pidfile"; PidFile opts] else args in
  let args := fold_left (fun args ext => args ++ ["--external"; ext]) (rExternal opts) args in
  fold_left (fun args mapping => args ++ ["--ext-mount-map"; mapping]) (ExtMountMap opts) args.

Section criuCmd.
Context `{Host}.

Definition RestoreProcessCmd (opts : RestoreOptions) : M error :=
  log InfoLevel "Starting CRIU restore via command";;
  let args := RestoreProcessCmd_args opts in
  log DebugLevel ("Executing: criu " +:+ strings.Join args " ");;
  '(output, err) ← invoke (fun w => exec_CombinedOutput w "criu" args (rWorkDir opts))
                          (fun r => EvExec "criu" args (rWorkDir opts) r.1 r.2);
  match err with
  | mkError msg =>
      log ErrorLevel ("CRIU restore command failed: " +:+ output);;
      mret (mkError ("CRIU restore failed: " +:+ msg +:+ LF +:+ "Output: " +:+ output))
  | nil =>
      log InfoLevel "CRIU restore completed successfully";;
      mret nil
  end.

End criuCmd.
End criuCmd.

(** ** Package checkpoint: the checkpoint of a container (checkpoint manager) *)

(** [json.MarshalIndent] at [CheckpointMetadata], which embeds the types
    of the Docker API, and [Time.UTC().Format(time.RFC3339)]: both lie
    outside these packages. *)
Class MetadataCodec := {
  json_MarshalIndent_metadata : checkpoint.CheckpointMetadata -> result string;
  time_FormatRFC3339 : time.Time -> string
}.

Module checkpointing.
Import checkpoint.

(** [type CheckpointConfig struct] of the checkpoint manager. *)
Record CheckpointConfig := mkCheckpointConfig {
  OutputDir         : string;
  CheckpointName    : string;
  cLeaveRunning     : bool;
  cTcpEstablished   : bool;
  cFileLocks        : bool;
  cPreDump          : bool;
  cLogLevel         : Z;
  cManageCgroups    : bool;
  cShell            : bool
}.

(** The options [Checkpoint] hands to [CheckpointProcess]. *)
Definition criuOptions (config : CheckpointConfig) (checkpointDir imagesDir logFile : string)
    (externalMounts : list string) : CheckpointOptions :=
  {| WorkDir := checkpointDir;
     ImagesDir := imagesDir;
     LogFile := logFile;
     LogLevel := cLogLevel config;
     External := externalMounts;
     ManageCgroups := cManageCgroups config;
     TcpEstablished := cTcpEstablished config;
     FileLocks := cFileLocks config;
     LeaveRunning := cLeaveRunning config;
     Shell := cShell config;
     PreDump := cPreDump config;
     TrackMem := cPreDump config |}.

Section checkpointing.
Context `{Host} `{Json} `{MetadataCodec}.

(** [utils.GetCurrentTimestamp]. *)
Definition GetCurrentTimestamp : M string :=
  observe (fun w => time_FormatRFC3339 (time_Now w)).

Definition saveCheckpointMetadata (metadata : CheckpointMetadata) (filePath : string) : M error :=
  match json_MarshalIndent_metadata metadata with
  | Fail msg => mret (mkError ("failed to marshal checkpoint metadata: " +:+ msg))
  | Ok data => utils.WriteFile filePath data
  end.

Definition Checkpoint (containerName : string) (config : CheckpointConfig) : M error :=
  log InfoLevel ("Starting checkpoint of container: " +:+ containerName);;
  (* 1. Get container state from Docker *)
  state ← dockerManager.GetContainerState containerName;
  match state with
  | Fail msg => mret (mkError ("failed to get container state: " +:+ msg))
  | Ok state =>
  short ← sliceTo 12 (ID state);
  log InfoLevel ("Container info - ID: " +:+ short +:+ ", PID: " +:+ fmt.d (ProcessPID state));;
  (* 2. Prepare checkpoint directory *)
  let checkpointDir := filepath_Join [OutputDir config; Name state; CheckpointName config] in
  let imagesDir := filepath_Join [checkpointDir; "images"] in
  err ← utils.EnsureDir imagesDir;
  match err with
  | mkError msg => mret (mkError ("failed to create checkpoint directory: " +:+ msg))
  | nil =>
  log InfoLevel ("Checkpoint directory: " +:+ checkpointDir);;
  (* 3. Get mount mappings; the error of [GetMountMappings] is always nil *)
  let mountMappings := dockerManager.GetMountMappings state in
  (* 4. Validate mount sources and prepare external mounts *)
  err ← CRIUManager.ValidateMountSources mountMappings;
  match err with
  | mkError msg => mret (mkError ("mount validation failed: " +:+ msg))
  | nil =>
  let externalMounts := CRIUManager.BuildExternalMountMappings mountMappings in
  (* 5. Save mount mappings for restore *)
  let mountMappingsFile := filepath_Join [checkpointDir; "mount_mappings.json"] in
  err ← checkpointManager.SaveMountMappings mountMappings mountMappingsFile;
  match err with
  | mkError msg => mret (mkError ("failed to save mount mappings: " +:+ msg))
  | nil =>
  (* 6. Save container metadata *)
  let metadataFile := filepath_Join [checkpointDir; "container_metadata.json"] in
  err ← dockerManager.SaveContainerMetadata state metadataFile;
  match err with
  | mkError msg => mret (mkError ("failed to save container metadata: " +:+ msg))
  | nil =>
  (* 7. Configure CRIU checkpoint options *)
  let criuOpts :=
    criuOptions config checkpointDir imagesDir (filepath_Join [checkpointDir; "dump.log"])
                externalMounts in
  (* 8. Perform CRIU checkpoint *)
  err ← CRIUManager.CheckpointProcess (ProcessPID state) criuOpts;
  match err with
  | mkError msg => mret (mkError ("CRIU checkpoint failed: " +:+ msg))
  | nil =>
  (* 9. Save checkpoint metadata *)
  createdAt ← GetCurrentTimestamp;
  let metadata :=
    {| ContainerState_ := Some state;
       MountMappings := mountMappings;
       CheckpointPath := checkpointDir;
       CreatedAt := createdAt;
       Version := "1.0" |} in
  let metadataPath := filepath_Join [checkpointDir; "checkpoint_metadata.json"] in
  err ← saveCheckpointMetadata metadata metadataPath;
  match err with
  | mkError msg => mret (mkError ("failed to save checkpoint metadata: " +:+ msg))
  | nil =>
  log InfoLevel ("Checkpoint completed successfully: " +:+ checkpointDir);;
  mret nil
  end end end end end end end.

Definition ListCheckpointFiles (checkpointDir : string) : M (result (list string)) :=
  let imagesDir := filepath_Join [checkpointDir; "images"] in
  exists_ ← utils.DirExists imagesDir;
  if negb exists_ then
    mret (Fail ("checkpoint images directory not found: " +:+ imagesDir))
  else
  files ← utils.ListFiles imagesDir;
  match files with
  | Fail msg => mret (Fail ("failed to list checkpoint files: " +:+ msg))
  | Ok files =>
      mret (Ok (fold_left (fun fileList file =>
                             fileList ++ [fiName file +:+ " (" +:+ fmt.d (fiSize file) +:+ " bytes)"])
                          files []))
  end.

End checkpointing.
End checkpointing.

(** ** Package restore: the defaults of a restore *)

Module restoreDefaults.
Import restore.

Section restoreDefaults.
Context `{Host} `{Json}.

(** [metadata.ContainerState] is dereferenced for its name: a nil pointer
    panics. *)
Definition GetRestoreOptions (checkpointDir : string) : M (result RestoreConfig) :=
  metadata ← checkpointManager.GetCheckpointInfo checkpointDir;
  match metadata with
  | Fail msg => mret (Fail ("failed to load checkpoint metadata: " +:+ msg))
  | Ok metadata =>
  match checkpoint.ContainerState_ metadata with
  | None => panic
  | Some state =>
      mret (Ok {| CheckpointDir := checkpointDir;
                  NewContainerName := Name state +:+ "-restored";
                  LogLevel := 4;
                  ManageCgroups := false;
                  TcpEstablished := false;
                  RestoreSibling := false;
                  Shell := true;
                  ValidateEnv := true;
                  AutoFixMounts := true;
                  SkipMounts := [] |})
  end end.

End restoreDefaults.
End restoreDefaults.

(** ** Package inspect: the viewer of mount mappings (pkg/inspect/viewer.go) *)

Module inspect.

(** One line of the text of [ShowMountMappings]. *)
Definition mappingLine (mapping : MountMapping) : string :=
  let external := if IsExternal mapping then " [EXTERNAL]" else "" in
  let readOnly := if ReadOnly mapping then " [RO]" else "" in
  "  " +:+ ContainerPath mapping +:+ " -> " +:+ HostPath mapping
       +:+ " (" +:+ Type_ mapping +:+ ")" +:+ external +:+ readOnly +:+ LF.

Definition ShowMountMappings (mappings : list MountMapping) (format : string) : result string :=
  if String.eqb format "json" then
    match json.MarshalIndent_mappings mappings with
    | Fail msg => Fail msg
    | Ok data => Ok data
    end
  else
    Ok (fold_left (fun output mapping => output +:+ mappingLine mapping)
                  mappings ("Mount Mappings:" +:+ LF)).

End inspect.

(** ** Vocabulary of the further properties *)

Module Behaviour.

(** A line handed to the logger. *)
Definition isLog (e : Event) : bool :=
  match e with
  | EvLog _ _ => true
  | _ => false
  end.

(** A call that may change the world. *)
Definition isCall (e : Event) : bool := negb (isLog e).

(** A write of a file. *)
Definition isWrite (e : Event) : bool :=
  match e with
  | EvWriteFile _ _ _ _ => true
  | _ => false
  end.

(** A request to the engine for a dump: the pre-dump, the structured
    call, or the subprocess. *)
Definition engineCall (e : Event) : bool :=
  match e with
  | EvPreDump _ _ | EvDump _ _ | EvExec _ _ _ _ _ => true
  | _ => false
  end.

(** A write of a file, or a request to the engine. *)
Definition ledgerEvent (e : Event) : bool := isWrite e || engineCall e.

(** An attempt at the dump that succeeded. *)
Definition succeeded (e : Event) : bool :=
  match e with
  | EvDump _ nil => true
  | EvExec _ _ _ _ nil => true
  | _ => false
  end.

(** The options of the criu command line that take the next word as
    their operand. *)
Definition withOperand : list string :=
  ["-t"; "-D"; "--log-file"; "--enable-fs"; "--skip-mnt"; "--external"; "--pidfile";
   "--ext-mount-map"].

(** The operands an argument vector gives to the option [opt], in order. *)
Fixpoint operands (opt : string) (args : list string) : list string :=
  match args with
  | [] => []
  | a :: rest =>
      if existsb (String.eqb a) withOperand then
        match rest with
        | [] => []
        | v :: rest' => (if String.eqb a opt then [v] else []) ++ operands opt rest'
        end
      else operands opt rest
  end.

(** The words of an argument vector that stand for themselves: neither
    an option with an operand nor its operand. *)
Fixpoint switches (args : list string) : list string :=
  match args with
  | [] => []
  | a :: rest =>
      if existsb (String.eqb a) withOperand then
        match rest with
        | [] => []
        | _ :: rest' => switches rest'
        end
      else a :: switches rest
  end.

(** A mount of a container with a source, whose destination does not
    begin with the bytes /proc, /sys or /dev. *)
Definition userMount (mount : types.MountPoint) : Prop :=
  types.Source mount <> "" /\
  ~ Spec.beginsWith "/proc" (types.Destination mount) /\
  ~ Spec.beginsWith "/sys" (types.Destination mount) /\
  ~ Spec.beginsWith "/dev" (types.Destination mount).

#[global] Instance userMount_dec (mount : types.MountPoint) : Decision (userMount mount) :=
  ltac:(unfold userMount; exact _).

(** A string as the codec of the mount mappings hands it back: each
    byte that begins no well-formed encoding gives way to U+FFFD, the
    well-formed encodings stay. [pending] bytes of the encoding at hand
    are still to be kept. *)
Fixpoint coerceFrom (pending : nat) (s : string) : string :=
  match s with
  | EmptyString => EmptyString
  | String c r =>
      match pending with
      | S k => String c (coerceFrom k r)
      | O =>
          match utf8.runeLen s with
          | Some n => String c (coerceFrom (Nat.pred n) r)
          | None => utf8.encodeRune utf8.RuneError +:+ coerceFrom 0 r
          end
      end
  end.

Definition coerced (s : string) : string := coerceFrom 0 s.

Definition coercedMapping (m : MountMapping) : MountMapping :=
  {| ContainerPath := coerced (ContainerPath m);
     HostPath := coerced (HostPath m);
     Type_ := coerced (Type_ m);
     Options := coerced (Options m);
     IsExternal := IsExternal m;
     ReadOnly := ReadOnly m |}.

Section Behaviour.
Context `{Host}.

(** [m] leaves the world as it is and appends nothing but log lines. *)
Definition logsOnly {A} (m : M A) : Prop :=
  forall s, now (m s).2 = now s /\
            exists new, trace (m s).2 = trace s ++ new /\ Forall (fun e => isLog e = true) new.

(** A checkpoint directory as [ValidateCheckpoint] accepts it: the
    directory and its images directory are directories, the three files
    exist, and the images directory lists an entry whose [Info()]
    succeeds. *)
Definition complete (w : world) (checkpointDir : string) : Prop :=
  os_Stat w checkpointDir = StatInfo true /\
  os_Stat w (filepath_Join [checkpointDir; "container_metadata.json"]) <> StatNotExist /\
  os_Stat w (filepath_Join [checkpointDir; "mount_mappings.json"]) <> StatNotExist /\
  os_Stat w (filepath_Join [checkpointDir; "checkpoint_metadata.json"]) <> StatNotExist /\
  os_Stat w (filepath_Join [checkpointDir; "images"]) = StatInfo true /\
  exists entries, os_ReadDir w (filepath_Join [checkpointDir; "images"]) = Ok entries /\
                  omap id entries <> [].

(** The message [RestoreProcess] hands to the engine, [fd] being the
    descriptor of the opened images directory. *)
Definition restoreMessage (opts : checkpoint.RestoreOptions) (fd : Z) : rpc.CriuOpts :=
  {| rpc.LogLevel := Some (int32 (checkpoint.rLogLevel opts));
     rpc.LogFile := Some (checkpoint.rLogFile opts);
     rpc.ManageCgroups := Some (checkpoint.rManageCgroups opts);
     rpc.TcpEstablished := Some (checkpoint.rTcpEstablished opts);
     rpc.RstSibling := Some (checkpoint.RestoreSibling opts);
     rpc.ShellJob := Some (checkpoint.rShell opts);
     rpc.External := checkpoint.rExternal opts ++ checkpoint.ExtMountMap opts;
     rpc.EmptyNs := Some (uint32 (checkpoint.EmptyNs opts));
     rpc.ImagesDirFd := Some (int32 fd);
     rpc.Pid := None;
     rpc.FileLocks := None;
     rpc.LeaveRunning := None;
     rpc.ExtUnixSk := None;
     rpc.GhostLimit := None;
     rpc.ManageCgroupsMode := None;
     rpc.WorkDirFd := None;
     rpc.TrackMem := None |}.

(** What [RestoreProcess] asks of the runtime and the engine, and what
    it returns: nothing, and then it does not return nil; or the engine
    restore, once, and then it returns as that call did. *)
Definition restoreProcessCalls (opts : checkpoint.RestoreOptions)
    (o : Outcome error) (calls : list Event) : Prop :=
  (calls = [] /\ o <> Done nil) \/
  exists fd err,
    calls = [EvRestore (restoreMessage opts fd) err] /\
    o = Done (match err with
              | nil => nil
              | mkError msg => mkError ("CRIU restore failed: " +:+ msg)
              end).

(** What a function that saves one file leaves among the writes and
    the requests to the engine, and what it returns: an error, having
    written nothing or failed to write the file; or nil, having written
    it. *)
Definition savedAs (path : string) (o : Outcome error) (calls : list Event) : Prop :=
  (exists msg, o = Done (mkError msg) /\
     (calls = [] \/
      exists data cause, calls = [EvWriteFile path data utils.perm0644 (mkError cause)])) \/
  (exists data, o = Done nil /\ calls = [EvWriteFile path data utils.perm0644 nil]).

(** What [CheckpointProcess] leaves there: requests to the engine only,
    the last of which is an attempt at the dump that succeeded when it
    returns nil. *)
Definition dumpPhase (o : Outcome error) (calls : list Event) : Prop :=
  Forall (fun e => engineCall e = true) calls /\
  (o = Done nil -> exists pre last, calls = pre ++ [last] /\ succeeded last = true).

(** The writes and the requests to the engine of a run of [Checkpoint],
    in order, with its outcome [o]: the mount mappings, the container
    metadata, the requests, and the checkpoint metadata, each step only
    after the one before has succeeded. *)
Definition checkpointLedger (o : Outcome error) (calls : list Event) : Prop :=
  exists checkpointDir,
    let mappingsFile := filepath_Join [checkpointDir; "mount_mappings.json"] in
    let stateFile := filepath_Join [checkpointDir; "container_metadata.json"] in
    let metadataFile := filepath_Join [checkpointDir; "checkpoint_metadata.json"] in
    (calls = [] /\ o <> Done nil) \/
    (exists d r,
       calls = [EvWriteFile mappingsFile d utils.perm0644 r] /\ o <> Done nil) \/
    (exists d d' cause,
       calls = [EvWriteFile mappingsFile d utils.perm0644 nil;
                EvWriteFile stateFile d' utils.perm0644 (mkError cause)] /\ o <> Done nil) \/
    (exists d d' attempts,
       calls = EvWriteFile mappingsFile d utils.perm0644 nil
               :: EvWriteFile stateFile d' utils.perm0644 nil :: attempts /\
       Forall (fun e => engineCall e = true) attempts /\ o <> Done nil) \/
    (exists d d' attempts last d'' r,
       calls = EvWriteFile mappingsFile d utils.perm0644 nil
               :: EvWriteFile stateFile d' utils.perm0644 nil
               :: attempts ++ [last; EvWriteFile metadataFile d'' utils.perm0644 r] /\
       Forall (fun e => engineCall e = true) attempts /\
       succeeded last = true /\
       (o = Done nil <-> r = nil)).

(** An inspect request, or a structured call of the engine for a dump. *)
Definition inspectOrDump (e : Event) : bool :=
  match e with
  | EvContainerInspect _ _ | EvPreDump _ _ | EvDump _ _ => true
  | _ => false
  end.

(** The message of the structured dump call that [Checkpoint] makes for
    the container [containerJSON] under [config], the two directories
    being opened at [workFd] and [imagesFd]. *)
Definition dumpRequest (containerJSON : types.ContainerJSON)
    (config : checkpointing.CheckpointConfig) (workFd imagesFd : Z) : rpc.CriuOpts :=
  let checkpointDir :=
    filepath_Join [checkpointing.OutputDir config;
                   strings.TrimSlash (types.cjName containerJSON);
                   checkpointing.CheckpointName config] in
  {| rpc.Pid := Some (int32 (types.StatePid containerJSON));
     rpc.LogLevel := Some (int32 (checkpointing.cLogLevel config));
     rpc.LogFile := Some (filepath_Join [checkpointDir; "dump.log"]);
     rpc.ManageCgroups := Some (checkpointing.cManageCgroups config);
     rpc.TcpEstablished := Some (checkpointing.cTcpEstablished config);
     rpc.FileLocks := Some (checkpointing.cFileLocks config);
     rpc.LeaveRunning := Some (checkpointing.cLeaveRunning config);
     rpc.ShellJob := Some (checkpointing.cShell config);
     rpc.External :=
       Spec.allowList
         ++ map (fun mount => Spec.descriptor (types.Destination mount))
                (filter userMount (types.cjMounts containerJSON));
     rpc.ExtUnixSk := Some true;
     rpc.GhostLimit := Some 0%Z;
     rpc.ManageCgroupsMode := Some rpc.CgSOFT;
     rpc.ImagesDirFd := Some (int32 imagesFd);
     rpc.WorkDirFd := Some (int32 workFd);
     rpc.RstSibling := None;
     rpc.TrackMem := None;
     rpc.EmptyNs := None |}.

(** The message of the pre-dump: that of the dump, with memory tracking
    on and established connections off. *)
Definition preDumpRequest (containerJSON : types.ContainerJSON)
    (config : checkpointing.CheckpointConfig) (workFd imagesFd : Z) : rpc.CriuOpts :=
  rpc.setTcpEstablished (Some false)
    (rpc.setTrackMem (Some true) (dumpRequest containerJSON config workFd imagesFd)).

(** The structured calls for a dump: without pre-dump the dump alone;
    with it the pre-dump, and the dump exactly when the pre-dump
    succeeded. *)
Definition engineRequests (preDump : bool) (preDumpOpts dumpOpts : rpc.CriuOpts)
    (o : Outcome error) (calls : list Event) : Prop :=
  if preDump then
    (exists msg, calls = [EvPreDump preDumpOpts (mkError msg)] /\ o <> Done nil) \/
    (exists r, calls = [EvPreDump preDumpOpts nil; EvDump dumpOpts r])
  else exists r, calls = [EvDump dumpOpts r].

(** The inspect requests and structured engine calls of a run of
    [Checkpoint] that ends as [o]: always the inspect request of the
    named container, first and once. When that fails or finds the
    container not running, nothing more, and the error says so. When it
    finds the container running: nothing more, and then the result is
    not nil; or the engine requests for the inspected container. *)
Definition checkpointRequests (containerName : string)
    (config : checkpointing.CheckpointConfig) (o : Outcome error) (calls : list Event) : Prop :=
  exists inspected rest,
    calls = EvContainerInspect containerName inspected :: rest /\
    match inspected with
    | Fail cause =>
        rest = [] /\
        o = Done (mkError ("failed to get container state: failed to inspect container: "
                           +:+ cause))
    | Ok containerJSON =>
        if types.StateRunning containerJSON then
          (rest = [] /\ o <> Done nil) \/
          exists workFd imagesFd,
            engineRequests (checkpointing.cPreDump config)
              (preDumpRequest containerJSON config workFd imagesFd)
              (dumpRequest containerJSON config workFd imagesFd) o rest
        else
          rest = [] /\
          o = Done (mkError ("failed to get container state: container " +:+ containerName
                             +:+ " is not running"))
    end.

(** What the runtime and the engine answer in the course of a restore. *)
Record RestoreAnswers := mkRestoreAnswers {
  created   : result string;
  started   : error;
  inspected : result types.ContainerJSON;
  stopped   : error;
  imagesFd  : Z;
  restored  : error;
  requeried : result types.ContainerJSON;
  logged    : result string
}.

(** The message of the engine restore that [Restore] makes under
    [config] for the mappings loaded from the checkpoint. *)
Definition restoreRequest (config : restore.RestoreConfig) (mappings : list MountMapping)
    (fd : Z) : rpc.CriuOpts :=
  {| rpc.LogLevel := Some (int32 (restore.LogLevel config));
     rpc.LogFile := Some (filepath_Join [restore.CheckpointDir config; "restore.log"]);
     rpc.ManageCgroups := Some (restore.ManageCgroups config);
     rpc.TcpEstablished := Some (restore.TcpEstablished config);
     rpc.RstSibling := Some (restore.RestoreSibling config);
     rpc.ShellJob := Some (restore.Shell config);
     rpc.External :=
       restoreManager.buildExternalMountArgs mappings (restore.SkipMounts config)
         ++ CRIUManager.BuildExtMountMapArgs mappings;
     rpc.EmptyNs := Some 64%Z;
     rpc.ImagesDirFd := Some (int32 fd);
     rpc.Pid := None;
     rpc.FileLocks := None;
     rpc.LeaveRunning := None;
     rpc.ExtUnixSk := None;
     rpc.GhostLimit := None;
     rpc.ManageCgroupsMode := None;
     rpc.WorkDirFd := None;
     rpc.TrackMem := None |}.

(** The requests of a restore in their order, each with whether the
    restore goes on after it: create the container, start it, inspect
    it, stop it, have the engine restore, inspect the new name, fetch
    the logs. *)
Definition restoreScript (config : restore.RestoreConfig)
    (containerConfig : container.Config) (hostConfig : container.HostConfig)
    (mappings : list MountMapping) (a : RestoreAnswers) : list (Event * bool) :=
  let newName := restore.NewContainerName config in
  let containerID := match created a with Ok id => id | Fail _ => EmptyString end in
  [ (EvContainerCreate containerConfig hostConfig newName (created a),
     match created a with Ok _ => true | Fail _ => false end);
    (EvContainerStart containerID (started a),
     match started a with nil => true | mkError _ => false end);
    (EvContainerInspect containerID (inspected a),
     match inspected a with
     | Ok containerJSON => negb (types.StatePid containerJSON =? 0)%Z
     | Fail _ => false
     end);
    (EvContainerStop containerID (Some 5%Z) (stopped a), true);
    (EvRestore (restoreRequest config mappings (imagesFd a)) (restored a),
     match restored a with nil => true | mkError _ => false end);
    (EvContainerInspect newName (requeried a),
     match requeried a with
     | Ok containerJSON => types.StateRunning containerJSON
     | Fail _ => false
     end);
    (EvContainerLogs
       (match requeried a with Ok containerJSON => types.cjID containerJSON
                          | Fail _ => EmptyString end)
       "10" (logged a), true) ].

(** [calls] are the first requests of the script, and the restore went
    on after each of them but the last. *)
Definition followsScript (script : list (Event * bool)) (calls : list Event) : Prop :=
  exists n,
    calls = map fst (firstn n script) /\
    Forall (fun step => snd step = true) (firstn (Nat.pred n) script).

End Behaviour.
End Behaviour.

(** ** Further samples *)

Module Samples.

(** The metadata of a checkpoint whose file holds [null] for the
    container state. *)
Definition statelessMetadata : checkpoint.CheckpointMetadata :=
  {| checkpoint.ContainerState_ := None;
     checkpoint.MountMappings := [dataMount];
     checkpoint.CheckpointPath := "/out/c1/checkpoint";
     checkpoint.CreatedAt := "2024-01-01T00:00:00Z";
     checkpoint.Version := "1.0" |}.

(** A stand-in codec that reads that metadata. *)
Definition statelessCodec : Json :=
  {| json_MarshalIndent_state := fun _ => Ok "{state}";
     json_Unmarshal_state := fun _ => Ok Toy.sampleState;
     json_Unmarshal_metadata := fun _ => Ok statelessMetadata |}.

End Samples.

(** * Properties *)

(** ** Lists and strings *)

Lemma fold_appendWhen {A B} (c : A -> bool) (f : A -> B) (xs : list A) (acc : list B) :
  fold_left (appendWhen c f) xs acc = acc ++ map f (List.filter c xs).
Proof.
  revert acc. induction xs as [|x xs IH]; intros acc; simpl.
  - now rewrite app_nil_r.
  - rewrite IH. unfold appendWhen. destruct (c x); simpl; [|reflexivity].
    now rewrite <- app_assoc.
Qed.

Lemma fold_snoc {A} (xs : list A) (acc : list A) :
  fold_left (fun acc x => acc ++ [x]) xs acc = acc ++ xs.
Proof.
  revert acc. induction xs as [|x xs IH]; intros acc; simpl.
  - now rewrite app_nil_r.
  - rewrite IH. now rewrite <- app_assoc.
Qed.

Lemma string_length_app (s t : string) :
  String.length (s +:+ t) = (String.length s + String.length t)%nat.
Proof. induction s as [|a s IH]; simpl; [reflexivity | now rewrite IH]. Qed.

Lemma append_right_inj (p q t : string) : p +:+ t = q +:+ t -> p = q.
Proof.
  intros Heq.
  assert (Hlen : String.length p = String.length q).
  { apply (f_equal String.length) in Heq. rewrite !string_length_app in Heq. lia. }
  revert q Heq Hlen. induction p as [|a p IH]; intros [|b q] Heq Hlen; simpl in *;
    try discriminate; [reflexivity|].
  injection Heq as -> Heq. f_equal. apply IH; [assumption | lia].
Qed.

Lemma mnt_inj (p q : string) : CRIUManager.mnt p = CRIUManager.mnt q -> p = q.
Proof.
  unfold CRIUManager.mnt. intros Heq. cbn in Heq.
  injection Heq as Heq. now apply (append_right_inj p q "]").
Qed.

Lemma string_app_assoc (a b c : string) : (a +:+ b) +:+ c = a +:+ b +:+ c.
Proof.
  induction a as [|x a IH]; [reflexivity|].
  change (String x ((a +:+ b) +:+ c) = String x (a +:+ b +:+ c)). now rewrite IH.
Qed.

Lemma contains_here (pre sub post : string) : Spec.contains sub (pre +:+ sub +:+ post).
Proof. now exists pre, post. Qed.

Lemma contains_append_l (pre sub s : string) :
  Spec.contains sub s -> Spec.contains sub (pre +:+ s).
Proof.
  intros (p & q & ->). exists (pre +:+ p), q. now rewrite string_app_assoc.
Qed.

Lemma contains_end (pre sub : string) : Spec.contains sub (pre +:+ sub).
Proof.
  exists pre, "". f_equal. induction sub as [|x sub IH]; [reflexivity|].
  change (String x sub = String x (sub +:+ "")). now rewrite <- IH.
Qed.

Lemma contains_String (c : ascii) (sub s : string) :
  Spec.contains sub s -> Spec.contains sub (String c s).
Proof. intros (p & q & ->). now exists (String c p), q. Qed.

Lemma nonEmpty_eqb (s : string) : nonEmpty s = negb (String.eqb s "").
Proof. now destruct s. Qed.

Lemma HasPrefix_beginsWith (path root : string) :
  strings.HasPrefix path root = true <-> Spec.beginsWith root path.
Proof.
  unfold strings.HasPrefix, Spec.beginsWith. revert path.
  induction root as [|a root IH]; intros path.
  - cbn. split; [intros _; apply prefix_nil | now destruct path].
  - destruct path as [|b path]; cbn.
    + split; [discriminate|]. intros [k Hk]. discriminate.
    + destruct (Ascii.ascii_dec a b) as [->|Hne].
      * rewrite IH. split; intros Hp; [now apply prefix_cons | now apply prefix_cons_inv_2 in Hp].
      * split; [discriminate|]. intros Hp. apply prefix_cons_inv_1 in Hp. congruence.
Qed.

Lemma not_HasPrefix_beginsWith (path root : string) :
  negb (strings.HasPrefix path root) = true <-> ~ Spec.beginsWith root path.
Proof.
  rewrite <- HasPrefix_beginsWith. now destruct (strings.HasPrefix path root).
Qed.

Lemma nonEmpty_ne (s : string) : nonEmpty s = true <-> s <> "".
Proof. destruct s; cbn; split; congruence. Qed.

Lemma userVolume_kept (m : MountMapping) : CRIUManager.userVolume m = true <-> Spec.kept m.
Proof.
  unfold CRIUManager.userVolume, Spec.kept.
  rewrite !andb_true_iff, !not_HasPrefix_beginsWith, nonEmpty_ne. tauto.
Qed.

(** A filter by a test is the filter by the property the test decides. *)
Lemma filter_decide {A} (f : A -> bool) (P : A -> Prop) `{!forall x, Decision (P x)}
    (l : list A) :
  (forall x, f x = true <-> P x) -> List.filter f l = filter P l.
Proof.
  intros Hf. induction l as [|x l IH]; [reflexivity|].
  cbn [List.filter]. rewrite filter_cons, IH.
  destruct (decide (P x)) as [HP|HP].
  - apply Hf in HP. now rewrite HP.
  - destruct (f x) eqn:Hfx; [|reflexivity]. apply Hf in Hfx. contradiction.
Qed.

Lemma filter_ext {A} (f g : A -> bool) (l : list A) :
  (forall x, f x = g x) -> List.filter f l = List.filter g l.
Proof.
  intros Hfg. induction l as [|x l IH]; simpl; [reflexivity|].
  now rewrite Hfg, IH.
Qed.

(** ** The mount reconciler at dump time *)

Lemma BuildExternalMountMappings_eq (ms : list MountMapping) :
  CRIUManager.BuildExternalMountMappings ms =
  CRIUManager.standardMounts
    ++ map (fun m => CRIUManager.mnt (ContainerPath m)) (List.filter CRIUManager.userVolume ms).
Proof. unfold CRIUManager.BuildExternalMountMappings. apply fold_appendWhen. Qed.

Lemma standardMounts_paths : CRIUManager.standardMounts = map CRIUManager.mnt Spec.standardPaths.
Proof. reflexivity. Qed.

Lemma filter_filter_and {A} (f g : A -> bool) (l : list A) :
  (forall x, f x = true -> g x = true) -> List.filter f (List.filter g l) = List.filter f l.
Proof.
  intros Hfg. induction l as [|x l IH]; simpl; [reflexivity|].
  destruct (g x) eqn:Hg; simpl.
  - now rewrite IH.
  - destruct (f x) eqn:Hf; [|assumption].
    apply Hfg in Hf. congruence.
Qed.

Lemma BuildExternalMountMappings_kept (ms : list MountMapping) :
  CRIUManager.BuildExternalMountMappings ms =
  Spec.allowList ++ map (fun m => Spec.descriptor (ContainerPath m)) (filter Spec.kept ms).
Proof.
  rewrite BuildExternalMountMappings_eq.
  now rewrite (filter_decide _ Spec.kept ms userVolume_kept).
Qed.



Lemma noSharedPath_map_mnt (ps : list string) :
  Spec.noSharedPath (map CRIUManager.mnt ps) <-> NoDup ps.
Proof.
  unfold Spec.noSharedPath. rewrite NoDup_alt. split.
  - intros Hns i j p Hi Hj.
    apply (Hns i j p); rewrite list_lookup_fmap; [now rewrite Hi | now rewrite Hj].
  - intros Hnd i j p Hi Hj. rewrite list_lookup_fmap in Hi, Hj.
    apply fmap_Some in Hi as (pi & Ei & Hi). apply fmap_Some in Hj as (pj & Ej & Hj).
    apply mnt_inj in Hi, Hj. subst. eapply Hnd; eassumption.
Qed.

(** C1, as stated, fails: two mappings of the same container path give two
    descriptors that name it. *)
Lemma BuildExternalMountMappings_repeats_path :
  ~ Spec.noSharedPath (CRIUManager.BuildExternalMountMappings [dataMount; dataMount]).
Proof.
  intros Hns. specialize (Hns 11%nat 12%nat "/data" eq_refl eq_refl). discriminate.
Qed.

(** A mapping onto a path of the allow-list repeats it as well. *)
Example BuildExternalMountMappings_repeats_allowlist :
  ~ Spec.noSharedPath
      (CRIUManager.BuildExternalMountMappings
         [ {| ContainerPath := "/etc/hosts"; HostPath := "/srv/hosts"; Type_ := "bind";
              Options := ""; IsExternal := true; ReadOnly := true |} ]).
Proof.
  intros Hns. specialize (Hns 8%nat 11%nat "/etc/hosts" eq_refl eq_refl). discriminate.
Qed.

(** C1, amended. The descriptors of [BuildExternalMountMappings] name
    pairwise different container paths exactly when the mappings that pass
    its filter have pairwise different container paths, none of which is a
    path of the fixed allow-list. *)
Theorem BuildExternalMountMappings_distinct_iff (ms : list MountMapping) :
  Spec.noSharedPath (CRIUManager.BuildExternalMountMappings ms) <->
  NoDup (map ContainerPath (List.filter CRIUManager.userVolume ms)) /\
  (forall p, In p (map ContainerPath (List.filter CRIUManager.userVolume ms)) ->
             ~ In p Spec.standardPaths).
Proof.
  rewrite BuildExternalMountMappings_eq, standardMounts_paths.
  rewrite <- (map_map ContainerPath CRIUManager.mnt), <- map_app.
  rewrite noSharedPath_map_mnt.
  set (ps := map ContainerPath (List.filter CRIUManager.userVolume ms)).
  assert (Hstd : NoDup Spec.standardPaths).
  { compute_done. }
  rewrite NoDup_app. split.
  - intros (_ & Hdisj & Hps). split; [assumption|].
    intros p Hp Hstdp. apply (Hdisj p); now apply list_elem_of_In.
  - intros [Hps Hdisj]. split; [assumption|]. split; [|assumption].
    intros p Hstdp Hp. apply (Hdisj p); now apply list_elem_of_In.
Qed.

(** ** The mount reconciler at restore time *)

Lemma skipped_makeSkipMap (skipMounts : list string) (k : string) :
  restoreManager.skipped (restoreManager.makeSkipMap skipMounts) k
  = bool_decide (k ∈ skipMounts).
Proof.
  unfold restoreManager.makeSkipMap, restoreManager.skipped.
  assert (Hgen : forall (m0 : gmap string bool),
    (forall k' b, m0 !! k' = Some b -> b = true) ->
    default false
      (fold_left (fun skipMap skip => <[skip := true]> skipMap) skipMounts m0 !! k)
    = bool_decide (k ∈ skipMounts) || default false (m0 !! k)).
  { induction skipMounts as [|x xs IH]; intros m0 Htrue; cbn [fold_left].
    - rewrite bool_decide_eq_false_2; [reflexivity | apply not_elem_of_nil].
    - rewrite IH.
      + destruct (decide (x = k)) as [->|Hne].
        * rewrite lookup_insert_eq. simpl.
          rewrite (bool_decide_eq_true_2 (k ∈ k :: xs)); [|left].
          now rewrite orb_true_r.
        * rewrite lookup_insert_ne by assumption.
          f_equal. apply bool_decide_ext. rewrite elem_of_cons. intuition congruence.
      + intros k' b. destruct (decide (x = k')) as [->|Hne].
        * rewrite lookup_insert_eq. congruence.
        * rewrite lookup_insert_ne by assumption. apply Htrue. }
  rewrite Hgen.
  - rewrite lookup_empty. simpl. now rewrite orb_false_r.
  - intros k' b. rewrite lookup_empty. discriminate.
Qed.

(** C6. The external-mount list for restore is made of the descriptors of
    the external mappings whose container path is not in the skip list, in
    order, followed by the three fixed entries for /proc, /dev and /sys,
    whatever the skip list holds; the mappings named by the skip list
    contribute nothing, so that dropping them from the input leaves the
    result unchanged. *)
Theorem buildExternalMountArgs_skips_and_keeps_essentials
    (ms : list MountMapping) (skipMounts : list string) :
  restoreManager.buildExternalMountArgs ms skipMounts =
    map restoreManager.restoreDescriptor
        (List.filter (fun m => IsExternal m && negb (bool_decide (ContainerPath m ∈ skipMounts))) ms)
    ++ ["mnt:/proc"; "mnt:/dev"; "mnt:/sys"]
  /\ restoreManager.buildExternalMountArgs
       (List.filter (fun m => negb (bool_decide (ContainerPath m ∈ skipMounts))) ms) skipMounts
     = restoreManager.buildExternalMountArgs ms skipMounts.
Proof.
  assert (Heq : forall l,
    restoreManager.buildExternalMountArgs l skipMounts =
    map restoreManager.restoreDescriptor
        (List.filter (fun m => IsExternal m && negb (bool_decide (ContainerPath m ∈ skipMounts))) l)
    ++ ["mnt:/proc"; "mnt:/dev"; "mnt:/sys"]).
  { intros l. unfold restoreManager.buildExternalMountArgs.
    rewrite fold_snoc, fold_appendWhen. simpl. f_equal. f_equal.
    apply filter_ext. intros m. now rewrite skipped_makeSkipMap. }
  split; [apply Heq|].
  rewrite !Heq. f_equal. f_equal.
  apply filter_filter_and. intros m Hm.
  now apply andb_true_iff in Hm as [_ Hm].
Qed.

(** The scenario of the design document: [/data] is skipped. *)
Example buildExternalMountArgs_skip_data :
  restoreManager.buildExternalMountArgs [dataMount] ["/data"]
  = ["mnt:/proc"; "mnt:/dev"; "mnt:/sys"].
Proof. vm_compute. reflexivity. Qed.

(** Skipping the three system paths removes the descriptors of their
    mappings and keeps the fixed entries. *)
Example buildExternalMountArgs_skip_system :
  restoreManager.buildExternalMountArgs (dataMount :: dockerManager.systemMounts)
                                        ["/proc"; "/dev"; "/sys"]
  = [ "mnt[/data]:/tmp/d1"; "mnt[/dev/shm]:/dev/shm"; "mnt[/dev/pts]:/dev/pts";
      "mnt[/dev/mqueue]:/dev/mqueue"; "mnt[/sys/fs/cgroup]:/sys/fs/cgroup";
      "mnt:/proc"; "mnt:/dev"; "mnt:/sys" ].
Proof. vm_compute. reflexivity. Qed.

(** ** The two dump invocations *)

Lemma fold_external (exts : list string) (acc : list string) :
  fold_left (fun args ext => args ++ ["--external"; ext]) exts acc
  = acc ++ flat_map (fun ext => ["--external"; ext]) exts.
Proof.
  revert acc. induction exts as [|e exts IH]; intros acc; simpl.
  - now rewrite app_nil_r.
  - rewrite IH. now rewrite <- app_assoc.
Qed.

Lemma passes_externals (flag : string) (exts : list string) :
  Spec.passes flag (flat_map (fun ext => ["--external"; ext]) exts) = false.
Proof. induction exts as [|e exts IH]; simpl; [reflexivity | exact IH]. Qed.

(** The structured call carries every switch as the options record has it. *)
Lemma dumpOpts_switches (sw : Spec.Switch) (pid : Z) (opts : checkpoint.CheckpointOptions) :
  Spec.structuredOf sw (CRIUManager.dumpOpts pid opts) = Some (Spec.fieldOf sw opts).
Proof. destruct sw; reflexivity. Qed.

(** So does the argument vector of [BuildCRIUCommandArgs]. *)
Lemma BuildCRIUCommandArgs_switches (sw : Spec.Switch) (pid : Z)
    (opts : checkpoint.CheckpointOptions) :
  Spec.passes (Spec.flagOf sw) (CRIUManager.BuildCRIUCommandArgs pid opts) = Spec.fieldOf sw opts.
Proof.
  unfold CRIUManager.BuildCRIUCommandArgs. rewrite fold_external.
  destruct sw; simpl;
    destruct (checkpoint.LeaveRunning opts), (checkpoint.TcpEstablished opts),
      (checkpoint.FileLocks opts), (checkpoint.ManageCgroups opts), (checkpoint.Shell opts);
    cbn; apply passes_externals || reflexivity.
Qed.

(** The argument vector of the fallback: three switches always on, the
    shell-job switch never, and only leave-running taken from the options. *)
Lemma CheckpointProcessCmd_args_switches (sw : Spec.Switch) (pid : Z)
    (opts : checkpoint.CheckpointOptions) :
  Spec.passes (Spec.flagOf sw) (CRIUManager.CheckpointProcessCmd_args pid opts) =
  match sw with
  | Spec.SwTcpEstablished | Spec.SwFileLocks | Spec.SwManageCgroups => true
  | Spec.SwShellJob => false
  | Spec.SwLeaveRunning => checkpoint.LeaveRunning opts
  end.
Proof.
  unfold CRIUManager.CheckpointProcessCmd_args. rewrite fold_external.
  destruct sw; simpl; destruct (checkpoint.LeaveRunning opts);
    cbn; apply passes_externals || reflexivity.
Qed.

(** C2, at the options of a shell job with every other switch off: the
    structured call carries tcp-established, file-locks and manage-cgroups
    as off and shell-job as on, and the fallback passes the first three and
    does not pass [--shell-job]. *)
Theorem CheckpointProcessCmd_args_ignore_options :
  let o := CRIUManager.dumpOpts 4242 shellJobOptions in
  let args := CRIUManager.CheckpointProcessCmd_args 4242 shellJobOptions in
  (Spec.structuredOf Spec.SwTcpEstablished o = Some false
     /\ Spec.passes "--tcp-established" args = true) /\
  (Spec.structuredOf Spec.SwFileLocks o = Some false
     /\ Spec.passes "--file-locks" args = true) /\
  (Spec.structuredOf Spec.SwManageCgroups o = Some false
     /\ Spec.passes "--manage-cgroups" args = true) /\
  (Spec.structuredOf Spec.SwShellJob o = Some true
     /\ Spec.passes "--shell-job" args = false) /\
  (forall sw, Spec.passes (Spec.flagOf sw) (CRIUManager.BuildCRIUCommandArgs 4242 shellJobOptions)
              = Spec.fieldOf sw shellJobOptions).
Proof.
  repeat split; try (vm_compute; reflexivity).
  intros sw. apply BuildCRIUCommandArgs_switches.
Qed.

(** ** Reasoning about runs *)

Section Emits.
Context `{Host}.

Lemma bind_run {A B} (m : M A) (k : A -> M B) (s : State) :
  (m ≫= k) s = match m s with
               | (Done a, s') => k a s'
               | (Panicked, s') => (Panicked, s')
               end.
Proof. reflexivity. Qed.

Lemma emits_weaken {A} (m : M A) (Q Q' : Outcome A -> list Event -> Prop) :
  emits m Q -> (forall o new, Q o new -> Q' o new) -> emits m Q'.
Proof. intros Hm HQ s. destruct (Hm s) as (new & Htr & Hq). eauto. Qed.

Lemma emits_mret {A} (a : A) (Q : Outcome A -> list Event -> Prop) :
  Q (Done a) [] -> emits (mret a) Q.
Proof. intros HQ s. exists []. simpl. now rewrite app_nil_r. Qed.

Lemma emits_panic {A} (Q : Outcome A -> list Event -> Prop) :
  Q Panicked [] -> emits panic Q.
Proof. intros HQ s. exists []. simpl. now rewrite app_nil_r. Qed.

Lemma emits_observe {A} (f : world -> A) (Q : Outcome A -> list Event -> Prop) :
  (forall a, Q (Done a) []) -> emits (observe f) Q.
Proof. intros HQ s. exists []. simpl. rewrite app_nil_r. auto. Qed.

Lemma emits_invoke {A} (f : world -> world * A) (ev : A -> Event)
    (Q : Outcome A -> list Event -> Prop) :
  (forall a, Q (Done a) [ev a]) -> emits (invoke f ev) Q.
Proof.
  intros HQ s. unfold invoke. destruct (f (now s)) as [w a].
  exists [ev a]. simpl. auto.
Qed.

Lemma emits_log (lvl : Level) (msg : string) (Q : Outcome unit -> list Event -> Prop) :
  Q (Done tt) [EvLog lvl msg] -> emits (log lvl msg) Q.
Proof. intros HQ s. exists [EvLog lvl msg]. simpl. auto. Qed.

Lemma emits_bind {A B} (m : M A) (k : A -> M B)
    (R : Outcome A -> list Event -> Prop) (Q : Outcome B -> list Event -> Prop) :
  emits m R ->
  (forall a new, R (Done a) new -> emits (k a) (fun o new' => Q o (new ++ new'))) ->
  (forall new, R Panicked new -> Q Panicked new) ->
  emits (m ≫= k) Q.
Proof.
  intros Hm Hk Hp s. unfold mbind, M_bind.
  destruct (Hm s) as (new & Htr & HR).
  destruct (m s) as [[a|] s1] eqn:Hms; simpl in *.
  - destruct (Hk a new HR s1) as (new' & Htr' & HQ).
    exists (new ++ new'). split; [|assumption].
    rewrite Htr', Htr. now rewrite app_assoc.
  - exists new. auto.
Qed.

Lemma emits_run {A} (m : M A) (Q : Outcome A -> list Event -> Prop) (w : world) :
  emits m Q -> Q (run m w).1 (trace (run m w).2).
Proof.
  intros Hm. unfold run. destruct (Hm (mkState w [])) as (new & Htr & HQ).
  simpl in Htr. now rewrite Htr.
Qed.

Lemma only_mret {A} p (a : A) : only p (mret a).
Proof. apply emits_mret. constructor. Qed.

Lemma only_panic {A} p : only p (@panic _ A).
Proof. apply emits_panic. constructor. Qed.

Lemma only_observe {A} p (f : world -> A) : only p (observe f).
Proof. apply emits_observe. constructor. Qed.

Lemma only_invoke {A} p (f : world -> world * A) (ev : A -> Event) :
  (forall a, p (ev a) = true) -> only p (invoke f ev).
Proof. intros Hev. apply emits_invoke. intros a. repeat constructor. apply Hev. Qed.

Lemma only_log p lvl msg : p (EvLog lvl msg) = true -> only p (log lvl msg).
Proof. intros Hp. apply emits_log. repeat constructor. exact Hp. Qed.

Lemma only_bind {A B} p (m : M A) (k : A -> M B) :
  only p m -> (forall a, only p (k a)) -> only p (m ≫= k).
Proof.
  intros Hm Hk. eapply emits_bind; [exact Hm | |].
  - intros a new Hnew. eapply emits_weaken; [apply Hk|].
    intros o new' Hnew'. cbv beta. apply Forall_app. auto.
  - auto.
Qed.

Lemma only_forRange {A R} p (xs : list A) (body : A -> M (option R)) :
  (forall x, only p (body x)) -> only p (forRange xs body).
Proof.
  intros Hbody. induction xs as [|x xs IH]; simpl.
  - apply only_mret.
  - apply only_bind; [apply Hbody|]. intros [r|]; [apply only_mret | exact IH].
Qed.

Lemma only_foldRange {A S} p (xs : list A) (body : S -> A -> M S) (acc : S) :
  (forall acc x, only p (body acc x)) -> only p (foldRange xs body acc).
Proof.
  intros Hbody. revert acc. induction xs as [|x xs IH]; intros acc; simpl.
  - apply only_mret.
  - apply only_bind; [apply Hbody | intros acc'; apply IH].
Qed.

Lemma only_sliceTo p n s : only p (sliceTo n s).
Proof. unfold sliceTo. destruct (n <=? String.length s)%nat; [apply only_mret | apply only_panic]. Qed.

(** From [only] to a fact about the filtered trace. *)
Lemma only_filter_nil (p q : Event -> bool) (new : list Event) :
  (forall e, p e = true -> q e = false) ->
  Forall (fun e => p e = true) new -> List.filter q new = [].
Proof.
  intros Hpq Hall. induction Hall as [|e new He _ IH]; simpl; [reflexivity|].
  now rewrite (Hpq e He).
Qed.

Lemma calls_bind_quiet {A B} (q : Event -> bool) (m : M A) (k : A -> M B)
    (pre : list Event) (Q : Outcome B -> list Event -> Prop) :
  only (fun e => negb (q e)) m ->
  Q Panicked pre ->
  (forall a, emitsCalls q (k a) pre Q) ->
  emitsCalls q (m ≫= k) pre Q.
Proof.
  intros Hm Hp Hk.
  assert (Hnil : forall new, Forall (fun e => negb (q e) = true) new -> List.filter q new = []).
  { intros new Hnew. apply (only_filter_nil (fun e => negb (q e)) q); [|assumption].
    intros e He. now destruct (q e). }
  eapply emits_bind; [exact Hm | |].
  - intros a new Hnew. eapply emits_weaken; [apply Hk|].
    intros o new' HQ. cbv beta. rewrite List.filter_app, (Hnil new Hnew). exact HQ.
  - intros new Hnew. rewrite (Hnil new Hnew), app_nil_r. exact Hp.
Qed.

Lemma calm_mret {A} p (a : A) : calm p (mret a).
Proof. apply emits_mret. split; [constructor | discriminate]. Qed.

Lemma calm_observe {A} p (f : world -> A) : calm p (observe f).
Proof. apply emits_observe. split; [constructor | discriminate]. Qed.

Lemma calm_invoke {A} p (f : world -> world * A) (ev : A -> Event) :
  (forall a, p (ev a) = true) -> calm p (invoke f ev).
Proof.
  intros Hev. apply emits_invoke. intros a. split; [|discriminate].
  repeat constructor. apply Hev.
Qed.

Lemma calm_log p lvl msg : p (EvLog lvl msg) = true -> calm p (log lvl msg).
Proof. intros Hp. apply emits_log. split; [|discriminate]. repeat constructor. exact Hp. Qed.

Lemma calm_bind {A B} p (m : M A) (k : A -> M B) :
  calm p m -> (forall a, calm p (k a)) -> calm p (m ≫= k).
Proof.
  intros Hm Hk. eapply emits_bind; [exact Hm | |]; cbv beta.
  - intros a new [Hnew _]. eapply emits_weaken; [apply Hk|].
    intros o new' [Hnew' Ho]. split; [|assumption]. apply Forall_app. auto.
  - intros new [_ Hp]. now contradiction Hp.
Qed.

Lemma calls_bind_calm {A B} (q : Event -> bool) (m : M A) (k : A -> M B)
    (pre : list Event) (Q : Outcome B -> list Event -> Prop) :
  calm (fun e => negb (q e)) m ->
  (forall a, emitsCalls q (k a) pre Q) ->
  emitsCalls q (m ≫= k) pre Q.
Proof.
  intros Hm Hk.
  assert (Hnil : forall new, Forall (fun e => negb (q e) = true) new -> List.filter q new = []).
  { intros new Hnew. apply (only_filter_nil (fun e => negb (q e)) q); [|assumption].
    intros e He. now destruct (q e). }
  eapply emits_bind; [exact Hm | |]; cbv beta.
  - intros a new [Hnew _]. eapply emits_weaken; [apply Hk|].
    intros o new' HQ. cbv beta. rewrite List.filter_app, (Hnil new Hnew). exact HQ.
  - intros new [_ Hp]. now contradiction Hp.
Qed.

Lemma calls_bind {A B} (q : Event -> bool) (m : M A) (k : A -> M B)
    (pre : list Event) (R : Outcome A -> list Event -> Prop)
    (Q : Outcome B -> list Event -> Prop) :
  emitsCalls q m [] R ->
  (forall a c, R (Done a) c -> emitsCalls q (k a) (pre ++ c) Q) ->
  (forall c, R Panicked c -> Q Panicked (pre ++ c)) ->
  emitsCalls q (m ≫= k) pre Q.
Proof.
  intros Hm Hk Hp. eapply emits_bind; [exact Hm | |]; cbv beta.
  - intros a new HR. eapply emits_weaken; [apply (Hk a _ HR)|].
    intros o new' HQ. cbv beta in *. rewrite List.filter_app, app_assoc. exact HQ.
  - intros new HR. now apply Hp.
Qed.

Lemma calls_invoke {A} (q : Event -> bool) (f : world -> world * A) (ev : A -> Event)
    (pre : list Event) (Q : Outcome A -> list Event -> Prop) :
  (forall a, q (ev a) = true) ->
  (forall a, Q (Done a) (pre ++ [ev a])) ->
  emitsCalls q (invoke f ev) pre Q.
Proof.
  intros Hq HQ. apply emits_invoke. intros a. cbn [List.filter]. rewrite Hq. apply HQ.
Qed.

Lemma calls_mret {A} (q : Event -> bool) (a : A) (pre : list Event)
    (Q : Outcome A -> list Event -> Prop) :
  Q (Done a) pre -> emitsCalls q (mret a) pre Q.
Proof. intros HQ. apply emits_mret. cbn [List.filter]. now rewrite app_nil_r. Qed.

Lemma calls_weaken {A} (q : Event -> bool) (m : M A) (pre : list Event)
    (Q Q' : Outcome A -> list Event -> Prop) :
  emitsCalls q m pre Q -> (forall o c, Q o c -> Q' o c) -> emitsCalls q m pre Q'.
Proof. intros Hm HQ. eapply emits_weaken; [exact Hm|]. intros o new. apply HQ. Qed.

Lemma afterRestore_quiet (new new' : list Event) :
  Forall (fun e => negb (restoreSucceeded e) = true) new ->
  afterRestore (new ++ new') = afterRestore new'.
Proof.
  induction 1 as [|e new He _ IH]; [reflexivity|]. simpl.
  destruct (restoreSucceeded e); [discriminate | exact IH].
Qed.

Lemma afterRestore_app (new new' post : list Event) :
  afterRestore new = Some post -> afterRestore (new ++ new') = Some (post ++ new').
Proof.
  induction new as [|e new IH]; [discriminate|]. simpl.
  destruct (restoreSucceeded e); [intros [= <-]; reflexivity | exact IH].
Qed.

Lemma afterRestore_split (tr post : list Event) :
  afterRestore tr = Some post ->
  exists pre criuOpts, tr = pre ++ EvRestore criuOpts nil :: post.
Proof.
  induction tr as [|e tr IH]; [discriminate|]. simpl.
  destruct (restoreSucceeded e) eqn:He.
  - intros [= <-]. destruct e as [| | | | | | | | | |o [|m]|]; try discriminate.
    now exists [], o.
  - intros Hpost. destruct (IH Hpost) as (pre & o & ->). now exists (e :: pre), o.
Qed.

Lemma afterRestore_In (tr : list Event) (criuOpts : rpc.CriuOpts) :
  In (EvRestore criuOpts nil) tr -> afterRestore tr <> None.
Proof.
  induction tr as [|e tr IH]; [intros []|]. simpl. intros [->|Hin]; [discriminate|].
  destruct (restoreSucceeded e); [discriminate | auto].
Qed.

(** A step that comes before the engine call. *)
Lemma after_bind_before {A B} (m : M A) (k : A -> M B)
    (Q : Outcome B -> option (list Event) -> Prop) :
  only (fun e => negb (restoreSucceeded e)) m ->
  Q Panicked None ->
  (forall a, emitsAfterRestore (k a) Q) ->
  emitsAfterRestore (m ≫= k) Q.
Proof.
  intros Hm Hp Hk. eapply emits_bind; [exact Hm | |]; cbv beta.
  - intros a new Hnew. eapply emits_weaken; [apply Hk|].
    intros o new' HQ. cbv beta. now rewrite afterRestore_quiet.
  - intros new Hnew. rewrite <- (app_nil_r new), afterRestore_quiet; assumption.
Qed.

Lemma after_mret {A} (a : A) (Q : Outcome A -> option (list Event) -> Prop) :
  Q (Done a) None -> emitsAfterRestore (mret a) Q.
Proof. intros HQ. apply emits_mret. exact HQ. Qed.

Lemma filter_allEvents (l : list Event) : List.filter allEvents l = l.
Proof. induction l as [|e l IH]; simpl; [reflexivity | now rewrite IH]. Qed.

Lemma calls_all {A} (m : M A) (Q : Outcome A -> list Event -> Prop) :
  emitsCalls allEvents m [] Q -> emits m Q.
Proof.
  intros Hm. eapply emits_weaken; [exact Hm|]. intros o new. cbv beta.
  now rewrite filter_allEvents.
Qed.

Lemma calls_log_bind {B} (q : Event -> bool) lvl msg (k : unit -> M B) (pre : list Event)
    (Q : Outcome B -> list Event -> Prop) :
  q (EvLog lvl msg) = true ->
  emitsCalls q (k tt) (pre ++ [EvLog lvl msg]) Q ->
  emitsCalls q (log lvl msg ≫= k) pre Q.
Proof.
  intros Hq Hk.
  eapply calls_bind with (R := fun o c => o = Done tt /\ c = [EvLog lvl msg]).
  - apply emits_log. cbn [List.filter]. now rewrite Hq.
  - intros [] c [_ ->]. exact Hk.
  - intros c [Hd _]. discriminate.
Qed.

Lemma calls_invoke_bind {A B} (q : Event -> bool) (f : world -> world * A) (ev : A -> Event)
    (k : A -> M B) (pre : list Event) (Q : Outcome B -> list Event -> Prop) :
  (forall a, q (ev a) = true) ->
  (forall a, emitsCalls q (k a) (pre ++ [ev a]) Q) ->
  emitsCalls q (invoke f ev ≫= k) pre Q.
Proof.
  intros Hq Hk.
  eapply calls_bind with (R := fun o c => exists a, o = Done a /\ c = [ev a]).
  - apply calls_invoke; [exact Hq | eauto].
  - intros a c (a' & [= <-] & ->). apply Hk.
  - intros c (a & Hd & _). discriminate.
Qed.

(** Outcomes alone. *)
Lemma outcome_bind_calm {A B} (m : M A) (k : A -> M B) (P : Outcome B -> Prop) :
  calm allEvents m ->
  (forall a, emits (k a) (fun o _ => P o)) ->
  emits (m ≫= k) (fun o _ => P o).
Proof.
  intros Hm Hk. eapply emits_bind; [exact Hm | |]; cbv beta.
  - intros a new _. apply Hk.
  - intros new [_ Hp]. now contradiction Hp.
Qed.

Lemma outcome_panic_bind {A B} (k : A -> M B) (P : Outcome B -> Prop) :
  P Panicked -> emits (panic ≫= k) (fun o _ => P o).
Proof. intros HP s. exists []. simpl. now rewrite app_nil_r. Qed.

Lemma calls_outcome {A} (m : M A) (pre : list Event) (P : Outcome A -> Prop) :
  emits m (fun o _ => P o) ->
  emitsCalls allEvents m pre (fun o c => exists rest, c = pre ++ rest /\ P o).
Proof.
  intros Hm. eapply emits_weaken; [exact Hm|]. intros o new HP. cbv beta. eauto.
Qed.

End Emits.

(** One step of a proof of [only p m], by the shape of [m]. *)
Ltac only_step :=
  lazymatch goal with
  | |- only _ (mret _) => apply only_mret
  | |- only _ panic => apply only_panic
  | |- only _ (observe _) => apply only_observe
  | |- only _ (invoke _ _) => apply only_invoke; intros; reflexivity
  | |- only _ (log _ _) => apply only_log; reflexivity
  | |- only _ (sliceTo _ _) => apply only_sliceTo
  | |- only _ (forRange _ _) => apply only_forRange; intros
  | |- only _ (foldRange _ _ _) => apply only_foldRange; intros
  | |- only _ (_ ≫= _) => apply only_bind; [|intros]
  | |- only _ (match ?x with _ => _ end) => destruct x
  | |- only _ (let '(_, _) := ?x in _) => destruct x
  | |- only _ _ => progress (cbv beta zeta)
  end.

Ltac only_auto := repeat only_step.

Ltac contains_tac :=
  repeat first [ apply contains_here | apply contains_end
               | apply contains_append_l | apply contains_String ].

Ltac calm_step :=
  lazymatch goal with
  | |- calm _ (mret _) => apply calm_mret
  | |- calm _ (observe _) => apply calm_observe
  | |- calm _ (invoke _ _) => apply calm_invoke; intros; reflexivity
  | |- calm _ (log _ _) => apply calm_log; reflexivity
  | |- calm _ (_ ≫= _) => apply calm_bind; [|intros]
  | |- calm _ (match ?x with _ => _ end) => destruct x
  end.

Ltac calm_auto := repeat calm_step.

Tactic Notation "quiet_bind" "as" simple_intropattern(pat) :=
  apply calls_bind_quiet; [only_auto | first [exact I | assumption | idtac] | intros pat].

Ltac calm_bind :=
  lazymatch goal with
  | |- emitsCalls _ (_ ≫= _) _ _ => apply calls_bind_calm; [calm_auto | intros]
  end.

Tactic Notation "before_bind" "as" simple_intropattern(pat) :=
  apply after_bind_before; [only_auto | first [exact I | discriminate] | intros pat].


(** Running a body by unfolding the monad. *)
Ltac msimpl :=
  repeat (progress (simpl; unfold mbind, M_bind, mret, M_ret, observe, panic, invoke, log; simpl)).

(** ** Mount sources *)

Section MountSources.
Context `{Host} `{!FileSystemLaws}.

Lemma ValidateMountSources_body_run (m : MountMapping) (s : State) :
  CRIUManager.externalWithSource m = true ->
  CRIUManager.ValidateMountSources_body m s =
  match os_Stat (now s) (HostPath m) with
  | StatNotExist =>
      let '(w', err) := os_MkdirAll (now s) (HostPath m) utils.perm0755 in
      (Done (match err with
             | nil => None
             | mkError cause =>
                 Some (mkError ("failed to create mount source placeholder " +:+ HostPath m
                                +:+ ": failed to create directory " +:+ HostPath m +:+ ": " +:+ cause))
             end),
       mkState w' (trace s ++ [EvLog WarnLevel ("Mount source does not exist, will create placeholder: " +:+ HostPath m);
                               EvMkdirAll (HostPath m) utils.perm0755 err]))
  | _ => (Done None, s)
  end.
Proof.
  intros Hel. unfold CRIUManager.externalWithSource in Hel.
  unfold CRIUManager.ValidateMountSources_body. rewrite Hel.
  unfold utils.neitherFileNorDir, utils.FileExists, utils.DirExists, utils.EnsureDir,
    utils.DirExists, mbind, M_bind, mret, M_ret, observe, invoke, log.
  unfold utils.perm0755 in *.
  destruct (os_MkdirAll (now s) (HostPath m) 493) as [w' err] eqn:Hmk.
  destruct (os_Stat (now s) (HostPath m)) eqn:Hst;
    repeat (progress (simpl; rewrite ?Hst, ?Hmk)); [|reflexivity..].
  destruct err; simpl; rewrite <- app_assoc; reflexivity.
Qed.

Lemma forRange_cons {A R} (x : A) (xs : list A) (body : A -> M (option R)) (s : State) :
  forRange (x :: xs) body s =
  match body x s with
  | (Done (Some v), s') => (Done (Some v), s')
  | (Done None, s') => forRange xs body s'
  | (Panicked, s') => (Panicked, s')
  end.
Proof.
  simpl. unfold mbind, M_bind. destruct (body x s) as [[[v|]|] s']; reflexivity.
Qed.

Lemma ValidateMountSources_body_skip (m : MountMapping) (s : State) :
  CRIUManager.externalWithSource m = false ->
  CRIUManager.ValidateMountSources_body m s = (Done None, s).
Proof.
  intros Hel. unfold CRIUManager.externalWithSource in Hel.
  unfold CRIUManager.ValidateMountSources_body. now rewrite Hel.
Qed.




End MountSources.

Lemma Toy_member_cons (q p : string) (l : list string) :
  Toy.member q (p :: l) = String.eqb q p || Toy.member q l.
Proof. reflexivity. Qed.

Lemma Toy_laws : @FileSystemLaws Toy.host.
Proof.
  split; simpl; unfold Toy.mkdirAll, Toy.stat.
  - intros w path perm w' Hmk. destruct (Toy.member path (Toy.denied w)); [discriminate|].
    injection Hmk as <-. simpl. now rewrite String.eqb_refl.
  - intros w path perm w' err q Hmk Hq.
    destruct (Toy.member path (Toy.denied w)); injection Hmk as <- <-; [assumption|].
    simpl. destruct (String.eqb q path); simpl; [discriminate|assumption].
Qed.







(** ** Restore: validation of the checkpoint directory *)

Section Validation.
Context `{Host} `{Json}.

Lemma ValidateCheckpoint_incomplete (dir : string) (s : State) :
  Spec.incomplete (now s) dir ->
  exists o, checkpointManager.ValidateCheckpoint dir s = (o, s) /\
            (o = Panicked \/ exists msg, o = Done (mkError msg)) /\
            (os_Stat (now s) dir <> StatFailed ->
             os_Stat (now s) (filepath_Join [dir; "images"]) <> StatFailed ->
             o <> Panicked).
Proof.
  intros Hinc. unfold Spec.incomplete in Hinc.
  unfold checkpointManager.ValidateCheckpoint, checkpointManager.requiredFiles,
    utils.ListFiles, utils.DirExists, utils.FileExists.
  msimpl.
  destruct (os_Stat (now s) dir) as [| |[|]] eqn:Hd; msimpl;
    [eexists; split; [reflexivity|]; split; [right; eauto | congruence]
    |eexists; split; [reflexivity|]; split; [left; reflexivity | congruence]
    |
    |eexists; split; [reflexivity|]; split; [right; eauto | congruence]].
  destruct (os_Stat (now s) (filepath_Join [dir; "container_metadata.json"])) eqn:H1; msimpl;
    [eexists; split; [reflexivity|]; split; [right; eauto | congruence] | |].
  all: destruct (os_Stat (now s) (filepath_Join [dir; "mount_mappings.json"])) eqn:H2; msimpl;
    [eexists; split; [reflexivity|]; split; [right; eauto | congruence] | |].
  all: destruct (os_Stat (now s) (filepath_Join [dir; "checkpoint_metadata.json"])) eqn:H3; msimpl;
    [eexists; split; [reflexivity|]; split; [right; eauto | congruence] | |].
  all: destruct (os_Stat (now s) (filepath_Join [dir; "images"])) as [| |[|]] eqn:H4; msimpl;
    [eexists; split; [reflexivity|]; split; [right; eauto | congruence]
    |eexists; split; [reflexivity|]; split; [left; reflexivity | congruence]
    |
    |eexists; split; [reflexivity|]; split; [right; eauto | congruence]].
  all: destruct Hinc as [Hinc|[Hinc|[Hinc|[Hinc|Hinc]]]]; try discriminate.
  all: rewrite Hinc; msimpl.
  all: eexists; split; [reflexivity|]; split; [right; eauto | congruence].
Qed.


(** C4. When the checkpoint directory lacks one of the four required
    artifacts, [Restore] ends in its validation step: it returns an error
    that begins "checkpoint validation failed: " (or panics there, which
    happens only when [os.Stat] of the directory or of its images directory
    fails with an error other than not-exist), having logged its first line
    and reached neither the runtime nor the engine. *)
Theorem Restore_incomplete_checkpoint_fails (config : restore.RestoreConfig) (w : world) :
  Spec.incomplete w (restore.CheckpointDir config) ->
  let r := run (restoreManager.Restore config) w in
  (r.1 = Panicked \/
   exists msg, r.1 = Done (mkError ("checkpoint validation failed: " +:+ msg))) /\
  (os_Stat w (restore.CheckpointDir config) <> StatFailed ->
   os_Stat w (filepath_Join [restore.CheckpointDir config; "images"]) <> StatFailed ->
   r.1 <> Panicked) /\
  trace r.2 = [EvLog InfoLevel ("Starting restore from checkpoint: "
                                +:+ restore.CheckpointDir config)] /\
  Forall (fun e => Spec.reachesRuntimeOrEngine e = false) (trace r.2) /\
  now r.2 = w.
Proof.
  intros Hinc. cbv zeta. unfold run, restoreManager.Restore.
  rewrite bind_run. cbn [log]. rewrite bind_run.
  set (s1 := mkState _ _).
  destruct (ValidateCheckpoint_incomplete (restore.CheckpointDir config) s1 Hinc)
    as (o & Hrun & Ho & Hnp).
  rewrite Hrun. destruct Ho as [->|[msg ->]]; simpl.
  - repeat split; auto; repeat constructor.
  - repeat split; eauto; try discriminate; repeat constructor.
Qed.

End Validation.

(** C4 on the sample: the terminal marker is missing. *)
Lemma Restore_incomplete_checkpoint_fails_witness :
  Spec.incomplete (H := Toy.host) Toy.incompleteCheckpoint "/out/c1/checkpoint" /\
  let r := run (@restoreManager.Restore Toy.host Toy.codec Toy.restoreConfig)
               Toy.incompleteCheckpoint in
  r.1 = Done (mkError "checkpoint validation failed: missing required file: checkpoint_metadata.json")
  /\ Forall (fun e => Spec.reachesRuntimeOrEngine e = false) (trace r.2).
Proof.
  assert (Hinc : Spec.incomplete (H := Toy.host) Toy.incompleteCheckpoint "/out/c1/checkpoint").
  { right; right; left. vm_compute. reflexivity. }
  split; [exact Hinc|].
  destruct (@Restore_incomplete_checkpoint_fails Toy.host Toy.codec Toy.restoreConfig
              Toy.incompleteCheckpoint Hinc) as (_ & _ & _ & Hquiet & _).
  split; [vm_compute; reflexivity | exact Hquiet].
Defined.

(** ** The dump and its fallback *)

Section Dump.
Context `{Host}.

(** The subprocess is run once, and its failure is returned with its output. *)
Lemma CheckpointProcessCmd_attempt (pid : Z) (opts : checkpoint.CheckpointOptions) :
  emitsCalls Spec.dumpAttempt (CRIUManager.CheckpointProcessCmd pid opts) []
    (fun o calls =>
       exists output err,
         calls = [EvExec "criu" (CRIUManager.CheckpointProcessCmd_args pid opts)
                         (checkpoint.WorkDir opts) output err] /\
         o = Done (match err with
                   | nil => nil
                   | mkError msg =>
                       mkError ("CRIU checkpoint failed: " +:+ msg +:+ LF
                                +:+ "Output: " +:+ output)
                   end)).
Proof.
  unfold CRIUManager.CheckpointProcessCmd.
  calm_bind. calm_bind.
  eapply calls_bind; [apply calls_invoke with (Q := fun o c => exists r, o = Done r /\ c =
      [EvExec "criu" (CRIUManager.CheckpointProcessCmd_args pid opts)
                         (checkpoint.WorkDir opts) r.1 r.2]); [reflexivity | eauto] | |].
  - intros [output err] c (r & [= <-] & ->). cbn [fst snd app].
    destruct err as [|msg]; calm_bind; apply calls_mret; eauto.
  - intros c (r & Hr & _). discriminate.
Qed.

Lemma logCRIUError_calm p (logFile : string) :
  (forall lvl msg, p (EvLog lvl msg) = true) -> calm p (CRIUManager.logCRIUError logFile).
Proof.
  intros Hlog. unfold CRIUManager.logCRIUError, utils.FileExists, utils.ReadFile.
  destruct (nonEmpty logFile); [|apply calm_mret].
  apply calm_bind; [calm_auto|]. intros [|]; [|apply calm_mret].
  apply calm_bind; [calm_auto|]. intros [data|msg]; [|apply calm_mret].
  apply calm_log. apply Hlog.
Qed.

Lemma CheckpointProcess_attempts (pid : Z) (opts : checkpoint.CheckpointOptions) :
  emitsCalls Spec.dumpAttempt (CRIUManager.CheckpointProcess pid opts) []
             (Spec.dumpAttemptsExplain pid opts).
Proof.
  unfold CRIUManager.CheckpointProcess.
  calm_bind.
  unfold utils.EnsureDir, utils.DirExists.
  quiet_bind as [|msg]; [|apply calls_mret; exact I].
  quiet_bind as [|msg]; [|apply calls_mret; exact I].
  quiet_bind as [workDirFd|msg]; [|apply calls_mret; exact I].
  quiet_bind as [imagesDirFd|msg]; [|apply calls_mret; exact I].
  quiet_bind as [|msg]; [|apply calls_mret; exact I].
  calm_bind.
  set (criuOpts := rpc.setImagesDirFd _ _).
  eapply calls_bind;
    [apply calls_invoke with (Q := fun o c => exists err, o = Done err /\ c = [EvDump criuOpts err]);
       [reflexivity | eauto] | |].
  - intros err c (err' & [= <-] & ->). cbn [app].
    destruct err as [|libMsg].
    + calm_bind. apply calls_mret. reflexivity.
    + apply calls_bind_calm; [apply logCRIUError_calm; reflexivity|]. intros _.
      calm_bind.
      eapply calls_bind; [apply CheckpointProcessCmd_attempt | |].
      * intros cmdErr c (output & err & -> & [= ->]). cbn [app].
        destruct err as [|cmdMsg].
        -- calm_bind. apply calls_mret. simpl. auto.
        -- apply calls_mret. simpl. repeat split; auto.
           eexists. split; [reflexivity|]. repeat split.
           ++ contains_tac.
           ++ contains_tac.
           ++ contains_tac.
      * intros c (output & err & _ & Hd). discriminate.
  - intros c (err & Hd & _). discriminate.
Qed.

Lemma filter_In_true (q : Event -> bool) (e : Event) (l : list Event) :
  In e l -> q e = true -> In e (List.filter q l).
Proof. intros Hin Hq. apply List.filter_In. auto. Qed.

(** C7. When the structured dump call of a run of [CheckpointProcess]
    fails, the attempts at the dump in that run are exactly two: that
    call, then the subprocess, with the argument vector of
    [CheckpointProcessCmd] and the work directory. If the subprocess
    succeeds, [CheckpointProcess] returns nil; if it fails,
    [CheckpointProcess] returns an error whose message contains the
    message of the library error, that of the subprocess error and the
    output of the subprocess. *)
Theorem CheckpointProcess_falls_back_once (pid : Z) (opts : checkpoint.CheckpointOptions)
    (w : world) (criuOpts : rpc.CriuOpts) (libMsg : string) :
  let r := run (CRIUManager.CheckpointProcess pid opts) w in
  In (EvDump criuOpts (mkError libMsg)) (trace r.2) ->
  exists output cmdErr,
    List.filter Spec.dumpAttempt (trace r.2) =
      [ EvDump criuOpts (mkError libMsg);
        EvExec "criu" (CRIUManager.CheckpointProcessCmd_args pid opts)
               (checkpoint.WorkDir opts) output cmdErr ] /\
    match cmdErr with
    | nil => r.1 = Done nil
    | mkError cmdMsg =>
        exists msg, r.1 = Done (mkError msg) /\
                    Spec.contains libMsg msg /\ Spec.contains cmdMsg msg /\
                    Spec.contains output msg
    end.
Proof.
  cbv zeta. intros Hin.
  pose proof (emits_run _ _ w (CheckpointProcess_attempts pid opts)) as Hex.
  cbv beta in Hex. cbn [app] in Hex.
  apply (filter_In_true Spec.dumpAttempt) in Hin; [|reflexivity].
  destruct (List.filter Spec.dumpAttempt (trace (run (CRIUManager.CheckpointProcess pid opts) w).2))
    as [|e1 [|e2 [|e3 rest]]]; simpl in Hex.
  - destruct Hin.
  - destruct e1 as [| | | | | | | | |o1 [|m1]| |]; try contradiction.
    destruct Hin as [Heq|[]]. discriminate.
  - destruct e1 as [| | | | | | | | |o1 [|m1]| |]; try contradiction.
    destruct e2 as [| | | | | | | | | | |name args dir output cmdErr]; try contradiction.
    destruct Hex as (-> & -> & -> & Hres).
    destruct Hin as [[= -> ->]|[Heq|[]]]; [|discriminate].
    exists output, cmdErr. split; [reflexivity | exact Hres].
  - destruct e1 as [| | | | | | | | |o1 [|m1]| |]; try contradiction.
    destruct e2; contradiction.
Qed.

End Dump.

(** C7 on the sample: both the library and the subprocess fail. *)
Lemma CheckpointProcess_falls_back_once_witness :
  let w := Toy.checkpointed (mkError "rpc failed") (mkError "exit status 1") nil in
  let criuOpts := rpc.setImagesDirFd (Some 3%Z) (rpc.setWorkDirFd (Some 3%Z)
                    (CRIUManager.dumpOpts 4242 shellJobOptions)) in
  let r := run (H := Toy.host) (CRIUManager.CheckpointProcess 4242 shellJobOptions) w in
  In (EvDump criuOpts (mkError "rpc failed")) (trace r.2) /\
  exists output cmdErr,
    List.filter Spec.dumpAttempt (trace r.2) =
      [ EvDump criuOpts (mkError "rpc failed");
        EvExec "criu" (CRIUManager.CheckpointProcessCmd_args 4242 shellJobOptions)
               (checkpoint.WorkDir shellJobOptions) output cmdErr ] /\
    match cmdErr with
    | nil => r.1 = Done nil
    | mkError cmdMsg =>
        exists msg, r.1 = Done (mkError msg) /\
                    Spec.contains "rpc failed" msg /\ Spec.contains cmdMsg msg /\
                    Spec.contains output msg
    end.
Proof.
  cbv zeta.
  assert (Hin : In (EvDump (rpc.setImagesDirFd (Some 3%Z) (rpc.setWorkDirFd (Some 3%Z)
                              (CRIUManager.dumpOpts 4242 shellJobOptions)))
                           (mkError "rpc failed"))
                   (trace (run (H := Toy.host)
                             (CRIUManager.CheckpointProcess 4242 shellJobOptions)
                             (Toy.checkpointed (mkError "rpc failed")
                                               (mkError "exit status 1") nil)).2)).
  { vm_compute. do 2 right. left. reflexivity. }
  split; [exact Hin|].
  exact (@CheckpointProcess_falls_back_once Toy.host 4242 shellJobOptions _ _ _ Hin).
Defined.

(** ** Restore: the engine call and the verification *)

Section Verification.
Context `{Host} `{Json}.

Lemma GetContainerState_requery (nameOrID : string) :
  emitsCalls allEvents (dockerManager.GetContainerState nameOrID) []
    (fun o c =>
       exists requery,
         c = [EvContainerInspect nameOrID requery] /\
         if Spec.requeryFailed requery then exists msg, o = Done (Fail msg)
         else exists containerJSON state,
                requery = Ok containerJSON /\ o = Done (Ok state) /\
                ID state = types.cjID containerJSON).
Proof.
  unfold dockerManager.GetContainerState.
  apply calls_invoke_bind; [reflexivity|]. intros [containerJSON|msg]; cbn [app].
  - destruct (types.StateRunning containerJSON) eqn:Hrun; cbn [negb].
    + apply calls_bind_calm.
      { destruct (time_ParseRFC3339Nano _); calm_auto. }
      intros createdTime. apply calls_mret.
      exists (Ok containerJSON). split; [reflexivity|]. simpl. rewrite Hrun. simpl. eauto.
    + apply calls_mret. exists (Ok containerJSON). split; [reflexivity|].
      simpl. rewrite Hrun. simpl. eauto.
  - apply calls_mret. exists (Fail msg). split; [reflexivity|]. simpl. eauto.
Qed.

Lemma GetContainerLogs_calm p (containerID tail : string) :
  (forall r, p (EvContainerLogs containerID tail r) = true) ->
  calm p (dockerManager.GetContainerLogs containerID tail).
Proof.
  intros Hp. unfold dockerManager.GetContainerLogs.
  apply calm_bind; [apply calm_invoke; exact Hp|]. intros [logs|msg]; apply calm_mret.
Qed.

(** What [verifyRestoration] does, by the answer to its inspect request:
    it never returns an error. *)
Lemma verifyRestoration_requery (containerName : string) :
  emitsCalls allEvents (restoreManager.verifyRestoration containerName) []
    (fun o c =>
       (o = Done nil \/ o = Panicked) /\
       exists requery rest,
         c = [ EvLog InfoLevel "Verifying restoration...";
               EvContainerInspect containerName requery ] ++ rest /\
         if Spec.requeryFailed requery then
           o = Done nil /\
           rest = [EvLog WarnLevel "Container not running, checking basic status..."]
         else
           exists containerJSON, requery = Ok containerJSON /\
             ((12 <= String.length (types.cjID containerJSON))%nat -> o = Done nil)).
Proof.
  unfold restoreManager.verifyRestoration.
  apply calls_log_bind; [reflexivity|]. cbn [app].
  eapply calls_bind; [apply GetContainerState_requery | |].
  - intros r c (requery & -> & Hreq). cbn [app].
    destruct (Spec.requeryFailed requery) eqn:Hfail.
    + destruct Hreq as (msg & [= ->]).
      apply calls_log_bind; [reflexivity|]. apply calls_mret. cbn [app].
      split; [now left|]. exists requery, [EvLog WarnLevel "Container not running, checking basic status..."].
      rewrite Hfail. auto.
    + destruct Hreq as (containerJSON & state & -> & [= ->] & HID).
      eapply calls_weaken.
      * apply calls_outcome with
          (P := fun o => (o = Done nil \/ o = Panicked) /\
                         ((12 <= String.length (types.cjID containerJSON))%nat -> o = Done nil)).
        apply outcome_bind_calm; [calm_auto|]. intros _.
        apply outcome_bind_calm; [calm_auto|]. intros _.
        rewrite HID. unfold sliceTo.
        destruct (12 <=? String.length (types.cjID containerJSON))%nat eqn:Hlen.
        -- apply outcome_bind_calm; [calm_auto|]. intros short.
           apply outcome_bind_calm; [calm_auto|]. intros _.
           apply outcome_bind_calm; [calm_auto|]. intros _.
           apply outcome_bind_calm; [calm_auto|]. intros _.
           apply outcome_bind_calm; [apply GetContainerLogs_calm; reflexivity|]. intros logs.
           apply outcome_bind_calm.
           { destruct logs as [logs|msg]; [destruct (nonEmpty logs)|]; calm_auto. }
           intros _. apply emits_mret. auto.
        -- apply outcome_panic_bind. split; [now right|].
           intros Hle. apply Nat.leb_gt in Hlen. lia.
      * intros o c (rest & -> & Ho & Hlen). split; [exact Ho|].
        exists (Ok containerJSON), rest. rewrite Hfail. split; [reflexivity|]. eauto.
  - intros c (requery & _ & Hreq).
    destruct (Spec.requeryFailed requery);
      [destruct Hreq as (? & ?) | destruct Hreq as (? & ? & _ & ? & _)]; discriminate.
Qed.

Lemma logCRIUError_only p (logFile : string) :
  (forall lvl msg, p (EvLog lvl msg) = true) -> only p (CRIUManager.logCRIUError logFile).
Proof.
  intros Hlog. unfold CRIUManager.logCRIUError, utils.FileExists, utils.ReadFile.
  destruct (nonEmpty logFile); [|apply only_mret].
  apply only_bind; [only_auto|]. intros [|]; [|apply only_mret].
  apply only_bind; [only_auto|]. intros [data|msg]; [|apply only_mret].
  apply only_log. apply Hlog.
Qed.

Lemma RestoreProcess_engine (opts : checkpoint.RestoreOptions) :
  emitsAfterRestore (CRIUManager.RestoreProcess opts) Spec.restoreProcessExplains.
Proof.
  unfold CRIUManager.RestoreProcess, utils.EnsureDir, utils.DirExists.
  before_bind as _.
  before_bind as [|msg]; [|apply after_mret; discriminate].
  before_bind as [|]; cbn [negb]; [|apply after_mret; discriminate].
  before_bind as [fd|msg]; [|apply after_mret; discriminate].
  before_bind as criuOpts.
  before_bind as _.
  eapply emits_bind with (R := fun o new => exists err, o = Done err /\ new = [EvRestore criuOpts err]).
  - apply emits_invoke. eauto.
  - intros err new (err' & [= <-] & ->). destruct err as [|msg].
    + apply calls_all. apply calls_log_bind; [reflexivity|]. apply calls_mret.
      simpl. auto.
    + apply after_bind_before; [apply logCRIUError_only; reflexivity | discriminate|].
      intros _. apply after_mret. discriminate.
  - intros new (err & Hd & _). discriminate.
Qed.

Lemma Restore_after (config : restore.RestoreConfig) :
  emitsAfterRestore (restoreManager.Restore config)
                    (Spec.restoreExplains (restore.NewContainerName config)).
Proof.
  unfold restoreManager.Restore.
  unfold checkpointManager.ValidateCheckpoint, checkpointManager.GetCheckpointInfo,
    checkpointManager.LoadMountMappings, restoreManager.validateRestoreEnvironment,
    restoreManager.checkPtraceConflicts, dockerManager.CreateRestoreContainer,
    restoreManager.prepareMountNamespace, dockerManager.StartContainer,
    dockerManager.GetContainerPID, dockerManager.StopContainer,
    CRIUManager.CreateExtMountMapFile, utils.neitherFileNorDir, utils.WriteFile,
    utils.ListFiles, utils.ReadFile, utils.EnsureDir, utils.DirExists, utils.FileExists.
  before_bind as _.
  before_bind as [|msg]; [|apply after_mret; exact I].
  before_bind as [metadata|msg]; [|apply after_mret; exact I].
  destruct (checkpoint.ContainerState_ metadata) as [originalState|];
    [|apply emits_panic; exact I].
  before_bind as short.
  before_bind as _.
  before_bind as [mountMappings|msg]; [|apply after_mret; exact I].
  before_bind as [|msg]; [|apply after_mret; exact I].
  before_bind as [containerID|msg]; [|apply after_mret; exact I].
  before_bind as short'.
  before_bind as _.
  before_bind as [|msg]; [|apply after_mret; exact I].
  before_bind as [|msg]; [|apply after_mret; exact I].
  before_bind as [newPID|msg]; [|apply after_mret; exact I].
  before_bind as _.
  before_bind as stopErr.
  before_bind as _.
  before_bind as [|msg]; [|apply after_mret; exact I].
  cbv zeta.
  set (criuOpts := checkpoint.mkRestoreOptions _ _ _ _ _ _ _ _ _ _ _ _ _).
  eapply emits_bind; [apply RestoreProcess_engine | |]; cbv beta.
  - intros err new1 HQ. unfold Spec.restoreProcessExplains in HQ.
    destruct (afterRestore new1) as [post1|] eqn:Hafter.
    + destruct HQ as [[= ->] ->].
      eapply emits_weaken.
      * apply calls_all.
        eapply calls_bind with
          (Q := fun o c => Spec.verified (restore.NewContainerName config) o
                             ([EvLog InfoLevel "CRIU restore completed successfully"] ++ c));
          [apply verifyRestoration_requery | |].
        -- intros verr c ([[= ->]|[=]] & requery & rest & -> & Hreq).
           apply calls_log_bind; [reflexivity|]. apply calls_mret.
           split; [discriminate|].
           exists requery, (rest ++ [EvLog InfoLevel ("Container restored successfully as: "
                                                     +:+ restore.NewContainerName config)]).
           split; [simpl; reflexivity|].
           destruct (Spec.requeryFailed requery).
           ++ destruct Hreq as [_ ->]. auto.
           ++ destruct Hreq as (containerJSON & -> & _). eauto.
        -- intros c ([[=]|_] & requery & rest & -> & Hreq).
           split; [discriminate|]. exists requery, rest. split; [reflexivity|].
           destruct (Spec.requeryFailed requery); [destruct Hreq; discriminate | exact Hreq].
      * intros o new' HQ. cbv beta. unfold Spec.restoreExplains.
        now rewrite (afterRestore_app _ _ _ Hafter).
    + destruct err as [|msg]; [contradiction|].
      apply emits_mret. unfold Spec.restoreExplains. now rewrite app_nil_r, Hafter.
  - intros new HQ. unfold Spec.restoreProcessExplains in HQ. unfold Spec.restoreExplains.
    destruct (afterRestore new); [destruct HQ; discriminate | exact I].
Qed.


Lemma afterRestore_existsb (tr : list Event) :
  existsb restoreSucceeded tr = true -> afterRestore tr <> None.
Proof.
  induction tr as [|e tr IH]; [discriminate|]. simpl.
  destruct (restoreSucceeded e); [discriminate | exact IH].
Qed.

(** C8. When the engine restore call of a run of [Restore] has succeeded,
    [Restore] does not return an error. After that call it logs two lines
    and asks the runtime for the new container. When that request fails,
    or finds the container not running, [Restore] logs the warning
    "Container not running, checking basic status...", logs its success
    and returns nil. When the request succeeds, [Restore] returns nil as
    well, the identifier of the container being at least 12 bytes long, as
    the identifiers of the runtime are. *)
Theorem Restore_verification_not_propagated (config : restore.RestoreConfig) (w : world) :
  let r := run (restoreManager.Restore config) w in
  existsb restoreSucceeded (trace r.2) = true ->
  exists (pre : list Event) (criuOpts : rpc.CriuOpts) (post : list Event),
    trace r.2 = pre ++ EvRestore criuOpts nil :: post /\
    Spec.verified (restore.NewContainerName config) r.1 post.
Proof.
  cbv zeta. intros Hsucc.
  pose proof (emits_run _ _ w (Restore_after config)) as Hex. cbv beta in Hex.
  unfold Spec.restoreExplains in Hex.
  destruct (afterRestore (trace (run (restoreManager.Restore config) w).2)) as [post|] eqn:Hafter.
  - destruct (afterRestore_split _ _ Hafter) as (pre & criuOpts & Htr).
    exists pre, criuOpts, post. auto.
  - now apply afterRestore_existsb in Hsucc.
Qed.

End Verification.

(** C8 on the sample: the engine restores, and the runtime then reports
    the new container as not running. *)
Lemma Restore_verification_not_propagated_witness :
  let r := run (@restoreManager.Restore Toy.host Toy.codec Toy.restoreConfig)
               (Toy.checkpointed nil nil nil) in
  existsb restoreSucceeded (trace r.2) = true /\
  r.1 = Done nil /\
  exists (pre : list Event) (criuOpts : rpc.CriuOpts) (post : list Event),
    trace r.2 = pre ++ EvRestore criuOpts nil :: post /\
    Spec.verified "c1-restored" r.1 post.
Proof.
  cbv zeta.
  assert (Hsucc : existsb restoreSucceeded
            (trace (run (@restoreManager.Restore Toy.host Toy.codec Toy.restoreConfig)
                        (Toy.checkpointed nil nil nil)).2) = true)
    by (vm_compute; reflexivity).
  split; [exact Hsucc|]. split; [vm_compute; reflexivity|].
  exact (@Restore_verification_not_propagated Toy.host Toy.codec Toy.restoreConfig
           (Toy.checkpointed nil nil nil) Hsucc).
Defined.

(** ** The shell container *)

Section ShellContainer.
Context `{Host} `{Json}.

(** C10, amended. For an original state whose [Config] and [HostConfig]
    are set, the first thing [CreateRestoreContainer] does is to ask the
    runtime for a container whose host configuration is privileged, has
    host PID, IPC and network modes, seccomp unconfined and the
    capabilities SYS_PTRACE and SYS_ADMIN, takes [Resources] and
    [RestartPolicy] from the original, and has every other field at its
    zero value. The device mappings are part of [Resources] and are
    carried over with it. *)
Theorem CreateRestoreContainer_host_config (originalState : ContainerState)
    (newName : string) (w : world) (c : container.Config) (hc : container.HostConfig) :
  Config originalState = Some c ->
  HostConfig originalState = Some hc ->
  let r := run (dockerManager.CreateRestoreContainer originalState newName) w in
  (exists resp rest,
     trace r.2 =
       EvContainerCreate
         (dockerManager.restoreConfig (Image originalState) c)
         {| container.Privileged := true;
            container.PidMode := "host";
            container.IpcMode := "host";
            container.NetworkMode := "host";
            container.SecurityOpt := ["seccomp=unconfined"];
            container.CapAdd := ["SYS_PTRACE"; "SYS_ADMIN"];
            container.Resources_ := container.Resources_ hc;
            container.RestartPolicy_ := container.RestartPolicy_ hc;
            container.Binds := [];
            container.PortBindings := ∅;
            container.AutoRemove := false;
            container.VolumesFrom := [];
            container.CapDrop := [];
            container.DNS := [];
            container.ExtraHosts := [];
            container.ReadonlyRootfs := false;
            container.Runtime := "" |}
         newName resp :: rest) /\
  (exists hostConfig,
     Spec.createdHostConfig (trace r.2) = Some hostConfig /\
     Spec.builtFromScratch hc hostConfig /\
     container.PortBindings hostConfig = ∅ /\
     container.Binds hostConfig = [] /\
     container.CapDrop hostConfig = [] /\
     container.Devices (container.Resources_ hostConfig)
       = container.Devices (container.Resources_ hc)).
Proof.
  intros Hc Hhc. cbv zeta.
  unfold run, dockerManager.CreateRestoreContainer. rewrite Hc, Hhc.
  rewrite bind_run. unfold invoke. cbn [now trace].
  destruct (client_ContainerCreate w _ _ newName) as [w' [respID|msg]].
  - unfold sliceTo. destruct (12 <=? String.length respID)%nat; msimpl.
    + split; [do 2 eexists; reflexivity|]. eexists. split; [reflexivity|]. repeat split.
    + split; [do 2 eexists; reflexivity|]. eexists. split; [reflexivity|]. repeat split.
  - msimpl. split; [do 2 eexists; reflexivity|]. eexists. split; [reflexivity|]. repeat split.
Qed.

End ShellContainer.

(** C10, as stated, fails: the devices of the original container are
    carried into the restore container. *)
Lemma CreateRestoreContainer_carries_devices :
  exists hostConfig,
    Spec.createdHostConfig
      (trace (run (@dockerManager.CreateRestoreContainer Toy.host Toy.sampleState "c1-restored")
                  (Toy.checkpointed nil nil nil)).2) = Some hostConfig /\
    Spec.builtFromScratch Toy.sampleHostConfig hostConfig /\
    ~ Spec.othersNotCarried hostConfig.
Proof.
  eexists. split; [vm_compute; reflexivity|]. split.
  - repeat split.
  - intros (_ & _ & Hdev). discriminate Hdev.
Qed.

(** C10, amended, on the sample. *)
Lemma CreateRestoreContainer_host_config_witness :
  Config Toy.sampleState = Some Toy.sampleConfig /\
  HostConfig Toy.sampleState = Some Toy.sampleHostConfig /\
  let r := run (@dockerManager.CreateRestoreContainer Toy.host Toy.sampleState "c1-restored")
               (Toy.checkpointed nil nil nil) in
  exists hostConfig,
    Spec.createdHostConfig (trace r.2) = Some hostConfig /\
    Spec.builtFromScratch Toy.sampleHostConfig hostConfig /\
    container.PortBindings hostConfig = ∅ /\
    container.Binds hostConfig = [] /\
    container.CapDrop hostConfig = [] /\
    container.Devices (container.Resources_ hostConfig)
      = [container.mkDeviceMapping "/dev/fuse" "/dev/fuse" "rwm"].
Proof.
  split; [reflexivity|]. split; [reflexivity|].
  exact (proj2 (@CreateRestoreContainer_host_config Toy.host Toy.sampleState "c1-restored"
                  (Toy.checkpointed nil nil nil) Toy.sampleConfig Toy.sampleHostConfig
                  eq_refl eq_refl)).
Defined.

(** ** The codec of the mount mappings *)

#[local] Arguments String.append : simpl nomatch.

Section JsonStrings.

Lemma high_byte (c : ascii) :
  (utf8.byte c <? 128)%N = false ->
  Ascii.eqb c json.dquote = false /\ Ascii.eqb c json.backslash = false /\
  (utf8.byte c <? 32)%N = false.
Proof.
  intros Hc. repeat split.
  - destruct (Ascii.eqb_spec c json.dquote) as [->|]; [discriminate|reflexivity].
  - destruct (Ascii.eqb_spec c json.backslash) as [->|]; [discriminate|reflexivity].
  - apply N.ltb_ge. apply N.ltb_ge in Hc. lia.
Qed.

Lemma unquote_safe (c : ascii) (X : string) :
  json.htmlSafe c = true ->
  json.unquoteFrom 0 0 (String c X)
  = json.prepend (String c EmptyString) (json.unquoteFrom 0 0 X).
Proof.
  destruct c as [[] [] [] [] [] [] [] []]; intros Hs; try discriminate Hs; reflexivity.
Qed.

Lemma unquote_escaped (c : ascii) (X : string) :
  (utf8.byte c <? 128)%N = true ->
  json.htmlSafe c = false ->
  json.unquoteFrom 0 0 (json.escapeByte c +:+ X)
  = json.prepend (String c EmptyString) (json.unquoteFrom 0 0 X).
Proof.
  destruct c as [[] [] [] [] [] [] [] []]; intros Hc Hs; try discriminate Hc; try discriminate Hs;
    reflexivity.
Qed.


(** The shapes of a well-formed encoding of more than one byte. *)
Lemma runeLen_multi (c : ascii) (r : string) (n : nat) :
  (utf8.byte c <? 128)%N = false ->
  utf8.runeLen (String c r) = Some n ->
  (n = 2%nat /\ exists b1 r1, r = String b1 r1 /\
     forall Y, utf8.runeLen (String c (String b1 Y)) = Some 2%nat) \/
  (n = 3%nat /\ exists b1 b2 r2, r = String b1 (String b2 r2) /\
     forall Y, utf8.runeLen (String c (String b1 (String b2 Y))) = Some 3%nat) \/
  (n = 4%nat /\ exists b1 b2 b3 r3, r = String b1 (String b2 (String b3 r3)) /\
     forall Y, utf8.runeLen (String c (String b1 (String b2 (String b3 Y)))) = Some 4%nat).
Proof.
  intros Hc. unfold utf8.runeLen. rewrite Hc.
  destruct (utf8.secondRange c) as [[[lo hi] m]|]; [|discriminate].
  destruct r as [|b1 r1]; [discriminate|].
  destruct (utf8.between lo hi b1) eqn:Hb1; [|discriminate].
  destruct m as [|[|[|[|m]]]].
  - destruct r1 as [|b2 [|b3 r3]]; try discriminate.
    destruct (utf8.continues b2 && utf8.continues b3) eqn:Hb; [|discriminate].
    intros [= <-]. right; right. split; [reflexivity|].
    exists b1, b2, b3, r3. split; [reflexivity|]. intros Y. now rewrite Hb1, Hb.
  - destruct r1 as [|b2 [|b3 r3]]; try discriminate.
    destruct (utf8.continues b2 && utf8.continues b3) eqn:Hb; [|discriminate].
    intros [= <-]. right; right. split; [reflexivity|].
    exists b1, b2, b3, r3. split; [reflexivity|]. intros Y. now rewrite Hb1, Hb.
  - intros [= <-]. left. split; [reflexivity|]. exists b1, r1. split; [reflexivity|].
    intros Y. now rewrite Hb1.
  - destruct r1 as [|b2 r2]; [discriminate|].
    destruct (utf8.continues b2) eqn:Hb2; [|discriminate].
    intros [= <-]. right; left. split; [reflexivity|].
    exists b1, b2, r2. split; [reflexivity|]. intros Y. now rewrite Hb1, Hb2.
  - destruct r1 as [|b2 [|b3 r3]]; try discriminate.
    destruct (utf8.continues b2 && utf8.continues b3) eqn:Hb; [|discriminate].
    intros [= <-]. right; right. split; [reflexivity|].
    exists b1, b2, b3, r3. split; [reflexivity|]. intros Y. now rewrite Hb1, Hb.
Qed.

(** A line separator is the three bytes E2 80 A8 or E2 80 A9. *)
Lemma lineSeparator_Some (s : string) (d : ascii) :
  json.lineSeparator s = Some d ->
  exists b2 s',
    s = String (ascii_of_N 226) (String (ascii_of_N 128) (String b2 s')) /\
    ((d = "8"%char /\ b2 = ascii_of_N 168) \/ (d = "9"%char /\ b2 = ascii_of_N 169)).
Proof.
  destruct s as [|b0 [|b1 [|b2 s']]]; try discriminate. unfold json.lineSeparator.
  destruct (utf8.byte b0 =? 226)%N eqn:H0; [|discriminate].
  destruct (utf8.byte b1 =? 128)%N eqn:H1; [|discriminate]. cbn [andb].
  apply N.eqb_eq in H0, H1.
  assert (E0 : b0 = ascii_of_N 226) by (rewrite <- H0; symmetry; apply ascii_N_embedding).
  assert (E1 : b1 = ascii_of_N 128) by (rewrite <- H1; symmetry; apply ascii_N_embedding).
  destruct (utf8.byte b2 =? 168)%N eqn:H2.
  - intros [= <-]. apply N.eqb_eq in H2. exists b2, s'. subst b0 b1. split; [reflexivity|].
    left. split; [reflexivity|]. rewrite <- H2. symmetry. apply ascii_N_embedding.
  - destruct (utf8.byte b2 =? 169)%N eqn:H3; [|discriminate].
    intros [= <-]. apply N.eqb_eq in H3. exists b2, s'. subst b0 b1. split; [reflexivity|].
    right. split; [reflexivity|]. rewrite <- H3. symmetry. apply ascii_N_embedding.
Qed.

Lemma prepend_Some (p d rest : string) (o : option (string * string)) :
  o = Some (d, rest) -> json.prepend p o = Some (p +:+ d, rest).
Proof. now intros ->. Qed.

Lemma unquote_appendString (n : nat) :
  forall (s : string) (k : nat) (rest : string),
    (String.length s <= n)%nat ->
    utf8.validFrom k s = true ->
    json.unquoteFrom k 0 (json.appendString k 0 s +:+ String json.dquote rest) = Some (s, rest).
Proof.
  induction n as [n IH] using lt_wf_ind. intros s k rest Hlen Hvalid.
  destruct s as [|c r].
  - destruct k; [reflexivity | discriminate].
  - cbn [String.length] in Hlen.
    assert (IHr : forall s' k', (String.length s' <= String.length r)%nat ->
              utf8.validFrom k' s' = true ->
              json.unquoteFrom k' 0 (json.appendString k' 0 s' +:+ String json.dquote rest)
              = Some (s', rest)).
    { intros s' k' Hs' Hv. apply (IH (String.length r)); [lia | exact Hs' | exact Hv]. }
    destruct k as [|k].
    + cbn [json.appendString]. cbn [utf8.validFrom] in Hvalid.
      destruct (utf8.byte c <? 128)%N eqn:Hc.
      * assert (Hone : utf8.runeLen (String c r) = Some 1%nat)
          by (unfold utf8.runeLen; now rewrite Hc).
        rewrite Hone in Hvalid. cbn [Nat.pred] in Hvalid.
        destruct (json.htmlSafe c) eqn:Hs.
        -- change (String c (json.appendString 0 0 r) +:+ String json.dquote rest)
             with (String c (json.appendString 0 0 r +:+ String json.dquote rest)).
           rewrite unquote_safe by exact Hs.
           now rewrite (IHr r 0%nat (Nat.le_refl _) Hvalid).
        -- rewrite string_app_assoc, unquote_escaped by assumption.
           now rewrite (IHr r 0%nat (Nat.le_refl _) Hvalid).
      * destruct (utf8.runeLen (String c r)) as [m|] eqn:Hlen'; [|discriminate].
        destruct (high_byte c Hc) as (Hq & Hb & H32).
        destruct (json.lineSeparator (String c r)) as [d|] eqn:Hsep.
        -- destruct (lineSeparator_Some _ _ Hsep) as (b2 & s' & [= -> ->] & Hd).
           assert (Hm : m = 3%nat) by (destruct Hd as [[_ ->]|[_ ->]]; vm_compute in Hlen'; congruence).
           subst m. cbn [Nat.pred utf8.validFrom] in Hvalid.
           cbn [json.appendString].
           assert (Hs' : json.unquoteFrom 0 0 (json.appendString 0 0 s' +:+ String json.dquote rest)
                         = Some (s', rest)).
           { apply IHr; [cbn [String.length]; lia | exact Hvalid]. }
           destruct Hd as [[-> ->]|[-> ->]]; cbn; rewrite Hs'; reflexivity.
        -- change (String c (json.appendString (Nat.pred m) 0 r) +:+ String json.dquote rest)
             with (String c (json.appendString (Nat.pred m) 0 r +:+ String json.dquote rest)).
           assert (Hcopy : utf8.runeLen
                     (String c (json.appendString (Nat.pred m) 0 r +:+ String json.dquote rest))
                   = Some m).
           { destruct (runeLen_multi c r m Hc Hlen')
               as [[-> (b1 & r1 & -> & HY)]
                  |[[-> (b1 & b2 & r2 & -> & HY)]
                   |[-> (b1 & b2 & b3 & r3 & -> & HY)]]];
               cbn [json.appendString Nat.pred String.append]; apply HY. }
           cbn [json.unquoteFrom]. rewrite Hq, Hb, H32, Hc, Hcopy.
           now rewrite (IHr r (Nat.pred m) (Nat.le_refl _) Hvalid).
    + cbn [utf8.validFrom] in Hvalid. cbn [json.appendString].
      change (String c (json.appendString k 0 r) +:+ String json.dquote rest)
        with (String c (json.appendString k 0 r +:+ String json.dquote rest)).
      cbn [json.unquoteFrom].
      now rewrite (IHr r k (Nat.le_refl _) Hvalid).
Qed.

(** A quoted well-formed string is read back as it was. *)
Lemma parseString_quote (s rest : string) :
  utf8.ValidString s = true ->
  json.parseString (json.quote s +:+ rest) = Some (s, rest).
Proof.
  intros Hvalid. unfold json.quote, json.quoteMark.
  change (String json.dquote (json.appendString 0 0 s +:+ String json.dquote "") +:+ rest)
    with (String json.dquote ((json.appendString 0 0 s +:+ String json.dquote "") +:+ rest)).
  rewrite string_app_assoc.
  change (String json.dquote "" +:+ rest) with (String json.dquote rest).
  unfold json.parseString. rewrite Ascii.eqb_refl.
  apply (unquote_appendString (String.length s)); [lia | exact Hvalid].
Qed.

End JsonStrings.

Section MappingCodec.
Import json.

Lemma parseValue_eq (f : nat) (depth : N) (s : string) :
  parseValue (S f) depth s =
  match skipSpace s with
  | EmptyString => None
  | String c r =>
      if Ascii.eqb c "[" then
        if (maxNestingDepth <=? depth)%N then None
        else
          match skipSpace r with
          | String "]" r' => Some (Array [], r')
          | _ =>
              match parseElements f (N.succ depth) r with
              | Some (vs, r') => Some (Array vs, r')
              | None => None
              end
          end
      else if Ascii.eqb c "{" then
        if (maxNestingDepth <=? depth)%N then None
        else
          match skipSpace r with
          | String "}" r' => Some (Object [], r')
          | _ =>
              match parseMembers f (N.succ depth) r with
              | Some (ms, r') => Some (Object ms, r')
              | None => None
              end
          end
      else if Ascii.eqb c dquote then
        match parseString (String c r) with
        | Some (str, r') => Some (Str str, r')
        | None => None
        end
      else
        match stripPrefix "true" (String c r), stripPrefix "false" (String c r),
              stripPrefix "null" (String c r) with
        | Some r', _, _ => Some (Bool true, r')
        | _, Some r', _ => Some (Bool false, r')
        | _, _, Some r' => Some (Null, r')
        | None, None, None =>
            match parseNumber (String c r) with
            | Some (lit, r') => Some (Number lit, r')
            | None => None
            end
        end
  end.
Proof. reflexivity. Qed.

Lemma parseValue_quote (f : nat) (depth : N) (s rest : string) :
  utf8.ValidString s = true ->
  parseValue (S f) depth (" " +:+ quote s +:+ rest) = Some (Str s, rest).
Proof.
  intros Hs. rewrite parseValue_eq.
  change (skipSpace (" " +:+ quote s +:+ rest)) with (quote s +:+ rest).
  pose proof (parseString_quote s rest Hs) as Hq.
  unfold quote in *. cbn [String.append] in *.
  change (Ascii.eqb dquote "[") with false. change (Ascii.eqb dquote "{") with false.
  rewrite Ascii.eqb_refl. cbn match. rewrite Hq. reflexivity.
Qed.

Lemma parseValue_bool (f : nat) (depth : N) (b : bool) (rest : string) :
  parseValue (S f) depth (" " +:+ boolLiteral b +:+ rest) = Some (Bool b, rest).
Proof. destruct b; reflexivity. Qed.


Lemma parseMembers_eq (f : nat) (depth : N) (s : string) :
  parseMembers (S f) depth s =
  match parseString (skipSpace s) with
  | None => None
  | Some (key, r) =>
      match skipSpace r with
      | String ":" r1 =>
          match parseValue f depth r1 with
          | None => None
          | Some (v, r2) =>
              match skipSpace r2 with
              | String c r3 =>
                  if Ascii.eqb c "," then
                    match parseMembers f depth r3 with
                    | Some (ms, r4) => Some ((key, v) :: ms, r4)
                    | None => None
                    end
                  else if Ascii.eqb c "}" then Some ([(key, v)], r3)
                  else None
              | EmptyString => None
              end
          end
      | _ => None
      end
  end.
Proof. reflexivity. Qed.

(** A member that another one follows. *)
Lemma parseMembers_member (f : nat) (depth : N) (name value text : string) (v : Value) :
  utf8.ValidString name = true ->
  (forall rest, parseValue f depth (" " +:+ value +:+ rest) = Some (v, rest)) ->
  parseMembers (S f) depth (LF +:+ member name value +:+ "," +:+ text) =
  match parseMembers f depth text with
  | Some (ms, r) => Some ((name, v) :: ms, r)
  | None => None
  end.
Proof.
  intros Hname Hv. rewrite parseMembers_eq. unfold member.
  rewrite !string_app_assoc.
  change (skipSpace (LF +:+ "    " +:+ ?x)) with (skipSpace x).
  change (skipSpace (quote name +:+ ?x)) with (quote name +:+ x).
  rewrite (parseString_quote _ _ Hname).
  change (skipSpace (": " +:+ ?x)) with (String ":" (" " +:+ x)).
  cbn match. rewrite Hv. reflexivity.
Qed.

(** The last member of an object. *)
Lemma parseMembers_last (f : nat) (depth : N) (name value rest : string) (v : Value) :
  utf8.ValidString name = true ->
  (forall rest, parseValue f depth (" " +:+ value +:+ rest) = Some (v, rest)) ->
  parseMembers (S f) depth (LF +:+ member name value +:+ LF +:+ "  }" +:+ rest) =
  Some ([(name, v)], rest).
Proof.
  intros Hname Hv. rewrite parseMembers_eq. unfold member.
  rewrite !string_app_assoc.
  change (skipSpace (LF +:+ "    " +:+ ?x)) with (skipSpace x).
  change (skipSpace (quote name +:+ ?x)) with (quote name +:+ x).
  rewrite (parseString_quote _ _ Hname).
  change (skipSpace (": " +:+ ?x)) with (String ":" (" " +:+ x)).
  cbn match. rewrite Hv. reflexivity.
Qed.

Lemma parseMembers_string (f : nat) (depth : N) (name s text : string) :
  utf8.ValidString name = true -> utf8.ValidString s = true ->
  parseMembers (S (S f)) depth (LF +:+ member name (quote s) +:+ "," +:+ text) =
  match parseMembers (S f) depth text with
  | Some (ms, r) => Some ((name, Str s) :: ms, r)
  | None => None
  end.
Proof.
  intros Hname Hs. apply parseMembers_member; [assumption|].
  intros rest. apply parseValue_quote, Hs.
Qed.

Lemma parseMembers_bool (f : nat) (depth : N) (name text : string) (b : bool) :
  utf8.ValidString name = true ->
  parseMembers (S (S f)) depth (LF +:+ member name (boolLiteral b) +:+ "," +:+ text) =
  match parseMembers (S f) depth text with
  | Some (ms, r) => Some ((name, Bool b) :: ms, r)
  | None => None
  end.
Proof.
  intros Hname. apply parseMembers_member; [assumption|].
  intros rest. apply parseValue_bool.
Qed.

Lemma parseMembers_last_bool (f : nat) (depth : N) (name rest : string) (b : bool) :
  utf8.ValidString name = true ->
  parseMembers (S (S f)) depth (LF +:+ member name (boolLiteral b) +:+ LF +:+ "  }" +:+ rest) =
  Some ([(name, Bool b)], rest).
Proof.
  intros Hname. apply parseMembers_last; [assumption|].
  intros rest'. apply parseValue_bool.
Qed.

Lemma parseValue_object (f : nat) (depth : N) (text r : string) (c : ascii) :
  (depth <? maxNestingDepth)%N = true ->
  skipSpace text = String c r -> Ascii.eqb c "}" = false ->
  parseValue (S f) depth ("  {" +:+ text) =
  match parseMembers f (N.succ depth) text with
  | Some (ms, r') => Some (Object ms, r')
  | None => None
  end.
Proof.
  intros Hdepth Htext Hc. rewrite parseValue_eq.
  change (skipSpace ("  {" +:+ text)) with (String "{" text).
  cbn match. change (Ascii.eqb "{" "[") with false. rewrite Ascii.eqb_refl, Htext.
  apply N.ltb_lt, N.leb_gt in Hdepth. rewrite Hdepth.
  destruct c as [[] [] [] [] [] [] [] []]; try reflexivity. discriminate.
Qed.

Lemma parseValue_marshalMapping (f : nat) (m : MountMapping) (rest : string) :
  Spec.validUTF8 m = true ->
  parseValue (8 + f) 1 ("  " +:+ marshalMapping m +:+ rest) = Some (valueOf m, rest).
Proof.
  unfold Spec.validUTF8. rewrite !andb_true_iff. intros [[[H1 H2] H3] H4].
  change (8 + f)%nat with (S (S (S (S (S (S (S (S f)))))))).
  unfold marshalMapping. rewrite !string_app_assoc.
  change ("  " +:+ "{" +:+ ?x) with ("  {" +:+ x).
  erewrite (parseValue_object _ _ _ _ dquote); [|reflexivity..].
  rewrite 4 parseMembers_string by (reflexivity || assumption).
  rewrite parseMembers_bool by reflexivity.
  rewrite parseMembers_last_bool by reflexivity.
  reflexivity.
Qed.

Lemma parseElements_eq (f : nat) (depth : N) (s : string) :
  parseElements (S f) depth s =
  match parseValue f depth s with
  | None => None
  | Some (v, r) =>
      match skipSpace r with
      | String c r' =>
          if Ascii.eqb c "," then
            match parseElements f depth r' with
            | Some (vs, r'') => Some (v :: vs, r'')
            | None => None
            end
          else if Ascii.eqb c "]" then Some ([v], r')
          else None
      | EmptyString => None
      end
  end.
Proof. reflexivity. Qed.

Lemma parseValue_LF (f : nat) (depth : N) (s : string) :
  parseValue f depth (LF +:+ s) = parseValue f depth s.
Proof. destruct f; reflexivity. Qed.

Lemma parseElements_marshalElements (f : nat) (ms : list MountMapping) (rest : string) :
  ms <> [] -> forallb Spec.validUTF8 ms = true ->
  parseElements (length ms + 8 + f) 1 (LF +:+ marshalElements ms +:+ "]" +:+ rest) =
  Some (map valueOf ms, rest).
Proof.
  induction ms as [|m ms IH]; [congruence|]. intros _ Hvalid.
  cbn [forallb] in Hvalid. apply andb_true_iff in Hvalid as [Hm Hms].
  change (length (m :: ms) + 8 + f)%nat with (S (length ms + 8 + f)).
  rewrite parseElements_eq, parseValue_LF.
  replace (length ms + 8 + f)%nat with (8 + (length ms + f))%nat by lia.
  destruct ms as [|m' ms].
  - cbn [marshalElements]. rewrite !string_app_assoc.
    rewrite parseValue_marshalMapping by assumption. reflexivity.
  - change (marshalElements (m :: m' :: ms))
      with ("  " +:+ marshalMapping m +:+ "," +:+ LF +:+ marshalElements (m' :: ms)).
    rewrite !string_app_assoc.
    rewrite parseValue_marshalMapping by assumption.
    change (skipSpace ("," +:+ ?x)) with (String "," x). cbn match.
    change (Ascii.eqb "," ",") with true. cbn match.
    replace (8 + (length (m' :: ms) + f))%nat with (length (m' :: ms) + 8 + f)%nat by lia.
    rewrite IH by (assumption || discriminate). reflexivity.
Qed.

Lemma findField_fields :
  map (fun '(name, _) => findField name) fields = map (fun '(_, f) => Some f) fields.
Proof. reflexivity. Qed.

Lemma decodeMapping_valueOf (m : MountMapping) : decodeMapping (valueOf m) = Ok m.
Proof. destruct m; reflexivity. Qed.

Lemma decodeElements_valueOf (ms : list MountMapping) :
  decodeElements (map valueOf ms) = Ok ms.
Proof.
  induction ms as [|m ms IH]; [reflexivity|].
  cbn [map decodeElements]. rewrite decodeMapping_valueOf, IH. reflexivity.
Qed.

Lemma marshalElements_length (ms : list MountMapping) :
  (2 * length ms <= String.length (marshalElements ms))%nat.
Proof.
  induction ms as [|m ms IH]; [reflexivity|].
  destruct ms as [|m' ms].
  - cbn [marshalElements length]. rewrite string_length_app. cbn [String.length]. lia.
  - change (marshalElements (m :: m' :: ms))
      with ("  " +:+ marshalMapping m +:+ "," +:+ LF +:+ marshalElements (m' :: ms)).
    rewrite !string_length_app. cbn [length] in *. cbn [String.length]. lia.
Qed.

Lemma parseValue_array (f : nat) (depth : N) (text r : string) (c : ascii) :
  (depth <? maxNestingDepth)%N = true ->
  skipSpace text = String c r -> Ascii.eqb c "]" = false ->
  parseValue (S f) depth ("[" +:+ text) =
  match parseElements f (N.succ depth) text with
  | Some (vs, r') => Some (Array vs, r')
  | None => None
  end.
Proof.
  intros Hdepth Htext Hc. rewrite parseValue_eq.
  change (skipSpace ("[" +:+ text)) with (String "[" text).
  cbn match. rewrite Ascii.eqb_refl, Htext.
  apply N.ltb_lt, N.leb_gt in Hdepth. rewrite Hdepth.
  destruct c as [[] [] [] [] [] [] [] []]; try reflexivity. discriminate.
Qed.

Lemma marshalElements_head (m : MountMapping) (ms : list MountMapping) (rest : string) :
  exists r, skipSpace (LF +:+ marshalElements (m :: ms) +:+ rest) = String "{" r.
Proof. destruct ms; eexists; reflexivity. Qed.

(** A key is matched up to case, a key that names no field is passed
    over, and [null] leaves a field as it is. *)
Example Unmarshal_mappings_by_folded_name :
  Unmarshal_mappings ("[{" +:+ quote "TYPE" +:+ ":" +:+ quote "bind" +:+ ", "
                        +:+ quote "size" +:+ ": [1, 2.5e3], "
                        +:+ quote "type" +:+ ": null}]")
  = Ok [mkMountMapping "" "" "bind" "" false false].
Proof. vm_compute. reflexivity. Qed.

(** What is written for a list whose strings are valid UTF-8 is read
    back as that list. *)
Theorem Unmarshal_MarshalIndent (ms : list MountMapping) :
  forallb Spec.validUTF8 ms = true ->
  exists data, MarshalIndent_mappings ms = Ok data /\ Unmarshal_mappings data = Ok ms.
Proof.
  intros Hvalid. destruct ms as [|m ms]; [exists "null"; split; reflexivity|].
  eexists. split; [reflexivity|].
  unfold Unmarshal_mappings, parse.
  destruct (marshalElements_head m ms "]") as [r Hr].
  pose proof (marshalElements_length (m :: ms)) as Hlen.
  set (ms' := m :: ms) in *.
  set (data := "[" +:+ LF +:+ marshalElements ms' +:+ "]").
  assert (Hfuel : exists k, (2 * String.length data = length ms' + 8 + k)%nat).
  { exists (2 * String.length data - (length ms' + 8))%nat.
    subst data. rewrite !string_length_app. cbn [String.length LF].
    subst ms'. cbn [length] in *. lia. }
  destruct Hfuel as [k ->].
  subst data. rewrite (parseValue_array _ 0 _ _ _ eq_refl Hr eq_refl).
  change (N.succ 0) with 1%N.
  change (LF +:+ marshalElements ms' +:+ "]")
    with (LF +:+ marshalElements ms' +:+ "]" +:+ "").
  rewrite parseElements_marshalElements by (assumption || discriminate).
  cbn [skipSpace]. apply decodeElements_valueOf.
Qed.

End MappingCodec.

(** ** The codec of the mount mappings on any strings *)

Section Coercion.
Import json.

Lemma unquote_replacement (X : string) :
  unquoteFrom 0 0
    (String backslash (String "u" (String "f" (String "f" (String "f" (String "d" X))))))
  = prepend (utf8.encodeRune utf8.RuneError) (unquoteFrom 0 0 X).
Proof. reflexivity. Qed.

Lemma validFrom_replacement (X : string) :
  utf8.validFrom 0 (utf8.encodeRune utf8.RuneError +:+ X) = utf8.validFrom 0 X.
Proof. reflexivity. Qed.

(** The bytes a well-formed encoding of more than one byte has after
    its first one are there. *)
Lemma runeLen_room (c : ascii) (r : string) (n : nat) :
  (utf8.byte c <? 128)%N = false ->
  utf8.runeLen (String c r) = Some n ->
  (Nat.pred n <= String.length r)%nat /\
  forall f : nat -> string -> string,
    (forall k b X, f (S k) (String b X) = String b (f k X)) ->
    utf8.runeLen (String c (f (Nat.pred n) r)) = Some n.
Proof.
  intros Hc Hlen.
  destruct (runeLen_multi c r n Hc Hlen)
    as [[-> (b1 & r1 & -> & HY)]
       |[[-> (b1 & b2 & r2 & -> & HY)]
        |[-> (b1 & b2 & b3 & r3 & -> & HY)]]];
    (split; [cbn [Nat.pred String.length]; lia|]);
    intros f Hf; cbn [Nat.pred]; rewrite ?Hf; apply HY.
Qed.

Lemma unquote_appendString_any (n : nat) :
  forall (s : string) (k : nat) (rest : string),
    (String.length s <= n)%nat ->
    (k <= String.length s)%nat ->
    unquoteFrom k 0 (appendString k 0 s +:+ String dquote rest)
    = Some (Behaviour.coerceFrom k s, rest).
Proof.
  induction n as [n IH] using lt_wf_ind. intros s k rest Hlen Hk.
  destruct s as [|c r].
  - assert (k = 0)%nat as -> by (cbn in Hk; lia). reflexivity.
  - cbn [String.length] in Hlen, Hk.
    assert (IHr : forall s' k', (String.length s' <= String.length r)%nat ->
              (k' <= String.length s')%nat ->
              unquoteFrom k' 0 (appendString k' 0 s' +:+ String dquote rest)
              = Some (Behaviour.coerceFrom k' s', rest)).
    { intros s' k' Hs' Hk'. apply (IH (String.length r)); [lia | exact Hs' | exact Hk']. }
    destruct k as [|k].
    + cbn [appendString Behaviour.coerceFrom].
      destruct (utf8.byte c <? 128)%N eqn:Hc.
      * assert (Hone : utf8.runeLen (String c r) = Some 1%nat)
          by (unfold utf8.runeLen; now rewrite Hc).
        rewrite Hone. cbn [Nat.pred].
        destruct (htmlSafe c) eqn:Hs.
        -- change (String c (appendString 0 0 r) +:+ String dquote rest)
             with (String c (appendString 0 0 r +:+ String dquote rest)).
           rewrite unquote_safe by exact Hs.
           now rewrite (IHr r 0%nat (Nat.le_refl _) (Nat.le_0_l _)).
        -- rewrite string_app_assoc, unquote_escaped by assumption.
           now rewrite (IHr r 0%nat (Nat.le_refl _) (Nat.le_0_l _)).
      * destruct (utf8.runeLen (String c r)) as [m|] eqn:Hlen'.
        -- destruct (high_byte c Hc) as (Hq & Hb & H32).
           destruct (runeLen_room c r m Hc Hlen') as [Hroom Hcopy].
           destruct (lineSeparator (String c r)) as [d|] eqn:Hsep.
           ++ destruct (lineSeparator_Some _ _ Hsep) as (b2 & s' & [= -> ->] & Hd).
              assert (Hm : m = 3%nat)
                by (destruct Hd as [[_ ->]|[_ ->]]; vm_compute in Hlen'; congruence).
              subst m. cbn [Nat.pred Behaviour.coerceFrom].
              cbn [appendString].
              assert (Hs' : unquoteFrom 0 0 (appendString 0 0 s' +:+ String dquote rest)
                            = Some (Behaviour.coerceFrom 0 s', rest)).
              { apply IHr; [cbn [String.length]; lia | lia]. }
              destruct Hd as [[-> ->]|[-> ->]]; cbn; rewrite Hs'; reflexivity.
           ++ change (String c (appendString (Nat.pred m) 0 r) +:+ String dquote rest)
                with (String c (appendString (Nat.pred m) 0 r +:+ String dquote rest)).
              assert (Hcopy' : utf8.runeLen
                        (String c (appendString (Nat.pred m) 0 r +:+ String dquote rest))
                      = Some m).
              { apply (Hcopy (fun k X => appendString k 0 X +:+ String dquote rest)).
                intros k' b X. reflexivity. }
              cbn [unquoteFrom]. rewrite Hq, Hb, H32, Hc, Hcopy'.
              now rewrite (IHr r (Nat.pred m) (Nat.le_refl _) Hroom).
        -- change (String ?a (String ?b (String ?c0 (String ?d (String ?e (String ?f ?X)))))
                     +:+ ?Y)
             with (String a (String b (String c0 (String d (String e (String f (X +:+ Y))))))).
           rewrite unquote_replacement.
           now rewrite (IHr r 0%nat (Nat.le_refl _) (Nat.le_0_l _)).
    + cbn [appendString Behaviour.coerceFrom].
      change (String c (appendString k 0 r) +:+ String dquote rest)
        with (String c (appendString k 0 r +:+ String dquote rest)).
      cbn [unquoteFrom].
      rewrite (IHr r k (Nat.le_refl _)) by lia. reflexivity.
Qed.

Lemma parseString_quote_any (s rest : string) :
  parseString (quote s +:+ rest) = Some (Behaviour.coerced s, rest).
Proof.
  unfold quote, quoteMark.
  change (String dquote (appendString 0 0 s +:+ String dquote "") +:+ rest)
    with (String dquote ((appendString 0 0 s +:+ String dquote "") +:+ rest)).
  rewrite string_app_assoc.
  change (String dquote "" +:+ rest) with (String dquote rest).
  unfold parseString. rewrite Ascii.eqb_refl.
  apply (unquote_appendString_any (String.length s)); lia.
Qed.

Lemma parseValue_quote_any (f : nat) (depth : N) (s rest : string) :
  parseValue (S f) depth (" " +:+ quote s +:+ rest) = Some (Str (Behaviour.coerced s), rest).
Proof.
  rewrite parseValue_eq.
  change (skipSpace (" " +:+ quote s +:+ rest)) with (quote s +:+ rest).
  pose proof (parseString_quote_any s rest) as Hq.
  unfold quote in *. cbn [String.append] in *.
  change (Ascii.eqb dquote "[") with false. change (Ascii.eqb dquote "{") with false.
  rewrite Ascii.eqb_refl. cbn match. rewrite Hq. reflexivity.
Qed.

Lemma parseMembers_string_any (f : nat) (depth : N) (name s text : string) :
  utf8.ValidString name = true ->
  parseMembers (S (S f)) depth (LF +:+ member name (quote s) +:+ "," +:+ text) =
  match parseMembers (S f) depth text with
  | Some (ms, r) => Some ((name, Str (Behaviour.coerced s)) :: ms, r)
  | None => None
  end.
Proof.
  intros Hname. apply parseMembers_member; [assumption|].
  intros rest. apply parseValue_quote_any.
Qed.

Lemma parseValue_marshalMapping_any (f : nat) (m : MountMapping) (rest : string) :
  parseValue (8 + f) 1 ("  " +:+ marshalMapping m +:+ rest)
  = Some (valueOf (Behaviour.coercedMapping m), rest).
Proof.
  change (8 + f)%nat with (S (S (S (S (S (S (S (S f)))))))).
  unfold marshalMapping. rewrite !string_app_assoc.
  change ("  " +:+ "{" +:+ ?x) with ("  {" +:+ x).
  erewrite (parseValue_object _ _ _ _ dquote); [|reflexivity..].
  rewrite 4 parseMembers_string_any by reflexivity.
  rewrite parseMembers_bool by reflexivity.
  rewrite parseMembers_last_bool by reflexivity.
  reflexivity.
Qed.

Lemma parseElements_marshalElements_any (f : nat) (ms : list MountMapping) (rest : string) :
  ms <> [] ->
  parseElements (length ms + 8 + f) 1 (LF +:+ marshalElements ms +:+ "]" +:+ rest) =
  Some (map (fun m => valueOf (Behaviour.coercedMapping m)) ms, rest).
Proof.
  induction ms as [|m ms IH]; [congruence|]. intros _.
  change (length (m :: ms) + 8 + f)%nat with (S (length ms + 8 + f)).
  rewrite parseElements_eq, parseValue_LF.
  replace (length ms + 8 + f)%nat with (8 + (length ms + f))%nat by lia.
  destruct ms as [|m' ms].
  - cbn [marshalElements]. rewrite !string_app_assoc.
    rewrite parseValue_marshalMapping_any. reflexivity.
  - change (marshalElements (m :: m' :: ms))
      with ("  " +:+ marshalMapping m +:+ "," +:+ LF +:+ marshalElements (m' :: ms)).
    rewrite !string_app_assoc.
    rewrite parseValue_marshalMapping_any.
    change (skipSpace ("," +:+ ?x)) with (String "," x). cbn match.
    change (Ascii.eqb "," ",") with true. cbn match.
    replace (8 + (length (m' :: ms) + f))%nat with (length (m' :: ms) + 8 + f)%nat by lia.
    rewrite IH by discriminate. reflexivity.
Qed.

(** What is written for any list is read back, each string coerced. *)
Lemma Unmarshal_MarshalIndent_any (ms : list MountMapping) :
  exists data, MarshalIndent_mappings ms = Ok data /\
               Unmarshal_mappings data = Ok (map Behaviour.coercedMapping ms).
Proof.
  destruct ms as [|m ms]; [exists "null"; split; reflexivity|].
  eexists. split; [reflexivity|].
  unfold Unmarshal_mappings, parse.
  destruct (marshalElements_head m ms "]") as [r Hr].
  pose proof (marshalElements_length (m :: ms)) as Hlen.
  set (ms' := m :: ms) in *.
  set (data := "[" +:+ LF +:+ marshalElements ms' +:+ "]").
  assert (Hfuel : exists k, (2 * String.length data = length ms' + 8 + k)%nat).
  { exists (2 * String.length data - (length ms' + 8))%nat.
    subst data. rewrite !string_length_app. cbn [String.length LF].
    subst ms'. cbn [length] in *. lia. }
  destruct Hfuel as [k ->].
  subst data. rewrite (parseValue_array _ 0 _ _ _ eq_refl Hr eq_refl).
  change (N.succ 0) with 1%N.
  change (LF +:+ marshalElements ms' +:+ "]")
    with (LF +:+ marshalElements ms' +:+ "]" +:+ "").
  rewrite parseElements_marshalElements_any by discriminate.
  cbn [skipSpace]. rewrite <- (map_map Behaviour.coercedMapping valueOf).
  apply decodeElements_valueOf.
Qed.

(** A coerced string is valid UTF-8. *)
Lemma coerceFrom_valid (n : nat) :
  forall (s : string) (k : nat),
    (String.length s <= n)%nat -> (k <= String.length s)%nat ->
    utf8.validFrom k (Behaviour.coerceFrom k s) = true.
Proof.
  induction n as [n IH] using lt_wf_ind. intros s k Hlen Hk.
  destruct s as [|c r].
  - assert (k = 0)%nat as -> by (cbn in Hk; lia). reflexivity.
  - cbn [String.length] in Hlen, Hk.
    assert (IHr : forall k', (k' <= String.length r)%nat ->
              utf8.validFrom k' (Behaviour.coerceFrom k' r) = true).
    { intros k' Hk'. apply (IH (String.length r)); [lia | lia | exact Hk']. }
    destruct k as [|k]; cbn [Behaviour.coerceFrom].
    + destruct (utf8.runeLen (String c r)) as [m|] eqn:Hlen'.
      * destruct (utf8.byte c <? 128)%N eqn:Hc.
        -- assert (m = 1%nat) as ->
             by (unfold utf8.runeLen in Hlen'; rewrite Hc in Hlen'; congruence).
           cbn [Nat.pred utf8.validFrom]. unfold utf8.runeLen. rewrite Hc.
           apply IHr. lia.
        -- destruct (runeLen_room c r m Hc Hlen') as [Hroom Hcopy].
           cbn [utf8.validFrom]. rewrite (Hcopy Behaviour.coerceFrom) by reflexivity.
           apply IHr, Hroom.
      * rewrite validFrom_replacement. apply IHr. lia.
    + cbn [utf8.validFrom]. apply IHr. lia.
Qed.

Lemma coerced_valid (s : string) : utf8.ValidString (Behaviour.coerced s) = true.
Proof. apply (coerceFrom_valid (String.length s)); lia. Qed.

(** Coercion leaves a valid string as it is. *)
Lemma coerceFrom_id (s : string) :
  forall k, utf8.validFrom k s = true -> Behaviour.coerceFrom k s = s.
Proof.
  induction s as [|c r IH]; [reflexivity|]. intros k Hv.
  destruct k as [|k]; cbn [Behaviour.coerceFrom utf8.validFrom] in *.
  - destruct (utf8.runeLen (String c r)) as [m|]; [|discriminate].
    now rewrite IH.
  - now rewrite IH.
Qed.

Lemma coerced_id_iff (s : string) :
  Behaviour.coerced s = s <-> utf8.ValidString s = true.
Proof.
  split.
  - intros Hs. rewrite <- Hs. apply coerced_valid.
  - apply coerceFrom_id.
Qed.

Lemma coercedMapping_valid (m : MountMapping) :
  Spec.validUTF8 (Behaviour.coercedMapping m) = true.
Proof.
  unfold Spec.validUTF8, Behaviour.coercedMapping. cbn.
  now rewrite !coerced_valid.
Qed.

Lemma coercedMapping_id_iff (m : MountMapping) :
  Behaviour.coercedMapping m = m <-> Spec.validUTF8 m = true.
Proof.
  split.
  - intros Hm. rewrite <- Hm. apply coercedMapping_valid.
  - unfold Spec.validUTF8. rewrite !andb_true_iff. intros [[[H1 H2] H3] H4].
    destruct m as [cp hp ty op ext ro]. unfold Behaviour.coercedMapping. cbn in *.
    f_equal; now apply coerced_id_iff.
Qed.

Lemma coercedMappings_id_iff (ms : list MountMapping) :
  map Behaviour.coercedMapping ms = ms <-> forallb Spec.validUTF8 ms = true.
Proof.
  induction ms as [|m ms IH]; [easy|].
  cbn [map forallb]. rewrite andb_true_iff, <- IH, <- coercedMapping_id_iff.
  split; [intros [= -> ->]; now split | intros [-> ->]; reflexivity].
Qed.

End Coercion.

(** ** Persistence: what is saved and loaded back *)

Section Persistence.
Context `{Host} `{Json} `{!WriteReadLaws}.

Lemma WriteFile_stored (filePath data : string) (s s' : State) :
  utils.WriteFile filePath data s = (Done nil, s') ->
  os_ReadFile (now s') filePath = Ok data /\ os_Stat (now s') filePath <> StatNotExist.
Proof.
  unfold utils.WriteFile. rewrite bind_run. unfold invoke at 1.
  destruct (os_MkdirAll (now s) (filepath_Dir filePath) utils.perm0755) as [w1 [|msg]];
    [|discriminate].
  rewrite bind_run. unfold invoke. cbn [now trace].
  destruct (os_WriteFile w1 filePath data utils.perm0644) as [w2 [|msg]] eqn:Hwrite;
    [|discriminate].
  intros [= <-]. cbn [now]. exact (WriteFile_stores _ _ _ _ _ Hwrite).
Qed.

Lemma LoadMountMappings_run (filePath data : string) (s : State) :
  os_ReadFile (now s) filePath = Ok data -> os_Stat (now s) filePath <> StatNotExist ->
  (checkpointManager.LoadMountMappings filePath s).1 =
  Done (match json.Unmarshal_mappings data with
        | Ok mappings => Ok mappings
        | Fail msg => Fail ("failed to parse mount mappings: " +:+ msg)
        end).
Proof.
  intros Hread Hstat. unfold checkpointManager.LoadMountMappings, utils.FileExists.
  rewrite !bind_run. unfold observe at 1. cbn [mret M_ret].
  destruct (os_Stat (now s) filePath); [contradiction| |];
    cbn [negb]; rewrite bind_run; unfold utils.ReadFile; rewrite bind_run;
    unfold observe; rewrite Hread; cbn [mret M_ret];
    destruct (json.Unmarshal_mappings data); reflexivity.
Qed.



End Persistence.

Lemma Toy_writes : @WriteReadLaws Toy.host.
Proof.
  split. simpl. unfold Toy.writeFile, Toy.readFile, Toy.stat.
  intros w path data perm w' Hwrite.
  destruct (Toy.member path (Toy.denied w)); [discriminate|].
  injection Hwrite as <-. simpl. rewrite String.eqb_refl.
  split; [reflexivity|]. now destruct (Toy.member path (Toy.dirs w)).
Qed.



(** * Further properties *)

(** ** The environment of a container *)

Lemma SplitEq_append (k v : string) :
  strings.SplitEq k = None -> strings.SplitEq (k +:+ "=" +:+ v) = Some (k, v).
Proof.
  induction k as [|c k IH]; [reflexivity|]. intros Hk.
  change (String c k +:+ "=" +:+ v) with (String c (k +:+ "=" +:+ v)).
  cbn [strings.SplitEq] in *.
  destruct (Ascii.eqb_spec c "=") as [->|Hc]; [discriminate|].
  destruct (strings.SplitEq k) as [[k' v']|] eqn:Hsplit.
  - destruct c as [[] [] [] [] [] [] [] []]; discriminate.
  - rewrite IH by reflexivity.
    destruct c as [[] [] [] [] [] [] [] []]; try reflexivity. now contradiction Hc.
Qed.

Lemma SplitEq_Some (s k v : string) :
  strings.SplitEq s = Some (k, v) -> s = k +:+ "=" +:+ v /\ strings.SplitEq k = None.
Proof.
  revert k. induction s as [|c s IH]; intros k; [discriminate|].
  cbn [strings.SplitEq].
  destruct (Ascii.eqb_spec c "=") as [->|Hc].
  - intros [= <- <-]. split; reflexivity.
  - assert (Hstep : match strings.SplitEq s with
                    | Some (k0, v0) => Some (String c k0, v0)
                    | None => None
                    end = Some (k, v) ->
                    String c s = k +:+ "=" +:+ v /\ strings.SplitEq k = None).
    { destruct (strings.SplitEq s) as [[k0 v0]|]; [|discriminate].
      intros [= <- <-]. destruct (IH k0 eq_refl) as [-> Hk0]. split; [reflexivity|].
      cbn [strings.SplitEq]. rewrite Hk0.
      destruct c as [[] [] [] [] [] [] [] []]; try reflexivity. now contradiction Hc. }
    destruct c as [[] [] [] [] [] [] [] []]; try exact Hstep. now contradiction Hc.
Qed.

Lemma parseEnv_snoc (env : list string) (e : string) :
  dockerManager.parseEnv (env ++ [e]) =
  match strings.SplitEq e with
  | Some (k, v) => <[k := v]> (dockerManager.parseEnv env)
  | None => dockerManager.parseEnv env
  end.
Proof. unfold dockerManager.parseEnv. now rewrite fold_left_app. Qed.

(** X1. A variable of the environment map of [GetContainerState] holds
    the value of the last entry of its name, the name being what precedes
    the first [=] of an entry; an entry without [=] defines nothing. *)
Theorem parseEnv_last_entry_wins (env : list string) (k v : string) :
  dockerManager.parseEnv env !! k = Some v <->
  exists pre post,
    env = pre ++ (k +:+ "=" +:+ v) :: post /\
    strings.SplitEq k = None /\
    Forall (fun e => forall v', strings.SplitEq e <> Some (k, v')) post.
Proof.
  induction env as [|e env IH] using rev_ind.
  - split; [discriminate|]. intros (pre & post & Henv & _). now destruct pre.
  - rewrite parseEnv_snoc. split.
    + destruct (strings.SplitEq e) as [[k' v']|] eqn:He.
      * destruct (decide (k' = k)) as [->|Hk].
        -- rewrite lookup_insert_eq. intros [= ->].
           destruct (SplitEq_Some _ _ _ He) as [-> Hnone].
           exists env, []. repeat split; [assumption | constructor].
        -- rewrite lookup_insert_ne by exact Hk. intros Hl.
           apply IH in Hl as (pre & post & -> & Hnone & Hpost).
           exists pre, (post ++ [e]). split; [now rewrite <- app_assoc|].
           split; [assumption|]. apply Forall_app. split; [assumption|].
           repeat constructor. intros v''. rewrite He. congruence.
      * intros Hl. apply IH in Hl as (pre & post & -> & Hnone & Hpost).
        exists pre, (post ++ [e]). split; [now rewrite <- app_assoc|].
        split; [assumption|]. apply Forall_app. split; [assumption|].
        repeat constructor. intros v''. rewrite He. congruence.
    + intros (pre & post & Henv & Hnone & Hpost).
      destruct post as [|p post _] using rev_ind.
      * apply app_inj_tail in Henv as [-> ->].
        rewrite (SplitEq_append _ _ Hnone). apply lookup_insert_eq.
      * rewrite app_comm_cons, app_assoc in Henv. apply app_inj_tail in Henv as [-> ->].
        apply Forall_app in Hpost as [Hpost Hp]. apply Forall_inv in Hp.
        assert (Hl : dockerManager.parseEnv (pre ++ (k +:+ "=" +:+ v) :: post) !! k = Some v).
        { apply IH. exists pre, post. auto. }
        destruct (strings.SplitEq p) as [[k' v']|] eqn:He; [|exact Hl].
        rewrite lookup_insert_ne; [exact Hl|]. intros ->. now apply (Hp v').
Qed.

(** ** From the mounts of a container to the external list of a dump *)

Lemma fold_snoc_map {A B} (f : A -> B) (xs : list A) (acc : list B) :
  fold_left (fun acc x => acc ++ [f x]) xs acc = acc ++ map f xs.
Proof.
  revert acc. induction xs as [|x xs IH]; intros acc; simpl.
  - now rewrite app_nil_r.
  - rewrite IH. now rewrite <- app_assoc.
Qed.

Lemma GetMountMappings_eq (state : ContainerState) :
  dockerManager.GetMountMappings state =
  map (fun mount => {| ContainerPath := types.Destination mount;
                       HostPath := types.Source mount;
                       Type_ := types.mpType mount;
                       Options := types.Mode mount;
                       IsExternal := true;
                       ReadOnly := negb (types.RW mount) |}) (Mounts state)
  ++ dockerManager.systemMounts.
Proof. unfold dockerManager.GetMountMappings. now rewrite fold_snoc_map. Qed.

Lemma external_of_mounts (state : ContainerState) :
  CRIUManager.BuildExternalMountMappings (dockerManager.GetMountMappings state) =
  Spec.allowList
    ++ map (fun mount => Spec.descriptor (types.Destination mount))
           (filter Behaviour.userMount (Mounts state)).
Proof.
  rewrite BuildExternalMountMappings_kept, GetMountMappings_eq. f_equal.
  rewrite filter_app.
  replace (filter Spec.kept dockerManager.systemMounts) with (@List.nil MountMapping)
    by (vm_compute; reflexivity).
  rewrite app_nil_r.
  induction (Mounts state) as [|mount mounts IH]; [reflexivity|].
  cbn [map]. rewrite !filter_cons.
  destruct (decide (Behaviour.userMount mount)) as [Hm|Hm];
    destruct (decide (Spec.kept _)) as [Hk|Hk]; cbn [map]; rewrite ?IH; try reflexivity.
  - exfalso. apply Hk. destruct Hm as (Hs & Hp & Hy & Hd). repeat split; assumption.
  - exfalso. apply Hm. destruct Hk as (_ & Hs & Hp & Hy & Hd). repeat split; assumption.
Qed.

(** X2. The external list a checkpoint hands to the engine, made by
    [BuildExternalMountMappings] of what [GetMountMappings] returns: the
    eleven descriptors of the allow-list, then one descriptor
    [mnt[<destination>]] for each mount of the container that has a
    source and whose destination does not begin with the bytes /proc,
    /sys or /dev, in the order of the mounts. The seven system mounts
    [GetMountMappings] appends add nothing to it. *)
Theorem BuildExternalMountMappings_of_GetMountMappings (state : ContainerState) :
  CRIUManager.BuildExternalMountMappings (dockerManager.GetMountMappings state) =
  Spec.allowList
    ++ map (fun mount => Spec.descriptor (types.Destination mount))
           (filter Behaviour.userMount (Mounts state)).
Proof. exact (external_of_mounts state). Qed.

(** ** The argument vectors *)

(** X3. For every process and every options record, [BuildCRIUCommandArgs]
    passes each of the five switches exactly when the structured call of
    [CheckpointProcess] carries it as set. *)
Theorem BuildCRIUCommandArgs_agrees_with_structured_call (sw : Spec.Switch) (pid : Z)
    (opts : checkpoint.CheckpointOptions) :
  Spec.structuredOf sw (CRIUManager.dumpOpts pid opts)
  = Some (Spec.passes (Spec.flagOf sw) (CRIUManager.BuildCRIUCommandArgs pid opts)).
Proof. now rewrite dumpOpts_switches, BuildCRIUCommandArgs_switches. Qed.

Lemma switches_app_operands (opt : string) (vs : list string) (args : list string) :
  existsb (String.eqb opt) Behaviour.withOperand = true ->
  Behaviour.switches (flat_map (fun v => [opt; v]) vs ++ args) = Behaviour.switches args.
Proof.
  intros Hopt. induction vs as [|v vs IH]; [reflexivity|].
  cbn [flat_map app Behaviour.switches]. now rewrite Hopt.
Qed.

Lemma operands_app_operands (opt opt' : string) (vs : list string) (args : list string) :
  existsb (String.eqb opt') Behaviour.withOperand = true ->
  Behaviour.operands opt (flat_map (fun v => [opt'; v]) vs ++ args) =
  (if String.eqb opt' opt then vs else []) ++ Behaviour.operands opt args.
Proof.
  intros Hopt. induction vs as [|v vs IH].
  - now destruct (String.eqb opt' opt).
  - cbn [flat_map app Behaviour.operands]. rewrite Hopt, IH.
    now destruct (String.eqb opt' opt).
Qed.

Lemma fold_ext_mount_map (maps : list string) (acc : list string) :
  fold_left (fun args mapping => args ++ ["--ext-mount-map"; mapping]) maps acc
  = acc ++ flat_map (fun mapping => ["--ext-mount-map"; mapping]) maps.
Proof.
  revert acc. induction maps as [|e maps IH]; intros acc; simpl.
  - now rewrite app_nil_r.
  - rewrite IH. now rewrite <- app_assoc.
Qed.

(** X4. The argument vector of the dump by subprocess, read as the
    command line reads it, whatever strings the options hold: the
    switches are fixed but for [--leave-running]; [--tcp-established],
    [--file-locks] and [--manage-cgroups] are always among them and
    [--shell-job] never is; every external descriptor is the operand of
    an [--external], in order. *)
Theorem CheckpointProcessCmd_args_read (pid : Z) (opts : checkpoint.CheckpointOptions) :
  let args := CRIUManager.CheckpointProcessCmd_args pid opts in
  Behaviour.switches args =
    ["dump"; "-v4"; "--tcp-established"; "--file-locks"; "--link-remap"; "--force-irmap";
     "--manage-cgroups"; "--enable-external-sharing"; "--enable-external-masters"]
    ++ (if checkpoint.LeaveRunning opts then ["--leave-running"] else []) /\
  Behaviour.operands "-t" args = [fmt.d pid] /\
  Behaviour.operands "-D" args = [checkpoint.ImagesDir opts] /\
  Behaviour.operands "--log-file" args = [checkpoint.LogFile opts] /\
  Behaviour.operands "--skip-mnt" args = ["/proc"; "/dev"; "/sys"; "/run"] /\
  Behaviour.operands "--external" args = checkpoint.External opts.
Proof.
  cbv zeta. unfold CRIUManager.CheckpointProcessCmd_args. rewrite fold_external.
  rewrite <- (app_nil_r (flat_map _ (checkpoint.External opts))).
  destruct (checkpoint.LeaveRunning opts); cbn [app Behaviour.switches Behaviour.operands
    existsb String.eqb Ascii.eqb Bool.eqb orb Behaviour.withOperand];
    rewrite switches_app_operands, !operands_app_operands by reflexivity;
    cbn; rewrite ?app_nil_r; repeat split; reflexivity.
Qed.

(** X5. The argument vector of the restore by subprocess, read as the
    command line reads it: [--tcp-established], [--file-locks] and
    [--manage-cgroups] are always passed, [--restore-sibling] and
    [--shell-job] as the options say, the pid file when it is named, and
    the external descriptors and mount maps as operands, in order. The
    log level, the skip list and the empty-namespace mask of the options
    do not reach the command line. *)
Theorem RestoreProcessCmd_args_read (opts : checkpoint.RestoreOptions) :
  let args := criuCmd.RestoreProcessCmd_args opts in
  Behaviour.switches args =
    ["restore"; "-v4"; "--tcp-established"; "--file-locks"; "--link-remap";
     "--manage-cgroups"; "--enable-external-sharing"; "--enable-external-masters"]
    ++ (if checkpoint.RestoreSibling opts then ["--restore-sibling"] else [])
    ++ (if checkpoint.rShell opts then ["--shell-job"] else []) /\
  Behaviour.operands "-D" args = [checkpoint.rImagesDir opts] /\
  Behaviour.operands "--log-file" args = [checkpoint.rLogFile opts] /\
  Behaviour.operands "--pidfile" args =
    (if nonEmpty (checkpoint.PidFile opts) then [checkpoint.PidFile opts] else []) /\
  Behaviour.operands "--external" args = checkpoint.rExternal opts /\
  Behaviour.operands "--ext-mount-map" args = checkpoint.ExtMountMap opts /\
  Behaviour.operands "--skip-mnt" args = [].
Proof.
  cbv zeta. unfold criuCmd.RestoreProcessCmd_args.
  rewrite fold_ext_mount_map, fold_external.
  rewrite <- (app_nil_r (flat_map _ (checkpoint.ExtMountMap opts))).
  rewrite <- !app_assoc.
  destruct (checkpoint.RestoreSibling opts), (checkpoint.rShell opts),
    (nonEmpty (checkpoint.PidFile opts));
    cbn [app Behaviour.switches Behaviour.operands
         existsb String.eqb Ascii.eqb Bool.eqb orb Behaviour.withOperand];
    rewrite !switches_app_operands, !operands_app_operands by reflexivity;
    cbn; rewrite ?app_nil_r; repeat split; reflexivity.
Qed.

(** ** Runs that only read and log *)

Section LogsOnly.
Context `{Host}.

Lemma logsOnly_mret {A} (a : A) : Behaviour.logsOnly (mret a).
Proof. intros s. split; [reflexivity|]. exists []. simpl. now rewrite app_nil_r. Qed.

Lemma logsOnly_panic {A} : Behaviour.logsOnly (@panic _ A).
Proof. intros s. split; [reflexivity|]. exists []. simpl. now rewrite app_nil_r. Qed.

Lemma logsOnly_observe {A} (f : world -> A) : Behaviour.logsOnly (observe f).
Proof. intros s. split; [reflexivity|]. exists []. simpl. now rewrite app_nil_r. Qed.

Lemma logsOnly_log lvl msg : Behaviour.logsOnly (log lvl msg).
Proof. intros s. split; [reflexivity|]. exists [EvLog lvl msg]. simpl. auto. Qed.

Lemma logsOnly_bind {A B} (m : M A) (k : A -> M B) :
  Behaviour.logsOnly m -> (forall a, Behaviour.logsOnly (k a)) -> Behaviour.logsOnly (m ≫= k).
Proof.
  intros Hm Hk s. rewrite bind_run.
  destruct (Hm s) as (Hnow & new & Htr & Hnew).
  destruct (m s) as [[a|] s1]; simpl in *.
  - destruct (Hk a s1) as (Hnow' & new' & Htr' & Hnew').
    split; [congruence|]. exists (new ++ new'). rewrite Htr', Htr, app_assoc.
    split; [reflexivity|]. now apply Forall_app.
  - eauto.
Qed.

Lemma logsOnly_forRange {A R} (xs : list A) (body : A -> M (option R)) :
  (forall x, Behaviour.logsOnly (body x)) -> Behaviour.logsOnly (forRange xs body).
Proof.
  intros Hbody. induction xs as [|x xs IH]; simpl.
  - apply logsOnly_mret.
  - apply logsOnly_bind; [apply Hbody|]. intros [r|]; [apply logsOnly_mret | exact IH].
Qed.

Lemma logsOnly_foldRange {A S} (xs : list A) (body : S -> A -> M S) (acc : S) :
  (forall acc x, Behaviour.logsOnly (body acc x)) -> Behaviour.logsOnly (foldRange xs body acc).
Proof.
  intros Hbody. revert acc. induction xs as [|x xs IH]; intros acc; simpl.
  - apply logsOnly_mret.
  - apply logsOnly_bind; [apply Hbody | intros acc'; apply IH].
Qed.

Lemma logsOnly_sliceTo n s : Behaviour.logsOnly (sliceTo n s).
Proof.
  unfold sliceTo. destruct (n <=? String.length s)%nat; [apply logsOnly_mret | apply logsOnly_panic].
Qed.

End LogsOnly.

(** One step of a proof of [logsOnly m], by the shape of [m]. *)
Ltac logs_step :=
  lazymatch goal with
  | |- Behaviour.logsOnly (mret _) => apply logsOnly_mret
  | |- Behaviour.logsOnly panic => apply logsOnly_panic
  | |- Behaviour.logsOnly (observe _) => apply logsOnly_observe
  | |- Behaviour.logsOnly (log _ _) => apply logsOnly_log
  | |- Behaviour.logsOnly (sliceTo _ _) => apply logsOnly_sliceTo
  | |- Behaviour.logsOnly (forRange _ _) => apply logsOnly_forRange; intros
  | |- Behaviour.logsOnly (foldRange _ _ _) => apply logsOnly_foldRange; intros
  | |- Behaviour.logsOnly (_ ≫= _) => apply logsOnly_bind; [|intros]
  | |- Behaviour.logsOnly (match ?x with _ => _ end) => destruct x
  | |- Behaviour.logsOnly _ => progress (cbv beta zeta)
  end.

Ltac logs_auto := repeat logs_step.

Section Reading.
Context `{Host}.

Lemma ValidateCheckpoint_logsOnly (dir : string) :
  Behaviour.logsOnly (checkpointManager.ValidateCheckpoint dir).
Proof.
  unfold checkpointManager.ValidateCheckpoint, utils.DirExists, utils.FileExists, utils.ListFiles.
  logs_auto.
Qed.

Lemma ValidateCheckpoint_run (dir : string) (s : State) :
  let r := checkpointManager.ValidateCheckpoint dir s in
  (r.1 = Done nil <-> Behaviour.complete (now s) dir) /\
  now r.2 = now s /\
  exists new, trace r.2 = trace s ++ new /\ Forall (fun e => Behaviour.isLog e = true) new.
Proof.
  cbv zeta. split; [|apply ValidateCheckpoint_logsOnly].
  unfold Behaviour.complete, checkpointManager.ValidateCheckpoint,
    checkpointManager.requiredFiles, utils.ListFiles, utils.DirExists, utils.FileExists.
  msimpl.
  destruct (os_Stat (now s) dir) as [| |[|]] eqn:Hd; msimpl;
    try (split; [discriminate | intros (Hc & _); discriminate]).
  destruct (os_Stat (now s) (filepath_Join [dir; "container_metadata.json"])) eqn:H1; msimpl;
    try (split; [discriminate | intros (_ & Hc & _); congruence]).
  all: destruct (os_Stat (now s) (filepath_Join [dir; "mount_mappings.json"])) eqn:H2; msimpl;
    try (split; [discriminate | intros (_ & _ & Hc & _); congruence]).
  all: destruct (os_Stat (now s) (filepath_Join [dir; "checkpoint_metadata.json"])) eqn:H3; msimpl;
    try (split; [discriminate | intros (_ & _ & _ & Hc & _); congruence]).
  all: destruct (os_Stat (now s) (filepath_Join [dir; "images"])) as [| |[|]] eqn:H4; msimpl;
    try (split; [discriminate | intros (_ & _ & _ & _ & Hc & _); discriminate]).
  all: destruct (os_ReadDir (now s) (filepath_Join [dir; "images"])) as [entries|msg] eqn:H5;
    msimpl;
    try (split; [discriminate | intros (_ & _ & _ & _ & _ & e & Hc & _); discriminate]).
  all: destruct (omap id entries) as [|f fs] eqn:H6; msimpl;
    [ split; [discriminate|];
      intros (_ & _ & _ & _ & _ & e & [= <-] & Hne); now contradiction Hne
    | split; [intros _|reflexivity];
      repeat split; try discriminate; exists entries; split; [reflexivity|];
      rewrite H6; discriminate ].
Qed.

(** X6. [ValidateCheckpoint] returns nil exactly on a complete checkpoint
    directory: the directory and its images directory are directories,
    the three JSON files exist, and the images directory has an entry.
    It changes nothing, and hands the logger at most lines. *)
Theorem ValidateCheckpoint_nil_iff_complete (dir : string) (s : State) :
  let r := checkpointManager.ValidateCheckpoint dir s in
  (r.1 = Done nil <-> Behaviour.complete (now s) dir) /\
  now r.2 = now s /\
  exists new, trace r.2 = trace s ++ new /\ Forall (fun e => Behaviour.isLog e = true) new.
Proof. exact (ValidateCheckpoint_run dir s). Qed.


End Reading.

(** ** The mount sources at restore time *)

Section RestoreMounts.
Context `{Host} `{Json}.

Lemma neitherFileNorDir_run (p : string) (s : State) :
  utils.neitherFileNorDir p s =
  (Done (match os_Stat (now s) p with StatNotExist => true | _ => false end), s).
Proof.
  unfold utils.neitherFileNorDir, utils.FileExists, utils.DirExists,
    mbind, M_bind, mret, M_ret, observe.
  cbn [now]. destruct (os_Stat (now s) p) eqn:Hst; cbn; rewrite ?Hst; reflexivity.
Qed.

Lemma neitherFileNorDir_logsOnly (p : string) : Behaviour.logsOnly (utils.neitherFileNorDir p).
Proof.
  intros s. rewrite neitherFileNorDir_run. split; [reflexivity|].
  exists []. cbn. now rewrite app_nil_r.
Qed.

Lemma neitherFileNorDir_calm q (p : string) : calm q (utils.neitherFileNorDir p).
Proof.
  intros s. rewrite neitherFileNorDir_run. exists []. cbn. rewrite app_nil_r.
  repeat split; [constructor | discriminate].
Qed.

Lemma calm_foldRange {A S} q (xs : list A) (body : S -> A -> M S) (acc : S) :
  (forall acc x, calm q (body acc x)) -> calm q (foldRange xs body acc).
Proof.
  intros Hbody. revert acc. induction xs as [|x xs IH]; intros acc; simpl.
  - apply calm_mret.
  - apply calm_bind; [apply Hbody | intros acc'; apply IH].
Qed.

Lemma calm_forRange {A R} q (xs : list A) (body : A -> M (option R)) :
  (forall x, calm q (body x)) -> calm q (forRange xs body).
Proof.
  intros Hbody. induction xs as [|x xs IH]; simpl.
  - apply calm_mret.
  - apply calm_bind; [apply Hbody|]. intros [r|]; [apply calm_mret | exact IH].
Qed.

Lemma emits_mret_bind {A B} (a : A) (k : A -> M B) (Q : Outcome B -> list Event -> Prop) :
  emits (k a) Q -> emits (mret a ≫= k) Q.
Proof. intros Hk s. exact (Hk s). Qed.

(** X7. [validateRestoreEnvironment] never fails and never panics, and it
    changes nothing: whatever is missing, it only warns. *)
Theorem validateRestoreEnvironment_only_warns (originalState : ContainerState)
    (mappings : list MountMapping) (s : State) :
  let r := restoreManager.validateRestoreEnvironment originalState mappings s in
  r.1 = Done nil /\
  now r.2 = now s /\
  exists new, trace r.2 = trace s ++ new /\ Forall (fun e => Behaviour.isLog e = true) new.
Proof.
  cbv zeta. split.
  - assert (Hemits : emits (restoreManager.validateRestoreEnvironment originalState mappings)
                           (fun o _ => o = Done nil)).
    { unfold restoreManager.validateRestoreEnvironment, restoreManager.checkPtraceConflicts.
      apply outcome_bind_calm; [calm_auto|]. intros _.
      apply outcome_bind_calm; [calm_auto|]. intros _.
      apply outcome_bind_calm.
      { apply calm_foldRange. intros acc m.
        destruct (IsExternal m && nonEmpty (HostPath m)); [|calm_auto].
        apply calm_bind; [apply neitherFileNorDir_calm|]. intros [|]; calm_auto. }
      intros missing. apply outcome_bind_calm.
      { destruct (0 <? missing)%Z; calm_auto. }
      intros _. apply emits_mret_bind. now apply emits_mret. }
    destruct (Hemits s) as (new & _ & Ho). exact Ho.
  - unfold restoreManager.validateRestoreEnvironment, restoreManager.checkPtraceConflicts.
    apply logsOnly_bind; [logs_auto|]. intros _.
    apply logsOnly_bind; [logs_auto|]. intros _.
    apply logsOnly_bind.
    { apply logsOnly_foldRange. intros acc m.
      destruct (IsExternal m && nonEmpty (HostPath m)); [|logs_auto].
      apply logsOnly_bind; [apply neitherFileNorDir_logsOnly|]. intros [|]; logs_auto. }
    intros missing. logs_auto.
Qed.

Lemma prepare_body_skip (autoFix : bool) (m : MountMapping) (s : State) :
  os_Stat (now s) (HostPath m) <> StatNotExist \/ CRIUManager.externalWithSource m = false ->
  (if IsExternal m && nonEmpty (HostPath m) then
     missing ← utils.neitherFileNorDir (HostPath m);
     if (missing : bool) then
       if autoFix then
         log InfoLevel ("Creating missing mount source: " +:+ HostPath m);;
         err ← utils.EnsureDir (HostPath m);
         match err with
         | mkError msg =>
             mret (Some (mkError ("failed to create mount source "
                                  +:+ HostPath m +:+ ": " +:+ msg)))
         | nil => mret None
         end
       else
         log WarnLevel ("Mount source does not exist: " +:+ HostPath m);;
         mret None
     else mret None
   else mret None) s = (Done None, s).
Proof.
  unfold CRIUManager.externalWithSource.
  destruct (IsExternal m && nonEmpty (HostPath m)); [|reflexivity].
  intros [Hst|Hel]; [|discriminate].
  rewrite bind_run, neitherFileNorDir_run.
  destruct (os_Stat (now s) (HostPath m)); [now contradiction Hst|reflexivity..].
Qed.

Lemma prepare_body_missing (autoFix : bool) (m : MountMapping) (s : State) :
  os_Stat (now s) (HostPath m) = StatNotExist -> CRIUManager.externalWithSource m = true ->
  (if IsExternal m && nonEmpty (HostPath m) then
     missing ← utils.neitherFileNorDir (HostPath m);
     if (missing : bool) then
       if autoFix then
         log InfoLevel ("Creating missing mount source: " +:+ HostPath m);;
         err ← utils.EnsureDir (HostPath m);
         match err with
         | mkError msg =>
             mret (Some (mkError ("failed to create mount source "
                                  +:+ HostPath m +:+ ": " +:+ msg)))
         | nil => mret None
         end
       else
         log WarnLevel ("Mount source does not exist: " +:+ HostPath m);;
         mret None
     else mret None
   else mret None) s =
  if autoFix then
    let '(w', err) := os_MkdirAll (now s) (HostPath m) utils.perm0755 in
    (Done (match err with
           | nil => None
           | mkError cause =>
               Some (mkError ("failed to create mount source " +:+ HostPath m
                              +:+ ": failed to create directory " +:+ HostPath m +:+ ": " +:+ cause))
           end),
     mkState w' (trace s ++ [EvLog InfoLevel ("Creating missing mount source: " +:+ HostPath m);
                             EvMkdirAll (HostPath m) utils.perm0755 err]))
  else
    (Done None,
     mkState (now s) (trace s ++ [EvLog WarnLevel ("Mount source does not exist: " +:+ HostPath m)])).
Proof.
  unfold CRIUManager.externalWithSource. intros Hst ->.
  rewrite bind_run, neitherFileNorDir_run, Hst.
  destruct autoFix; [|reflexivity].
  unfold utils.EnsureDir, utils.DirExists, mbind, M_bind, mret, M_ret, observe, invoke, log.
  unfold utils.perm0755 in *.
  destruct (os_MkdirAll (now s) (HostPath m) 493) as [w' err] eqn:Hmk.
  repeat (progress (cbn; rewrite ?Hst, ?Hmk)).
  destruct err; cbn; rewrite <- app_assoc; reflexivity.
Qed.

(** X8. Without [autoFix], [prepareMountNamespace] returns nil whatever
    is missing, and it changes nothing: it only logs. *)
Theorem prepareMountNamespace_without_autofix (containerID : string)
    (mappings : list MountMapping) (s : State) :
  let r := restoreManager.prepareMountNamespace containerID mappings false s in
  r.1 = Done nil /\
  now r.2 = now s /\
  exists new, trace r.2 = trace s ++ new /\ Forall (fun e => Behaviour.isLog e = true) new.
Proof.
  cbv zeta. unfold restoreManager.prepareMountNamespace.
  rewrite bind_run. cbn [log]. set (s0 := mkState _ _).
  assert (Hloop : forall ms s1, exists new,
            Forall (fun e => Behaviour.isLog e = true) new /\
            forRange ms (fun mapping =>
              if IsExternal mapping && nonEmpty (HostPath mapping) then
                missing ← utils.neitherFileNorDir (HostPath mapping);
                if (missing : bool) then
                  if false then
                    log InfoLevel ("Creating missing mount source: " +:+ HostPath mapping);;
                    err ← utils.EnsureDir (HostPath mapping);
                    match err with
                    | mkError msg =>
                        mret (Some (mkError ("failed to create mount source "
                                             +:+ HostPath mapping +:+ ": " +:+ msg)))
                    | nil => mret None
                    end
                  else
                    log WarnLevel ("Mount source does not exist: " +:+ HostPath mapping);;
                    mret None
                else mret None
              else mret None) s1 = (Done (@None error), mkState (now s1) (trace s1 ++ new))).
  { induction ms as [|m ms IH]; intros s1.
    - exists []. split; [constructor|]. cbn. rewrite app_nil_r. now destruct s1.
    - rewrite forRange_cons.
      destruct (CRIUManager.externalWithSource m) eqn:Hel;
        [destruct (os_Stat (now s1) (HostPath m)) eqn:Hst|].
      + rewrite (prepare_body_missing false m s1 Hst Hel).
        destruct (IH (mkState (now s1) (trace s1 ++
                   [EvLog WarnLevel ("Mount source does not exist: " +:+ HostPath m)])))
          as (new & Hnew & ->).
        exists (EvLog WarnLevel ("Mount source does not exist: " +:+ HostPath m) :: new).
        split; [constructor; [reflexivity | exact Hnew]|].
        cbn [now trace]. now rewrite <- app_assoc.
      + rewrite (prepare_body_skip false m s1) by (left; congruence). apply IH.
      + rewrite (prepare_body_skip false m s1) by (left; congruence). apply IH.
      + rewrite (prepare_body_skip false m s1) by (now right). apply IH. }
  destruct (Hloop mappings s0) as (new & Hnew & Hrun).
  rewrite bind_run, Hrun. cbn. repeat split.
  exists (EvLog InfoLevel "Preparing mount namespace for restore" :: new).
  split; [now rewrite <- app_assoc | constructor; [reflexivity | exact Hnew]].
Qed.

Lemma prepare_loop_as_ValidateMountSources (ms : list MountMapping) (s1 s2 : State) :
  now s1 = now s2 ->
  let a := forRange ms (fun mapping =>
             if IsExternal mapping && nonEmpty (HostPath mapping) then
               missing ← utils.neitherFileNorDir (HostPath mapping);
               if (missing : bool) then
                 if true then
                   log InfoLevel ("Creating missing mount source: " +:+ HostPath mapping);;
                   err ← utils.EnsureDir (HostPath mapping);
                   match err with
                   | mkError msg =>
                       mret (Some (mkError ("failed to create mount source "
                                            +:+ HostPath mapping +:+ ": " +:+ msg)))
                   | nil => mret None
                   end
                 else
                   log WarnLevel ("Mount source does not exist: " +:+ HostPath mapping);;
                   mret None
               else mret None
             else mret None) s1 in
  let b := forRange ms CRIUManager.ValidateMountSources_body s2 in
  now a.2 = now b.2 /\
  (exists na nb, trace a.2 = trace s1 ++ na /\ trace b.2 = trace s2 ++ nb /\
                 List.filter Behaviour.isCall na = List.filter Behaviour.isCall nb) /\
  ((a.1 = Done None /\ b.1 = Done None) \/
   exists m cause,
     In m ms /\
     a.1 = Done (Some (mkError ("failed to create mount source " +:+ HostPath m
                   +:+ ": failed to create directory " +:+ HostPath m +:+ ": " +:+ cause))) /\
     b.1 = Done (Some (mkError ("failed to create mount source placeholder " +:+ HostPath m
                   +:+ ": failed to create directory " +:+ HostPath m +:+ ": " +:+ cause)))).
Proof.
  revert s1 s2. induction ms as [|m ms IH]; intros s1 s2 Hnow; cbv zeta.
  - cbn. split; [exact Hnow|]. split; [|now left].
    exists [], []. now rewrite !app_nil_r.
  - rewrite !forRange_cons.
    assert (Hskip : forall s1' s2', now s1' = now s2' ->
              trace s1' = trace s1 -> trace s2' = trace s2 ->
              let a := forRange ms (fun mapping =>
                if IsExternal mapping && nonEmpty (HostPath mapping) then
                  missing ← utils.neitherFileNorDir (HostPath mapping);
                  if (missing : bool) then
                    if true then
                      log InfoLevel ("Creating missing mount source: " +:+ HostPath mapping);;
                      err ← utils.EnsureDir (HostPath mapping);
                      match err with
                      | mkError msg =>
                          mret (Some (mkError ("failed to create mount source "
                                               +:+ HostPath mapping +:+ ": " +:+ msg)))
                      | nil => mret None
                      end
                    else
                      log WarnLevel ("Mount source does not exist: " +:+ HostPath mapping);;
                      mret None
                  else mret None
                else mret None) s1' in
              let b := forRange ms CRIUManager.ValidateMountSources_body s2' in
              now a.2 = now b.2 /\
              (exists na nb, trace a.2 = trace s1 ++ na /\ trace b.2 = trace s2 ++ nb /\
                 List.filter Behaviour.isCall na = List.filter Behaviour.isCall nb) /\
              ((a.1 = Done None /\ b.1 = Done None) \/
               exists m0 cause,
                 In m0 (m :: ms) /\
                 a.1 = Done (Some (mkError ("failed to create mount source " +:+ HostPath m0
                   +:+ ": failed to create directory " +:+ HostPath m0 +:+ ": " +:+ cause))) /\
                 b.1 = Done (Some (mkError ("failed to create mount source placeholder "
                   +:+ HostPath m0
                   +:+ ": failed to create directory " +:+ HostPath m0 +:+ ": " +:+ cause))))).
    { intros s1' s2' Hnow' Ht1 Ht2. cbv zeta.
      destruct (IH s1' s2' Hnow') as (Hn & (na & nb & Ha & Hb & Hf) & Hres).
      split; [exact Hn|]. split.
      - exists na, nb. now rewrite Ha, Hb, Ht1, Ht2.
      - destruct Hres as [Hres|(m0 & cause & Hin & Ha' & Hb')]; [now left|].
        right. exists m0, cause. split; [now right | now split]. }
    destruct (CRIUManager.externalWithSource m) eqn:Hel.
    + rewrite (ValidateMountSources_body_run m s2 Hel).
      destruct (os_Stat (now s1) (HostPath m)) eqn:Hst.
      * rewrite (prepare_body_missing true m s1 Hst Hel). rewrite <- Hnow, Hst.
        destruct (os_MkdirAll (now s1) (HostPath m) utils.perm0755) as [w' [|cause]] eqn:Hmk.
        -- match goal with
           | |- context [forRange ms _ ?x] =>
               match goal with
               | |- context [forRange ms CRIUManager.ValidateMountSources_body ?y] =>
                   destruct (IH x y eq_refl) as (Hn & (na & nb & Ha & Hb & Hf) & Hres)
               end
           end.
           split; [exact Hn|]. split.
           ++ eexists (_ :: _ :: na), (_ :: _ :: nb).
              rewrite Ha, Hb. cbn [trace]. rewrite <- !app_assoc.
              split; [reflexivity|]. split; [reflexivity|].
              cbn. now rewrite Hf.
           ++ destruct Hres as [Hres|(m0 & cause & Hin & Ha' & Hb')]; [now left|].
              right. exists m0, cause. split; [now right | now split].
        -- cbn. split; [reflexivity|]. split.
           ++ eexists [_; _], [_; _]. repeat split; reflexivity.
           ++ right. exists m, cause. split; [now left | now split].
      * rewrite (prepare_body_skip true m s1) by (left; congruence).
        rewrite <- Hnow, Hst. now apply Hskip.
      * rewrite (prepare_body_skip true m s1) by (left; congruence).
        rewrite <- Hnow, Hst. now apply Hskip.
    + rewrite (prepare_body_skip true m s1) by (now right).
      rewrite (ValidateMountSources_body_skip m s2 Hel). now apply Hskip.
Qed.

(** X9. With [autoFix], [prepareMountNamespace] does at restore time what
    [ValidateMountSources] does at dump time: from the same world both
    make the same calls with the same answers and leave the same world,
    and one returns nil exactly when the other does; neither panics.
    They differ in their log lines and in the wording of the error. *)
Theorem prepareMountNamespace_autofix_as_ValidateMountSources (containerID : string)
    (mappings : list MountMapping) (s : State) :
  let a := restoreManager.prepareMountNamespace containerID mappings true s in
  let b := CRIUManager.ValidateMountSources mappings s in
  now a.2 = now b.2 /\
  (exists na nb, trace a.2 = trace s ++ na /\ trace b.2 = trace s ++ nb /\
                 List.filter Behaviour.isCall na = List.filter Behaviour.isCall nb) /\
  ((a.1 = Done nil /\ b.1 = Done nil) \/
   exists m cause,
     In m mappings /\
     a.1 = Done (mkError ("failed to create mount source " +:+ HostPath m
             +:+ ": failed to create directory " +:+ HostPath m +:+ ": " +:+ cause)) /\
     b.1 = Done (mkError ("failed to create mount source placeholder " +:+ HostPath m
             +:+ ": failed to create directory " +:+ HostPath m +:+ ": " +:+ cause))).
Proof.
  cbv zeta. unfold restoreManager.prepareMountNamespace, CRIUManager.ValidateMountSources.
  rewrite bind_run. cbn [log]. set (s0 := mkState _ _).
  rewrite !bind_run.
  destruct (prepare_loop_as_ValidateMountSources mappings s0 s eq_refl)
    as (Hn & (na & nb & Ha & Hb & Hf) & Hres).
  cbv zeta in *.
  destruct Hres as [[Ha1 Hb1]|(m & cause & Hin & Ha1 & Hb1)].
  - destruct (forRange mappings _ s0) as [oa sa]. destruct (forRange mappings _ s) as [ob sb].
    cbn in *. subst oa ob. cbn. split; [exact Hn|]. split; [|now left].
    exists (EvLog InfoLevel "Preparing mount namespace for restore" :: na), nb.
    rewrite Ha, Hb. cbn. rewrite <- app_assoc. auto.
  - destruct (forRange mappings _ s0) as [oa sa]. destruct (forRange mappings _ s) as [ob sb].
    cbn in *. subst oa ob. cbn. split; [exact Hn|]. split.
    + exists (EvLog InfoLevel "Preparing mount namespace for restore" :: na), nb.
      rewrite Ha, Hb. cbn. rewrite <- app_assoc. auto.
    + right. exists m, cause. auto.
Qed.

End RestoreMounts.

(** ** The engine restore *)

Section EngineRestore.
Context `{Host}.

Lemma restoreMessage_eq (opts : checkpoint.RestoreOptions) (fd : Z) :
  Behaviour.restoreMessage opts fd =
  (if (0 <? length (checkpoint.ExtMountMap opts))%nat
   then rpc.setExternal
          (rpc.External (rpc.setImagesDirFd (Some (int32 fd)) (CRIUManager.restoreOpts opts))
             ++ checkpoint.ExtMountMap opts)
          (rpc.setImagesDirFd (Some (int32 fd)) (CRIUManager.restoreOpts opts))
   else rpc.setImagesDirFd (Some (int32 fd)) (CRIUManager.restoreOpts opts)).
Proof.
  unfold Behaviour.restoreMessage.
  destruct (checkpoint.ExtMountMap opts) as [|e maps] eqn:Hmaps; cbn.
  - now rewrite app_nil_r.
  - reflexivity.
Qed.

Lemma RestoreProcess_requests (opts : checkpoint.RestoreOptions) :
  emitsCalls Spec.reachesRuntimeOrEngine (CRIUManager.RestoreProcess opts) []
             (Behaviour.restoreProcessCalls opts).
Proof.
  unfold CRIUManager.RestoreProcess, utils.EnsureDir, utils.DirExists.
  quiet_bind as _; [left; split; [reflexivity | discriminate]|].
  quiet_bind as [|msg]; [left; split; [reflexivity | discriminate]| |].
  2:{ apply calls_mret. left. split; [reflexivity | discriminate]. }
  quiet_bind as [|]; [left; split; [reflexivity | discriminate]| |]; cbn [negb].
  2:{ apply calls_mret. left. split; [reflexivity | discriminate]. }
  quiet_bind as [fd|msg]; [left; split; [reflexivity | discriminate]| |].
  2:{ apply calls_mret. left. split; [reflexivity | discriminate]. }
  eapply calls_bind with (R := fun o c => o = Done (Behaviour.restoreMessage opts fd) /\ c = []).
  { pose proof (restoreMessage_eq opts fd) as Hm.
    destruct (0 <? length (checkpoint.ExtMountMap opts))%nat.
    - apply calls_bind_calm; [calm_auto|]. intros _. apply calls_mret. now rewrite Hm.
    - apply calls_mret. now rewrite Hm. }
  2:{ intros c [Hd _]. discriminate. }
  intros criuOpts c [[= ->] ->]. cbn [app].
  apply calls_bind_calm; [calm_auto|]. intros _.
  apply calls_invoke_bind; [reflexivity|]. intros [|msg]; cbn [app].
  - apply calls_bind_calm; [calm_auto|]. intros _. apply calls_mret.
    right. exists fd, nil. split; reflexivity.
  - apply calls_bind_calm.
    { apply logCRIUError_calm. reflexivity. }
    intros _. apply calls_mret. right. exists fd, (mkError msg). split; reflexivity.
Qed.

(** X10. [RestoreProcess] asks the engine to restore at most once, with
    the options of the record, the image directory opened and the mount
    maps appended to the external list; it returns nil exactly when that
    call succeeds. It never runs the criu command, and the skip list and
    the pid file of the options reach nothing. *)
Theorem RestoreProcess_calls (opts : checkpoint.RestoreOptions) :
  emitsCalls Spec.reachesRuntimeOrEngine (CRIUManager.RestoreProcess opts) []
             (Behaviour.restoreProcessCalls opts).
Proof. exact (RestoreProcess_requests opts). Qed.

End EngineRestore.

(** ** Directories and files *)

Section Directories.
Context `{Host} `{!FileSystemLaws}.

(** X11. When [EnsureDir] returns nil the path is a directory. It asks
    for nothing when the path already is one, and otherwise makes one
    call of [os.MkdirAll] with mode 0755. *)
Theorem EnsureDir_makes_directory (dirPath : string) (s s' : State) :
  utils.EnsureDir dirPath s = (Done nil, s') ->
  os_Stat (now s') dirPath = StatInfo true /\
  (os_Stat (now s) dirPath = StatInfo true -> s' = s) /\
  (os_Stat (now s) dirPath <> StatInfo true ->
   trace s' = trace s ++ [EvMkdirAll dirPath utils.perm0755 nil]).
Proof.
  unfold utils.EnsureDir, utils.DirExists, mbind, M_bind, mret, M_ret, observe, invoke, panic.
  destruct (os_Stat (now s) dirPath) as [| |[|]] eqn:Hst; cbn [negb].
  - destruct (os_MkdirAll (now s) dirPath utils.perm0755) as [w' [|msg]] eqn:Hmk;
      intros [= <-]; cbn [now trace].
    split; [eapply MkdirAll_creates; eassumption|]. split; [discriminate | reflexivity].
  - discriminate.
  - intros [= <-]. rewrite Hst. split; [reflexivity|]. split; [reflexivity | congruence].
  - destruct (os_MkdirAll (now s) dirPath utils.perm0755) as [w' [|msg]] eqn:Hmk;
      intros [= <-]; cbn [now trace].
    split; [eapply MkdirAll_creates; eassumption|]. split; [discriminate | reflexivity].
Qed.

End Directories.

(** X11 on the sample: the source of the data mount is made. *)
Lemma EnsureDir_makes_directory_witness :
  let s := mkState (H := Toy.host) (Toy.checkpointed nil nil nil) [] in
  let r := utils.EnsureDir (H := Toy.host) "/tmp/d1" s in
  r = (Done nil, r.2) /\
  os_Stat (now r.2) "/tmp/d1" = StatInfo true /\
  trace r.2 = [EvMkdirAll "/tmp/d1" utils.perm0755 nil].
Proof.
  cbv zeta. split; [vm_compute; reflexivity|].
  destruct (@EnsureDir_makes_directory Toy.host Toy_laws "/tmp/d1"
              (mkState (H := Toy.host) (Toy.checkpointed nil nil nil) [])
              (utils.EnsureDir (H := Toy.host) "/tmp/d1"
                 (mkState (H := Toy.host) (Toy.checkpointed nil nil nil) [])).2)
    as (Hdir & _ & Hcall).
  - vm_compute. reflexivity.
  - split; [exact Hdir|]. apply Hcall. vm_compute. discriminate.
Defined.

Section Files.
Context `{Host} `{!WriteReadLaws}.

(** X12. What [WriteFile] wrote, [ReadFile] reads back and [FileExists]
    finds: after it returns nil, its run having made the parent
    directory and then written the file with mode 0644. *)
Theorem WriteFile_then_ReadFile (filePath data : string) (s s' : State) :
  utils.WriteFile filePath data s = (Done nil, s') ->
  utils.ReadFile filePath s' = (Done (Ok data), s') /\
  utils.FileExists filePath s' = (Done true, s') /\
  trace s' = trace s ++ [EvMkdirAll (filepath_Dir filePath) utils.perm0755 nil;
                         EvWriteFile filePath data utils.perm0644 nil].
Proof.
  intros Hwrite. destruct (WriteFile_stored _ _ _ _ Hwrite) as [Hread Hstat].
  unfold utils.ReadFile, utils.FileExists, mbind, M_bind, mret, M_ret, observe.
  rewrite Hread. split; [reflexivity|]. split.
  - destruct (os_Stat (now s') filePath); [now contradiction Hstat | reflexivity..].
  - revert Hwrite. unfold utils.WriteFile. rewrite bind_run. unfold invoke at 1.
    destruct (os_MkdirAll (now s) (filepath_Dir filePath) utils.perm0755) as [w1 [|msg]];
      [|discriminate].
    rewrite bind_run. unfold invoke. cbn [now trace].
    destruct (os_WriteFile w1 filePath data utils.perm0644) as [w2 [|msg]]; [|discriminate].
    intros [= <-]. cbn [trace]. now rewrite <- app_assoc.
Qed.

End Files.

(** X12 on the sample. *)
Lemma WriteFile_then_ReadFile_witness :
  let s := mkState (H := Toy.host) (Toy.checkpointed nil nil nil) [] in
  let r := utils.WriteFile (H := Toy.host) "/out/c1/notes.txt" "kept" s in
  r = (Done nil, r.2) /\
  utils.ReadFile (H := Toy.host) "/out/c1/notes.txt" r.2 = (Done (Ok "kept"), r.2).
Proof.
  cbv zeta. split; [vm_compute; reflexivity|].
  apply (@WriteFile_then_ReadFile Toy.host Toy_writes "/out/c1/notes.txt" "kept"
           (mkState (H := Toy.host) (Toy.checkpointed nil nil nil) [])).
  vm_compute. reflexivity.
Defined.

(** ** A checkpoint without a container state *)

Section Stateless.
Context `{Host} `{Json}.

Lemma GetCheckpointInfo_run (dir data : string) (s : State) :
  os_Stat (now s) (filepath_Join [dir; "checkpoint_metadata.json"]) <> StatNotExist ->
  os_ReadFile (now s) (filepath_Join [dir; "checkpoint_metadata.json"]) = Ok data ->
  checkpointManager.GetCheckpointInfo dir s =
  (Done (match json_Unmarshal_metadata data with
         | Ok metadata => Ok metadata
         | Fail msg => Fail ("failed to parse checkpoint metadata: " +:+ msg)
         end), s).
Proof.
  intros Hstat Hread.
  unfold checkpointManager.GetCheckpointInfo, utils.FileExists, utils.ReadFile,
    mbind, M_bind, mret, M_ret, observe.
  destruct (os_Stat (now s) (filepath_Join [dir; "checkpoint_metadata.json"]));
    [now contradiction Hstat| |]; cbn [negb]; rewrite Hread;
    destruct (json_Unmarshal_metadata data); reflexivity.
Qed.

(** X13. On a complete checkpoint whose metadata holds no container
    state, [Restore] and [GetRestoreOptions] panic, where every other
    defect of the directory gives an error: the nil pointer is
    dereferenced for the name of the container. Nothing has been asked
    of the runtime or the engine by then, and the world is as it was. *)
Theorem Restore_panics_without_container_state (config : restore.RestoreConfig)
    (w : world) (data : string) (metadata : checkpoint.CheckpointMetadata) :
  Behaviour.complete w (restore.CheckpointDir config) ->
  os_ReadFile w (filepath_Join [restore.CheckpointDir config; "checkpoint_metadata.json"])
    = Ok data ->
  json_Unmarshal_metadata data = Ok metadata ->
  checkpoint.ContainerState_ metadata = None ->
  let r := run (restoreManager.Restore config) w in
  r.1 = Panicked /\ now r.2 = w /\
  Forall (fun e => Behaviour.isLog e = true) (trace r.2) /\
  (run (restoreDefaults.GetRestoreOptions (restore.CheckpointDir config)) w).1 = Panicked.
Proof.
  intros Hcomplete Hread Hparse Hnone. cbv zeta.
  assert (Hstat : os_Stat w (filepath_Join [restore.CheckpointDir config;
                                            "checkpoint_metadata.json"]) <> StatNotExist)
    by apply Hcomplete.
  split; [|split; [|split]].
  4:{ unfold run, restoreDefaults.GetRestoreOptions. rewrite bind_run.
      rewrite (GetCheckpointInfo_run _ data) by assumption.
      rewrite Hparse, Hnone. reflexivity. }
  all: unfold run, restoreManager.Restore; rewrite bind_run; cbn [log];
    set (s0 := mkState _ _); rewrite bind_run;
    destruct (ValidateCheckpoint_run (restore.CheckpointDir config) s0)
      as (Hiff & Hnow & new & Htrace & Hlogs);
    apply proj2 in Hiff; specialize (Hiff Hcomplete);
    destruct (checkpointManager.ValidateCheckpoint (restore.CheckpointDir config) s0)
      as [o s1]; cbn [fst snd] in *; subst o;
    rewrite bind_run, (GetCheckpointInfo_run _ data) by (rewrite Hnow; assumption);
    rewrite Hparse, Hnone; cbn [fst snd panic].
  - reflexivity.
  - exact Hnow.
  - rewrite Htrace. apply Forall_app. split; [|exact Hlogs].
    repeat constructor.
Qed.

End Stateless.

(** X13 on the sample checkpoint, read by a codec that finds no state
    in the metadata. *)
Lemma Restore_panics_without_container_state_witness :
  Behaviour.complete (H := Toy.host) (Toy.checkpointed nil nil nil) "/out/c1/checkpoint" /\
  (run (@restoreManager.Restore Toy.host Samples.statelessCodec Toy.restoreConfig)
       (Toy.checkpointed nil nil nil)).1 = Panicked.
Proof.
  assert (Hc : Behaviour.complete (H := Toy.host) (Toy.checkpointed nil nil nil)
                 "/out/c1/checkpoint").
  { unfold Behaviour.complete. repeat split; try (vm_compute; (reflexivity || discriminate)).
    eexists. split; [vm_compute; reflexivity | vm_compute; discriminate]. }
  split; [exact Hc|].
  apply (@Restore_panics_without_container_state Toy.host Samples.statelessCodec
           Toy.restoreConfig (Toy.checkpointed nil nil nil) "{metadata}"
           Samples.statelessMetadata Hc); reflexivity.
Defined.

Section Listing.
Context `{Host} `{Json} `{MetadataCodec}.

(** X14. On a complete checkpoint directory, one that [ValidateCheckpoint]
    accepts, [ListCheckpointFiles] returns one line for each entry of
    the images directory whose [Info()] succeeds, with its name and
    size, and at least one line; it changes nothing. *)
Theorem ListCheckpointFiles_of_complete (dir : string) (s : State) :
  Behaviour.complete (now s) dir ->
  exists entries,
    os_ReadDir (now s) (filepath_Join [dir; "images"]) = Ok entries /\
    omap id entries <> [] /\
    checkpointing.ListCheckpointFiles dir s =
    (Done (Ok (map (fun file => fiName file +:+ " (" +:+ fmt.d (fiSize file) +:+ " bytes)")
                   (omap id entries))), s).
Proof.
  intros (_ & _ & _ & _ & Himages & entries & Hread & Hne).
  exists entries. split; [exact Hread|]. split; [exact Hne|].
  unfold checkpointing.ListCheckpointFiles, utils.DirExists, utils.ListFiles,
    mbind, M_bind, mret, M_ret, observe.
  rewrite Himages. cbn [negb]. rewrite Hread. now rewrite fold_snoc_map.
Qed.

End Listing.

(** X14 on the sample checkpoint. *)
Lemma ListCheckpointFiles_of_complete_witness :
  let s := mkState (H := Toy.host) (Toy.checkpointed nil nil nil) [] in
  Behaviour.complete (H := Toy.host) (now s) "/out/c1/checkpoint" /\
  checkpointing.ListCheckpointFiles (H := Toy.host) "/out/c1/checkpoint" s
  = (Done (Ok ["/out/c1/checkpoint/images/pstree.img (3 bytes)"]), s).
Proof.
  cbv zeta.
  assert (Hc : Behaviour.complete (H := Toy.host) (Toy.checkpointed nil nil nil)
                 "/out/c1/checkpoint").
  { unfold Behaviour.complete. repeat split; try (vm_compute; (reflexivity || discriminate)).
    eexists. split; [vm_compute; reflexivity | vm_compute; discriminate]. }
  split; [exact Hc|].
  destruct (@ListCheckpointFiles_of_complete Toy.host "/out/c1/checkpoint"
              (mkState (H := Toy.host) (Toy.checkpointed nil nil nil) []) Hc)
    as (entries & Hread & _ & Hlist).
  vm_compute in Hread. injection Hread as <-. exact Hlist.
Defined.

(** ** The viewer of mount mappings *)

Section Viewer.
Context `{Host}.

(** X15. In the format [json], [ShowMountMappings] never fails and shows
    byte for byte what [SaveMountMappings] writes to the file; when the
    strings of the list are valid UTF-8, the decoder of
    [LoadMountMappings] reads that text back as the list. *)
Theorem ShowMountMappings_json_as_saved (mappings : list MountMapping) :
  exists data,
    inspect.ShowMountMappings mappings "json" = Ok data /\
    (forall filePath s,
       checkpointManager.SaveMountMappings mappings filePath s
       = utils.WriteFile filePath data s) /\
    (forallb Spec.validUTF8 mappings = true -> json.Unmarshal_mappings data = Ok mappings).
Proof.
  unfold inspect.ShowMountMappings, checkpointManager.SaveMountMappings. cbn [String.eqb].
  change (String.eqb "json" "json") with true. cbv iota.
  destruct (json.MarshalIndent_mappings mappings) as [data|msg] eqn:Hm.
  - exists data. split; [reflexivity|]. split; [reflexivity|].
    intros Hvalid. destruct (Unmarshal_MarshalIndent mappings Hvalid) as (data' & Hm' & Hu).
    congruence.
  - destruct mappings; discriminate.
Qed.

End Viewer.

(** ** The state of a container *)

Section ContainerStates.
Context `{Host} `{Json}.

Lemma Namespaces_lookup (pid : Z) (ns : string) :
  fold_left (fun m ns => <[ns := "/proc/" +:+ fmt.d pid +:+ "/ns/" +:+ ns]> m)
            dockerManager.nsTypes (∅ : gmap string string) !! ns
  = if existsb (String.eqb ns) dockerManager.nsTypes
    then Some ("/proc/" +:+ fmt.d pid +:+ "/ns/" +:+ ns) else None.
Proof.
  cbn [fold_left dockerManager.nsTypes existsb].
  repeat (match goal with
          | |- context [String.eqb ns ?k] =>
              destruct (String.eqb_spec ns k) as [->|?];
              [ rewrite ?lookup_insert_eq;
                repeat (rewrite lookup_insert_ne by discriminate; rewrite ?lookup_insert_eq);
                reflexivity |]
          end).
  cbn [orb]. repeat (rewrite lookup_insert_ne by congruence). apply lookup_empty.
Qed.

(** X16. A state that [GetContainerState] returns comes from one
    inspect request that found the container running. Its runtime is
    never empty, the bundle path is made of that runtime and the
    identifier, the namespaces are the seven of the process under
    /proc, and the configuration and the host configuration are set, so
    that [CreateRestoreContainer] does not meet a nil pointer. *)
Theorem GetContainerState_returns (nameOrID : string) (s s' : State) (state : ContainerState) :
  dockerManager.GetContainerState nameOrID s = (Done (Ok state), s') ->
  (exists containerJSON,
     trace s' = trace s ++ [EvContainerInspect nameOrID (Ok containerJSON)] /\
     types.StateRunning containerJSON = true /\
     ID state = types.cjID containerJSON /\
     ProcessPID state = types.StatePid containerJSON /\
     Mounts state = types.cjMounts containerJSON) /\
  nonEmpty (Runtime state) = true /\
  BundlePath state = "/run/docker/runtime-" +:+ Runtime state +:+ "/moby/" +:+ ID state /\
  (forall ns, Namespaces state !! ns =
              if existsb (String.eqb ns) dockerManager.nsTypes
              then Some ("/proc/" +:+ fmt.d (ProcessPID state) +:+ "/ns/" +:+ ns) else None) /\
  Config state <> None /\ HostConfig state <> None.
Proof.
  unfold dockerManager.GetContainerState. rewrite bind_run. unfold invoke.
  destruct (client_ContainerInspect (now s) nameOrID) as [w [containerJSON|msg]];
    [|discriminate].
  destruct (types.StateRunning containerJSON) eqn:Hrun; [|discriminate]. cbn [negb].
  rewrite bind_run.
  assert (Htime : exists t s1,
            match time_ParseRFC3339Nano (types.cjCreated containerJSON) with
            | Ok t => mret t
            | Fail _ => observe time_Now
            end (mkState w (trace s ++ [EvContainerInspect nameOrID (Ok containerJSON)]))
            = (Done t, s1) /\
            trace s1 = trace s ++ [EvContainerInspect nameOrID (Ok containerJSON)]).
  { destruct (time_ParseRFC3339Nano (types.cjCreated containerJSON)); eexists _, _;
      split; reflexivity. }
  destruct Htime as (t & s1 & -> & Htrace). intros [= <- <-].
  cbn [ID ProcessPID Mounts Runtime BundlePath Namespaces Config HostConfig].
  split; [exists containerJSON; auto|].
  split; [destruct (container.Runtime (types.cjHostConfig containerJSON)); reflexivity|].
  split; [reflexivity|]. split; [apply Namespaces_lookup|]. split; discriminate.
Qed.

End ContainerStates.

(** X16 on a sample: the restored container of the sample host, once it
    is started. *)
Lemma GetContainerState_returns_witness :
  let w := (Toy.setStateOf Toy.newID true 4242
              (Toy.create (Toy.checkpointed nil nil nil) Toy.sampleConfig Toy.sampleHostConfig
                          "c1-restored").1).1 in
  exists state s',
    dockerManager.GetContainerState (H := Toy.host) "c1-restored" (mkState (H := Toy.host) w [])
    = (Done (Ok state), s') /\
    Runtime state = "runc" /\
    Namespaces state !! "mnt" = Some "/proc/4242/ns/mnt" /\
    Namespaces state !! "time" = None.
Proof.
  cbv zeta. eexists _, _. split; [vm_compute; reflexivity|].
  eassert (Hrun : dockerManager.GetContainerState (H := Toy.host) "c1-restored"
                    (mkState (H := Toy.host)
                       (Toy.setStateOf Toy.newID true 4242
                          (Toy.create (Toy.checkpointed nil nil nil) Toy.sampleConfig
                             Toy.sampleHostConfig "c1-restored").1).1 [])
                  = (Done (Ok _), _)) by (vm_compute; reflexivity).
  destruct (GetContainerState_returns (H := Toy.host) _ _ _ _ Hrun) as (_ & _ & _ & Hns & _).
  split; [reflexivity|].
  split; [exact (Hns "mnt") | exact (Hns "time")].
Defined.

(** ** The checkpoint of a container *)

Section Checkpointing.
Context `{Host} `{Json} `{MetadataCodec}.

Lemma WriteFile_ledger (filePath data : string) :
  emitsCalls Behaviour.ledgerEvent (utils.WriteFile filePath data) []
             (Behaviour.savedAs filePath).
Proof.
  unfold utils.WriteFile.
  apply calls_bind_calm; [calm_auto|]. intros [|msg].
  - apply calls_invoke_bind; [reflexivity|]. intros [|msg]; cbn [app]; apply calls_mret.
    + right. eauto.
    + left. eexists. split; [reflexivity|]. right. eauto.
  - apply calls_mret. left. eauto.
Qed.

Lemma SaveMountMappings_ledger (mappings : list MountMapping) (filePath : string) :
  emitsCalls Behaviour.ledgerEvent (checkpointManager.SaveMountMappings mappings filePath) []
             (Behaviour.savedAs filePath).
Proof.
  unfold checkpointManager.SaveMountMappings.
  destruct (json.MarshalIndent_mappings mappings) as [data|msg].
  - apply WriteFile_ledger.
  - apply calls_mret. left. eauto.
Qed.

Lemma SaveContainerMetadata_ledger (state : ContainerState) (filePath : string) :
  emitsCalls Behaviour.ledgerEvent (dockerManager.SaveContainerMetadata state filePath) []
             (Behaviour.savedAs filePath).
Proof.
  unfold dockerManager.SaveContainerMetadata.
  destruct (json_MarshalIndent_state state) as [data|msg].
  - eapply calls_bind; [apply WriteFile_ledger | |].
    + intros err c Hsaved. cbn [app].
      destruct Hsaved as [(msg & [= ->] & Hc)|(d & [= ->] & ->)]; apply calls_mret.
      * left. eauto.
      * right. eauto.
    + intros c [(msg & Hd & _)|(d & Hd & _)]; discriminate.
  - apply calls_mret. left. eauto.
Qed.

Lemma saveCheckpointMetadata_ledger (metadata : checkpoint.CheckpointMetadata)
    (filePath : string) :
  emitsCalls Behaviour.ledgerEvent (checkpointing.saveCheckpointMetadata metadata filePath) []
             (Behaviour.savedAs filePath).
Proof.
  unfold checkpointing.saveCheckpointMetadata.
  destruct (json_MarshalIndent_metadata metadata) as [data|msg].
  - apply WriteFile_ledger.
  - apply calls_mret. left. eauto.
Qed.

Lemma dumpPhase_nil (o : Outcome error) : o <> Done nil -> Behaviour.dumpPhase o [].
Proof. intros Ho. split; [constructor | intros Hnil; now contradiction Ho]. Qed.

Lemma CheckpointProcessCmd_ledger (pid : Z) (opts : checkpoint.CheckpointOptions) :
  emitsCalls Behaviour.ledgerEvent (CRIUManager.CheckpointProcessCmd pid opts) []
    (fun o calls =>
       exists output err,
         calls = [EvExec "criu" (CRIUManager.CheckpointProcessCmd_args pid opts)
                         (checkpoint.WorkDir opts) output err] /\
         (o = Done nil <-> err = nil) /\ o <> Panicked).
Proof.
  unfold CRIUManager.CheckpointProcessCmd.
  calm_bind. calm_bind.
  apply calls_invoke_bind; [reflexivity|]. intros [output [|cmdMsg]]; cbn [app fst snd].
  - calm_bind. apply calls_mret. exists output, nil. repeat split; discriminate.
  - calm_bind. apply calls_mret. exists output, (mkError cmdMsg).
    repeat split; discriminate.
Qed.

Lemma CheckpointProcess_dumpPhase (pid : Z) (opts : checkpoint.CheckpointOptions) :
  emitsCalls Behaviour.ledgerEvent (CRIUManager.CheckpointProcess pid opts) []
             Behaviour.dumpPhase.
Proof.
  unfold CRIUManager.CheckpointProcess.
  calm_bind.
  unfold utils.EnsureDir, utils.DirExists.
  quiet_bind as [|msg]; [apply dumpPhase_nil; discriminate| |apply calls_mret, dumpPhase_nil; discriminate].
  quiet_bind as [|msg]; [apply dumpPhase_nil; discriminate| |apply calls_mret, dumpPhase_nil; discriminate].
  quiet_bind as [workDirFd|msg]; [apply dumpPhase_nil; discriminate| |apply calls_mret, dumpPhase_nil; discriminate].
  quiet_bind as [imagesDirFd|msg]; [apply dumpPhase_nil; discriminate| |apply calls_mret, dumpPhase_nil; discriminate].
  set (criuOpts := rpc.setImagesDirFd _ _).
  eapply calls_bind with
    (R := fun o c => (exists err, o = Done err) /\ Forall (fun e => Behaviour.engineCall e = true) c).
  { destruct (checkpoint.PreDump opts).
    - calm_bind. apply calls_invoke; [reflexivity|]. intros err.
      split; [eauto | repeat constructor].
    - apply calls_mret. split; [eauto | constructor]. }
  2:{ intros c [[err Hd] _]. discriminate. }
  intros preDumpErr pre [_ Hpre]. cbn [app].
  destruct preDumpErr as [|msg].
  2:{ apply calls_mret. split; [exact Hpre | discriminate]. }
  calm_bind.
  apply calls_invoke_bind; [reflexivity|]. intros [|libMsg].
  - calm_bind. apply calls_mret. split.
    + apply Forall_app. split; [exact Hpre | repeat constructor].
    + intros _. exists pre, (EvDump criuOpts nil). split; reflexivity.
  - apply calls_bind_calm; [apply logCRIUError_calm; reflexivity|]. intros _.
    calm_bind.
    eapply calls_bind; [apply CheckpointProcessCmd_ledger | |].
    + intros cmdErr c (output & err & -> & Hnil & _).
      assert (Hall : Forall (fun e => Behaviour.engineCall e = true)
                ((pre ++ [EvDump criuOpts (mkError libMsg)]) ++
                 [EvExec "criu" (CRIUManager.CheckpointProcessCmd_args pid opts)
                         (checkpoint.WorkDir opts) output err])).
      { repeat (apply Forall_app; split); try exact Hpre; repeat constructor. }
      destruct cmdErr as [|cmdMsg].
      * calm_bind. apply calls_mret. split; [exact Hall|].
        intros _. eexists _, _. split; [reflexivity|].
        rewrite (proj1 Hnil eq_refl). reflexivity.
      * apply calls_mret. split; [exact Hall | discriminate].
    + intros c (output & err & _ & _ & Hp). now contradiction Hp.
Qed.

(** X17. The writes and the requests to the engine of a run of
    [Checkpoint] come in one order: the mount mappings, the container
    metadata, the requests to the engine, the checkpoint metadata. Each
    step is taken only after the one before has succeeded, so that the
    engine is asked nothing before the two files are written, and
    checkpoint_metadata.json, which a restore requires, is written only
    after an attempt at the dump has succeeded. [Checkpoint] returns nil
    exactly when that last write succeeds. *)
Theorem Checkpoint_ledger (containerName : string) (config : checkpointing.CheckpointConfig) :
  emitsCalls Behaviour.ledgerEvent (checkpointing.Checkpoint containerName config) []
             Behaviour.checkpointLedger.
Proof.
  assert (Hnone : forall o, o <> Done nil -> Behaviour.checkpointLedger o []).
  { intros o Ho. exists "". left. now split. }
  unfold checkpointing.Checkpoint.
  calm_bind.
  unfold dockerManager.GetContainerState.
  quiet_bind as [state|msg];
    [apply Hnone; discriminate| |apply calls_mret, Hnone; discriminate].
  quiet_bind as short; [apply Hnone; discriminate|].
  calm_bind.
  set (checkpointDir := filepath_Join [checkpointing.OutputDir config; Name state;
                                       checkpointing.CheckpointName config]).
  unfold utils.EnsureDir, utils.DirExists.
  quiet_bind as [|msg];
    [apply Hnone; discriminate| |apply calls_mret, Hnone; discriminate].
  calm_bind.
  unfold CRIUManager.ValidateMountSources, CRIUManager.ValidateMountSources_body,
    utils.neitherFileNorDir, utils.FileExists, utils.EnsureDir, utils.DirExists.
  quiet_bind as [|msg];
    [apply Hnone; discriminate| |apply calls_mret, Hnone; discriminate].
  eapply calls_bind; [apply SaveMountMappings_ledger | |].
  2:{ intros c [(msg & Hd & _)|(d & Hd & _)]; discriminate. }
  intros err c Hsaved. cbn [app].
  destruct Hsaved as [(msg & [= ->] & Hc)|(d & [= ->] & ->)].
  { apply calls_mret. exists checkpointDir.
    destruct Hc as [->|(d & cause & ->)]; [left | right; left].
    - split; [reflexivity | discriminate].
    - exists d, (mkError cause). split; [reflexivity | discriminate]. }
  eapply calls_bind; [apply SaveContainerMetadata_ledger | |].
  2:{ intros c [(msg & Hd & _)|(d' & Hd & _)]; discriminate. }
  intros err c Hsaved. cbn [app].
  destruct Hsaved as [(msg & [= ->] & Hc)|(d' & [= ->] & ->)].
  { apply calls_mret. exists checkpointDir.
    destruct Hc as [->|(d' & cause & ->)].
    - right; left. exists d, nil. split; [reflexivity | discriminate].
    - right; right; left. exists d, d', cause. split; [reflexivity | discriminate]. }
  cbn [app].
  eapply calls_bind; [apply CheckpointProcess_dumpPhase | |].
  2:{ intros c [Hall _]. exists checkpointDir. right; right; right; left.
      exists d, d', c. split; [reflexivity|]. split; [exact Hall | discriminate]. }
  intros err c [Hall Hlast]. cbn [app].
  destruct err as [|msg].
  2:{ apply calls_mret. exists checkpointDir. right; right; right; left.
      exists d, d', c. split; [reflexivity|]. split; [exact Hall | discriminate]. }
  destruct (Hlast eq_refl) as (attempts & last & -> & Hsucc).
  apply Forall_app in Hall as [Hall _].
  apply calls_bind_calm; [unfold checkpointing.GetCurrentTimestamp; calm_auto|].
  intros createdAt.
  eapply calls_bind; [apply saveCheckpointMetadata_ledger | |].
  2:{ intros c [(msg & Hd & _)|(d'' & Hd & _)]; discriminate. }
  intros err c Hsaved.
  destruct Hsaved as [(msg & [= ->] & Hc)|(d'' & [= ->] & ->)].
  - apply calls_mret. exists checkpointDir.
    destruct Hc as [->|(d'' & cause & ->)].
    + right; right; right; left. exists d, d', (attempts ++ [last]).
      split; [now rewrite app_nil_r|]. split; [|discriminate].
      apply Forall_app. split; [exact Hall|]. repeat constructor.
      destruct last as [| | | | | | | | |? []| |? ? ? ? []]; try discriminate; reflexivity.
    + right; right; right; right. exists d, d', attempts, last, d'', (mkError cause).
      split; [cbn [app]; now rewrite <- app_assoc|]. split; [exact Hall|].
      split; [exact Hsucc|]. split; discriminate.
  - calm_bind. apply calls_mret. exists checkpointDir.
    right; right; right; right. exists d, d', attempts, last, d'', nil.
    split; [cbn [app]; now rewrite <- app_assoc|]. split; [exact Hall|].
    split; [exact Hsucc|]. split; reflexivity.
Qed.

End Checkpointing.

Section CheckpointRequests.
Context `{Host} `{Json} `{MetadataCodec}.

Lemma GetContainerState_inspected (nameOrID : string) :
  emitsCalls Behaviour.inspectOrDump (dockerManager.GetContainerState nameOrID) []
    (fun o calls =>
       exists r, calls = [EvContainerInspect nameOrID r] /\
         match r with
         | Fail cause => o = Done (Fail ("failed to inspect container: " +:+ cause))
         | Ok containerJSON =>
             if types.StateRunning containerJSON then
               exists state,
                 o = Done (Ok state) /\
                 ProcessPID state = types.StatePid containerJSON /\
                 Mounts state = types.cjMounts containerJSON /\
                 Name state = strings.TrimSlash (types.cjName containerJSON)
             else o = Done (Fail ("container " +:+ nameOrID +:+ " is not running"))
         end).
Proof.
  unfold dockerManager.GetContainerState.
  apply calls_invoke_bind; [reflexivity|]. intros [containerJSON|msg]; cbn [app].
  - destruct (types.StateRunning containerJSON) eqn:Hrun; cbn [negb].
    + apply calls_bind_calm.
      { destruct (time_ParseRFC3339Nano _); calm_auto. }
      intros createdTime. apply calls_mret.
      exists (Ok containerJSON). split; [reflexivity|]. rewrite Hrun.
      eexists. repeat split; auto.
    + apply calls_mret. exists (Ok containerJSON). split; [reflexivity|]. now rewrite Hrun.
  - apply calls_mret. exists (Fail msg). split; reflexivity.
Qed.

Lemma calls_quiet {A} (q : Event -> bool) (m : M A) (pre : list Event)
    (Q : Outcome A -> list Event -> Prop) :
  only (fun e => negb (q e)) m -> (forall o, Q o pre) -> emitsCalls q m pre Q.
Proof.
  intros Hm HQ s. destruct (Hm s) as (new & Htr & Hall).
  exists new. split; [exact Htr|].
  replace (List.filter q new) with (@List.nil Event); [rewrite app_nil_r; apply HQ|].
  clear -Hall. induction Hall as [|e l He _ IH]; [reflexivity|].
  cbn [List.filter]. apply negb_true_iff in He. now rewrite He.
Qed.

Lemma CheckpointProcess_requests (pid : Z) (opts : checkpoint.CheckpointOptions) :
  emitsCalls Behaviour.inspectOrDump (CRIUManager.CheckpointProcess pid opts) []
    (fun o calls =>
       (calls = [] /\ o <> Done nil) \/
       exists workFd imagesFd,
         let criuOpts :=
           rpc.setImagesDirFd (Some (int32 imagesFd))
             (rpc.setWorkDirFd (Some (int32 workFd)) (CRIUManager.dumpOpts pid opts)) in
         Behaviour.engineRequests (checkpoint.PreDump opts)
           (rpc.setTcpEstablished (Some false)
              (rpc.setTrackMem (Some (checkpoint.TrackMem opts)) criuOpts))
           criuOpts o calls).
Proof.
  assert (Hnone : forall o : Outcome error, o <> Done nil ->
            (@List.nil Event = [] /\ o <> Done nil) \/
            exists workFd imagesFd,
              let criuOpts :=
                rpc.setImagesDirFd (Some (int32 imagesFd))
                  (rpc.setWorkDirFd (Some (int32 workFd)) (CRIUManager.dumpOpts pid opts)) in
              Behaviour.engineRequests (checkpoint.PreDump opts)
                (rpc.setTcpEstablished (Some false)
                   (rpc.setTrackMem (Some (checkpoint.TrackMem opts)) criuOpts))
                criuOpts o []).
  { intros o Ho. left. now split. }
  unfold CRIUManager.CheckpointProcess.
  calm_bind.
  unfold utils.EnsureDir, utils.DirExists.
  quiet_bind as [|msg]; [now apply Hnone| |apply calls_mret; now apply Hnone].
  quiet_bind as [|msg]; [now apply Hnone| |apply calls_mret; now apply Hnone].
  quiet_bind as [workDirFd|msg]; [now apply Hnone| |apply calls_mret; now apply Hnone].
  quiet_bind as [imagesDirFd|msg]; [now apply Hnone| |apply calls_mret; now apply Hnone].
  set (criuOpts := rpc.setImagesDirFd _ _).
  assert (Htail : forall pre,
    (forall r o, Behaviour.engineRequests (checkpoint.PreDump opts)
       (rpc.setTcpEstablished (Some false)
          (rpc.setTrackMem (Some (checkpoint.TrackMem opts)) criuOpts))
       criuOpts o (pre ++ [EvDump criuOpts r])) ->
    emitsCalls Behaviour.inspectOrDump
      (log InfoLevel "Performing checkpoint...";;
       err ← invoke (fun w => criu_Dump w criuOpts) (EvDump criuOpts);
       match err with
       | mkError msg =>
           CRIUManager.logCRIUError (checkpoint.LogFile opts);;
           log WarnLevel ("go-criu library failed, trying command-line fallback: " +:+ msg);;
           cmdErr ← CRIUManager.CheckpointProcessCmd pid opts;
           match cmdErr with
           | mkError cmdMsg =>
               mret (mkError ("both go-criu and command-line CRIU failed." +:+ LF +:+
                              "Library error: " +:+ msg +:+ LF +:+
                              "Command error: " +:+ cmdMsg))
           | nil =>
               log InfoLevel "CRIU checkpoint completed successfully via command-line";;
               mret nil
           end
       | nil => log InfoLevel "CRIU checkpoint completed successfully";; mret nil
       end) pre
      (fun o calls =>
         (calls = [] /\ o <> Done nil) \/
         exists workFd imagesFd,
           let criuOpts :=
             rpc.setImagesDirFd (Some (int32 imagesFd))
               (rpc.setWorkDirFd (Some (int32 workFd)) (CRIUManager.dumpOpts pid opts)) in
           Behaviour.engineRequests (checkpoint.PreDump opts)
             (rpc.setTcpEstablished (Some false)
                (rpc.setTrackMem (Some (checkpoint.TrackMem opts)) criuOpts))
             criuOpts o calls)).
  { intros pre Hpre. calm_bind.
    apply calls_invoke_bind; [reflexivity|]. intros err.
    apply calls_quiet.
    - destruct err as [|libMsg]; [only_auto|].
      apply only_bind; [apply logCRIUError_only; reflexivity|]. intros _.
      unfold CRIUManager.CheckpointProcessCmd. only_auto.
    - intros o. right. exists workDirFd, imagesDirFd. apply Hpre. }
  destruct (checkpoint.PreDump opts) eqn:Hpd.
  - eapply calls_bind with
      (R := fun o c => exists r, o = Done r /\
              c = [EvPreDump (rpc.setTcpEstablished (Some false)
                     (rpc.setTrackMem (Some (checkpoint.TrackMem opts)) criuOpts)) r]).
    { calm_bind. apply calls_invoke; [reflexivity|]. intros r. now exists r. }
    2:{ intros c (r & [=] & _). }
    intros preDumpErr c (r & [= ->] & ->). cbn [app].
    destruct r as [|msg].
    + apply Htail. intros r o. right. now exists r.
    + apply calls_mret. right. exists workDirFd, imagesDirFd. cbv zeta.
      left. exists msg. split; [reflexivity | discriminate].
  - apply calls_bind_calm with (m := mret nil); [calm_auto|]. intros [|msg].
    + apply Htail. intros r o. now exists r.
    + apply calls_mret. left. split; [reflexivity | discriminate].
Qed.

(** X18. What [Checkpoint] asks of the runtime and, by structured call,
    of the engine. It always inspects the named container, first and
    once. When the request fails or finds the container not running, it
    asks nothing more and returns the error that says so. Otherwise it
    returns nil only after the dump was requested: the dump message
    carries the inspected process id, the switches and the log level of
    the configuration, the log file [dump.log] of the checkpoint
    directory, and as external mounts the eleven descriptors of the
    allow-list followed by [mnt[<destination>]] for the inspected
    mounts that have a source and whose destination does not begin with
    /proc, /sys or /dev; with pre-dump on, the same message with memory
    tracking on and established connections off is sent first, and the
    dump only when that succeeded. *)
Theorem Checkpoint_requests (containerName : string)
    (config : checkpointing.CheckpointConfig) :
  emitsCalls Behaviour.inspectOrDump (checkpointing.Checkpoint containerName config) []
    (Behaviour.checkpointRequests containerName config).
Proof.
  unfold checkpointing.Checkpoint.
  calm_bind.
  eapply calls_bind; [apply GetContainerState_inspected | |].
  2:{ intros c (r & -> & Hr). destruct r as [containerJSON|cause]; [|discriminate].
      destruct (types.StateRunning containerJSON); [|discriminate].
      destruct Hr as (state & [=] & _). }
  intros st c (r & -> & Hr). cbn [app].
  destruct r as [containerJSON|cause].
  2:{ injection Hr as ->. apply calls_mret. exists (Fail cause), []. split; [reflexivity|].
      split; reflexivity. }
  destruct (types.StateRunning containerJSON) eqn:Hrun.
  2:{ injection Hr as ->. apply calls_mret. exists (Ok containerJSON), [].
      split; [reflexivity|]. rewrite Hrun. split; reflexivity. }
  destruct Hr as (state & [= ->] & Hpid & Hmounts & Hname).
  assert (Hone : forall o : Outcome error, o <> Done nil ->
            Behaviour.checkpointRequests containerName config o
              [EvContainerInspect containerName (Ok containerJSON)]).
  { intros o Ho. exists (Ok containerJSON), []. split; [reflexivity|].
    rewrite Hrun. left. now split. }
  quiet_bind as short; [now apply Hone|].
  calm_bind.
  unfold utils.EnsureDir at 1, utils.DirExists.
  quiet_bind as [|msg]; [now apply Hone| |apply calls_mret; now apply Hone].
  calm_bind.
  unfold CRIUManager.ValidateMountSources, CRIUManager.ValidateMountSources_body,
    utils.neitherFileNorDir, utils.FileExists, utils.EnsureDir, utils.DirExists.
  quiet_bind as [|msg]; [now apply Hone| |apply calls_mret; now apply Hone].
  unfold checkpointManager.SaveMountMappings, utils.WriteFile, utils.EnsureDir, utils.DirExists.
  quiet_bind as [|msg]; [now apply Hone| |apply calls_mret; now apply Hone].
  unfold dockerManager.SaveContainerMetadata, utils.WriteFile, utils.EnsureDir, utils.DirExists.
  quiet_bind as [|msg]; [now apply Hone| |apply calls_mret; now apply Hone].
  set (opts := checkpointing.criuOptions _ _ _ _ _).
  assert (Hmsg : forall workFd imagesFd,
    rpc.setImagesDirFd (Some (int32 imagesFd))
      (rpc.setWorkDirFd (Some (int32 workFd))
         (CRIUManager.dumpOpts (ProcessPID state) opts)) =
    Behaviour.dumpRequest containerJSON config workFd imagesFd).
  { intros workFd imagesFd. subst opts.
    unfold Behaviour.dumpRequest, CRIUManager.dumpOpts, rpc.setImagesDirFd, rpc.setWorkDirFd.
    cbn. rewrite external_of_mounts, Hpid, Hmounts, Hname. reflexivity. }
  assert (Hreq : forall (o : Outcome error) c,
    ((c = [] /\ o <> Done nil) \/
     exists workFd imagesFd,
       let criuOpts :=
         rpc.setImagesDirFd (Some (int32 imagesFd))
           (rpc.setWorkDirFd (Some (int32 workFd))
              (CRIUManager.dumpOpts (ProcessPID state) opts)) in
       Behaviour.engineRequests (checkpoint.PreDump opts)
         (rpc.setTcpEstablished (Some false)
            (rpc.setTrackMem (Some (checkpoint.TrackMem opts)) criuOpts))
         criuOpts o c) ->
    Behaviour.checkpointRequests containerName config o
      (EvContainerInspect containerName (Ok containerJSON) :: c)).
  { intros o c [[-> Ho]|(workFd & imagesFd & Hc)]; [now apply Hone|].
    exists (Ok containerJSON), c. split; [reflexivity|]. rewrite Hrun.
    right. exists workFd, imagesFd.
    cbv zeta in Hc. rewrite Hmsg in Hc. unfold Behaviour.preDumpRequest.
    subst opts. cbn [checkpoint.PreDump checkpoint.TrackMem checkpointing.criuOptions] in Hc.
    destruct (checkpointing.cPreDump config); exact Hc. }
  assert (Hany : forall (o o' : Outcome error) pre d c,
            (o = Done nil \/ o' <> Done nil) ->
            Behaviour.engineRequests (checkpoint.PreDump opts) pre d o c ->
            Behaviour.engineRequests (checkpoint.PreDump opts) pre d o' c).
  { intros o o' pre d c Ho. unfold Behaviour.engineRequests.
    destruct (checkpoint.PreDump opts); [|auto].
    intros [(msg & -> & Hn)|Hfull]; [|now right].
    left. exists msg. split; [reflexivity|]. destruct Ho as [->|Ho]; [contradiction | exact Ho]. }
  eapply calls_bind; [apply CheckpointProcess_requests | |].
  2:{ intros c Hc. apply Hreq, Hc. }
  intros err c Hc. cbn [app].
  destruct err as [|msg].
  - destruct Hc as [[_ Hn]|(workFd & imagesFd & Hc)]; [contradiction|].
    apply calls_quiet.
    + unfold checkpointing.GetCurrentTimestamp, checkpointing.saveCheckpointMetadata,
        utils.WriteFile, utils.EnsureDir, utils.DirExists.
      apply only_bind; [only_auto|]. intros createdAt.
      destruct (json_MarshalIndent_metadata _); only_auto.
    + intros o. apply Hreq. right. exists workFd, imagesFd. cbv zeta in *.
      eapply Hany; [|exact Hc]. now left.
  - apply calls_mret. apply Hreq.
    destruct Hc as [[-> _]|(workFd & imagesFd & Hc)]; [left; split; [reflexivity|discriminate]|].
    right. exists workFd, imagesFd. cbv zeta in *.
    eapply Hany; [|exact Hc]. right. discriminate.
Qed.

End CheckpointRequests.

Section SavedAndLoaded.
Context `{Host} `{Json} `{!WriteReadLaws}.

(** X19. Loading what [SaveMountMappings] saved never fails, whatever
    bytes the strings of the mappings hold: it gives the mappings in
    their order with each byte that begins no well-formed UTF-8 encoding
    replaced by U+FFFD. So what is loaded is always valid UTF-8, and it
    is the list that was saved exactly when that list was valid UTF-8. *)
Theorem Load_after_Save_coerces (mappings : list MountMapping) (filePath : string)
    (w : world) (s : State) :
  run (checkpointManager.SaveMountMappings mappings filePath) w = (Done nil, s) ->
  let loaded := map Behaviour.coercedMapping mappings in
  (run (checkpointManager.LoadMountMappings filePath) (now s)).1 = Done (Ok loaded) /\
  forallb Spec.validUTF8 loaded = true /\
  (loaded = mappings <-> forallb Spec.validUTF8 mappings = true).
Proof.
  intros Hsave. cbv zeta. split; [|split].
  - destruct (Unmarshal_MarshalIndent_any mappings) as (data & Hmarshal & Hunmarshal).
    unfold run, checkpointManager.SaveMountMappings in Hsave. rewrite Hmarshal in Hsave.
    apply WriteFile_stored in Hsave as [Hread Hstat].
    unfold run. rewrite (LoadMountMappings_run _ data) by assumption.
    now rewrite Hunmarshal.
  - rewrite forallb_forall. intros m' Hin. apply in_map_iff in Hin as (m & <- & _).
    apply coercedMapping_valid.
  - apply coercedMappings_id_iff.
Qed.

End SavedAndLoaded.

Lemma Load_after_Save_coerces_witness :
  let path := "/out/c1/checkpoint/mount_mappings.json" in
  let saved := run (H := Toy.host)
                   (checkpointManager.SaveMountMappings [latin1Mount; dataMount] path)
                   (Toy.checkpointed nil nil nil) in
  let loaded := map Behaviour.coercedMapping [latin1Mount; dataMount] in
  saved = (Done nil, saved.2) /\
  (run (H := Toy.host) (checkpointManager.LoadMountMappings path) (now saved.2)).1
    = Done (Ok loaded) /\
  forallb Spec.validUTF8 loaded = true /\
  (loaded = [latin1Mount; dataMount]
   <-> forallb Spec.validUTF8 [latin1Mount; dataMount] = true).
Proof.
  cbv zeta. split; [vm_compute; reflexivity|].
  apply (@Load_after_Save_coerces Toy.host Toy_writes [latin1Mount; dataMount]
           "/out/c1/checkpoint/mount_mappings.json" (Toy.checkpointed nil nil nil)).
  vm_compute; reflexivity.
Defined.

(** ** The requests of a restore *)

Section RestoreProtocol.
Context `{Host} `{Json}.

(** The requests of a run from a state that holds none yet. *)
Lemma calls_at {A} (q : Event -> bool) (m : M A) (Q : Outcome A -> list Event -> Prop)
    (s : State) :
  emitsCalls q m [] Q -> List.filter q (trace s) = [] ->
  Q (m s).1 (List.filter q (trace (m s).2)).
Proof.
  intros Hm Hs. destruct (Hm s) as (new & Htr & HQ).
  rewrite Htr, List.filter_app, Hs. exact HQ.
Qed.

(** [GetCheckpointInfo] and [LoadMountMappings] read, and do nothing else. *)
Lemma GetCheckpointInfo_reads (dir : string) (s : State) :
  checkpointManager.GetCheckpointInfo dir s =
  ((run (checkpointManager.GetCheckpointInfo dir) (now s)).1, s).
Proof.
  destruct s as [w0 tr].
  unfold run, checkpointManager.GetCheckpointInfo, utils.FileExists, utils.ReadFile.
  rewrite !bind_run. unfold observe, mret, M_ret. cbn [now negb fst snd].
  destruct (os_Stat w0 (filepath_Join [dir; "checkpoint_metadata.json"]));
    cbn [negb]; try reflexivity;
    (rewrite !bind_run; cbn [now fst snd];
     destruct (os_ReadFile w0 (filepath_Join [dir; "checkpoint_metadata.json"]))
       as [data|msg]; [destruct (json_Unmarshal_metadata data)|]; reflexivity).
Qed.

Lemma LoadMountMappings_reads (filePath : string) (s : State) :
  checkpointManager.LoadMountMappings filePath s =
  ((run (checkpointManager.LoadMountMappings filePath) (now s)).1, s).
Proof.
  destruct s as [w0 tr].
  unfold run, checkpointManager.LoadMountMappings, utils.FileExists, utils.ReadFile.
  rewrite !bind_run. unfold observe, mret, M_ret. cbn [now negb fst snd].
  destruct (os_Stat w0 filePath); cbn [negb]; try reflexivity;
    (rewrite !bind_run; cbn [now fst snd];
     destruct (os_ReadFile w0 filePath) as [data|msg];
       [destruct (json.Unmarshal_mappings data)|]; reflexivity).
Qed.

Lemma CreateRestoreContainer_requests (originalState : ContainerState) (newName : string) :
  emitsCalls Spec.reachesRuntimeOrEngine
    (dockerManager.CreateRestoreContainer originalState newName) []
    (fun o calls =>
       (calls = [] /\ o = Panicked) \/
       exists containerConfig hostConfig r,
         Config originalState = Some containerConfig /\
         HostConfig originalState = Some hostConfig /\
         calls = [EvContainerCreate
                    (dockerManager.restoreConfig (Image originalState) containerConfig)
                    (dockerManager.restoreHostConfig hostConfig) newName r] /\
         forall id, o = Done (Ok id) -> r = Ok id).
Proof.
  unfold dockerManager.CreateRestoreContainer.
  destruct (Config originalState) as [c|]; [|intros s; exists []; split; [now rewrite app_nil_r | left; now split]].
  destruct (HostConfig originalState) as [hc|]; [|intros s; exists []; split; [now rewrite app_nil_r | left; now split]].
  apply calls_invoke_bind; [reflexivity|]. intros [respID|msg]; cbn [app].
  - quiet_bind as short; [right; exists c, hc, (Ok respID); repeat split; discriminate|].
    calm_bind. apply calls_mret. right. exists c, hc, (Ok respID). repeat split.
    now intros id [= ->].
  - apply calls_mret. right. exists c, hc, (Fail msg). repeat split. discriminate.
Qed.

Lemma StartContainer_requests (containerID : string) :
  emitsCalls Spec.reachesRuntimeOrEngine (dockerManager.StartContainer containerID) []
    (fun o calls =>
       exists r, calls = [EvContainerStart containerID r] /\ o <> Panicked /\
                 (o = Done nil -> r = nil)).
Proof.
  unfold dockerManager.StartContainer.
  apply calls_invoke_bind; [reflexivity|]. intros [|msg]; cbn [app];
    apply calls_mret; eexists; (split; [reflexivity|]); split; discriminate || reflexivity.
Qed.

Lemma GetContainerPID_requests (containerID : string) :
  emitsCalls Spec.reachesRuntimeOrEngine (dockerManager.GetContainerPID containerID) []
    (fun o calls =>
       exists r, calls = [EvContainerInspect containerID r] /\ o <> Panicked /\
         forall pid, o = Done (Ok pid) ->
           exists containerJSON,
             r = Ok containerJSON /\ (types.StatePid containerJSON =? 0)%Z = false).
Proof.
  unfold dockerManager.GetContainerPID.
  apply calls_invoke_bind; [reflexivity|]. intros [containerJSON|msg]; cbn [app].
  - destruct (types.StatePid containerJSON =? 0)%Z eqn:Hpid; apply calls_mret;
      eexists; (split; [reflexivity|]); (split; [discriminate|]).
    + discriminate.
    + intros pid _. now exists containerJSON.
  - apply calls_mret. eexists. split; [reflexivity|]. split; discriminate.
Qed.

Lemma StopContainer_requests (containerID : string) (timeout : option Z) :
  emitsCalls Spec.reachesRuntimeOrEngine (dockerManager.StopContainer containerID timeout) []
    (fun o calls => exists r, calls = [EvContainerStop containerID timeout r] /\ o <> Panicked).
Proof.
  unfold dockerManager.StopContainer.
  apply calls_invoke_bind; [reflexivity|]. intros [|msg]; cbn [app];
    apply calls_mret; eexists; (split; [reflexivity | discriminate]).
Qed.

Lemma verifyRestoration_requests (containerName : string) :
  emitsCalls Spec.reachesRuntimeOrEngine (restoreManager.verifyRestoration containerName) []
    (fun _ calls =>
       exists r,
         calls = [EvContainerInspect containerName r] \/
         exists containerJSON logs,
           r = Ok containerJSON /\ types.StateRunning containerJSON = true /\
           calls = [EvContainerInspect containerName r;
                    EvContainerLogs (types.cjID containerJSON) "10" logs]).
Proof.
  unfold restoreManager.verifyRestoration, dockerManager.GetContainerState.
  calm_bind.
  eapply calls_bind with
    (R := fun o c => exists r, c = [EvContainerInspect containerName r] /\
            ((exists msg, o = Done (Fail msg)) \/
             exists containerJSON state,
               r = Ok containerJSON /\ o = Done (Ok state) /\
               types.StateRunning containerJSON = true /\
               ID state = types.cjID containerJSON)).
  { apply calls_invoke_bind; [reflexivity|]. intros [containerJSON|msg]; cbn [app].
    - destruct (types.StateRunning containerJSON) eqn:Hrun; cbn [negb].
      + apply calls_bind_calm.
        { destruct (time_ParseRFC3339Nano _); calm_auto. }
        intros createdTime. apply calls_mret.
        exists (Ok containerJSON). split; [reflexivity|]. right.
        eexists containerJSON, _. repeat split; auto.
      + apply calls_mret. exists (Ok containerJSON). split; [reflexivity|]. left. eauto.
    - apply calls_mret. exists (Fail msg). split; [reflexivity|]. left. eauto. }
  2:{ intros c (r & -> & _). exists r. now left. }
  intros st c (r & -> & Hr). cbn [app].
  destruct Hr as [[msg [= ->]] | (containerJSON & state & -> & [= ->] & Hrun & Hid)].
  { calm_bind. apply calls_mret. exists r. now left. }
  assert (Hone : exists r,
            [EvContainerInspect containerName (Ok containerJSON)]
              = [EvContainerInspect containerName r] \/
            exists containerJSON0 logs,
              r = Ok containerJSON0 /\ types.StateRunning containerJSON0 = true /\
              [EvContainerInspect containerName (Ok containerJSON)]
                = [EvContainerInspect containerName r;
                   EvContainerLogs (types.cjID containerJSON0) "10" logs]).
  { eexists. now left. }
  calm_bind. calm_bind. quiet_bind as short. calm_bind. calm_bind. calm_bind.
  unfold dockerManager.GetContainerLogs.
  eapply calls_bind with
    (R := fun o c => o <> Panicked /\ exists logs, c = [EvContainerLogs (ID state) "10" logs]).
  { apply calls_invoke_bind; [reflexivity|]. intros [logs|msg]; cbn [app];
      apply calls_mret; (split; [discriminate | eauto]). }
  2:{ intros c [Hp _]. now contradiction Hp. }
  intros logs c [_ [logs' ->]]. cbn [app].
  apply calls_quiet.
  { apply only_bind; [|intros ?; only_auto].
    destruct logs as [logs|msg]; [destruct (nonEmpty logs)|]; only_auto. }
  intros _. exists (Ok containerJSON). right. exists containerJSON, logs'.
  rewrite Hid. auto.
Qed.

(** X20. The requests a run of [Restore] makes of the runtime and the
    engine. It makes none, and then does not return nil; or they are the
    first ones of this script, each made only when the one before
    succeeded: create the container under the new name, from the
    configuration of the container state that the checkpoint metadata
    of the directory hold; start the container that was created;
    inspect it (it must have a process); stop it with a timeout of 5,
    whatever comes of that; have the engine restore with the switches
    of the configuration, the log file [restore.log] and, as external
    mounts, the restore arguments followed by the mount maps of the
    mappings that [LoadMountMappings] reads from mount_mappings.json of
    the directory; inspect the new name; fetch the last 10 log lines of
    what was found running. [Restore] returns nil only after the engine
    restore and the inspect request that follows it. It asks for
    nothing else: no dump and no subprocess. *)
Theorem Restore_requests (config : restore.RestoreConfig) (w : world) :
  let r := run (restoreManager.Restore config) w in
  let calls := List.filter Spec.reachesRuntimeOrEngine (trace r.2) in
  (calls = [] /\ r.1 <> Done nil) \/
  exists metadata originalState containerConfig hostConfig mappings answers,
    (run (checkpointManager.GetCheckpointInfo (restore.CheckpointDir config)) w).1
      = Done (Ok metadata) /\
    checkpoint.ContainerState_ metadata = Some originalState /\
    Config originalState = Some containerConfig /\
    HostConfig originalState = Some hostConfig /\
    (run (checkpointManager.LoadMountMappings
            (filepath_Join [restore.CheckpointDir config; "mount_mappings.json"])) w).1
      = Done (Ok mappings) /\
    Behaviour.followsScript
      (Behaviour.restoreScript config
         (dockerManager.restoreConfig (Image originalState) containerConfig)
         (dockerManager.restoreHostConfig hostConfig) mappings answers)
      calls /\
    (r.1 = Done nil -> (6 <= length calls)%nat).
Proof.
  cbv zeta.
  set (Q := fun (o : Outcome error) (calls : list Event) =>
    (calls = [] /\ o <> Done nil) \/
    exists metadata originalState containerConfig hostConfig mappings answers,
      (run (checkpointManager.GetCheckpointInfo (restore.CheckpointDir config)) w).1
        = Done (Ok metadata) /\
      checkpoint.ContainerState_ metadata = Some originalState /\
      Config originalState = Some containerConfig /\
      HostConfig originalState = Some hostConfig /\
      (run (checkpointManager.LoadMountMappings
              (filepath_Join [restore.CheckpointDir config; "mount_mappings.json"])) w).1
        = Done (Ok mappings) /\
      Behaviour.followsScript
        (Behaviour.restoreScript config
           (dockerManager.restoreConfig (Image originalState) containerConfig)
           (dockerManager.restoreHostConfig hostConfig) mappings answers)
        calls /\
      (o = Done nil -> (6 <= length calls)%nat)).
  change (Q (run (restoreManager.Restore config) w).1
            (List.filter Spec.reachesRuntimeOrEngine
               (trace (run (restoreManager.Restore config) w).2))).
  assert (Hnone : forall o : Outcome error, o <> Done nil -> Q o []).
  { intros o Ho. left. now split. }
  assert (Hlogs : forall l, Forall (fun e => Behaviour.isLog e = true) l ->
                            List.filter Spec.reachesRuntimeOrEngine l = []).
  { intros l Hl. apply (only_filter_nil Behaviour.isLog); [|exact Hl].
    now intros []. }
  unfold run, restoreManager.Restore.
  rewrite bind_run. cbn [log now trace app].
  set (s0 := mkState w _).
  rewrite bind_run.
  destruct (ValidateCheckpoint_run (restore.CheckpointDir config) s0)
    as (_ & Hnow & new & Htrace & Hnew).
  destruct (checkpointManager.ValidateCheckpoint (restore.CheckpointDir config) s0)
    as [o s1]. cbn [fst snd] in Hnow, Htrace.
  assert (Hw : now s1 = w) by exact Hnow.
  assert (Hquiet : List.filter Spec.reachesRuntimeOrEngine (trace s1) = []).
  { rewrite Htrace. apply Hlogs. apply Forall_app. split; [|exact Hnew]. repeat constructor. }
  clear Hnow Htrace Hnew new. clearbody s0. clear s0.
  destruct o as [[|msg]|]; cbv beta iota; cbn [mret M_ret fst snd];
    [|rewrite Hquiet; apply Hnone; discriminate..].
  rewrite bind_run, GetCheckpointInfo_reads, Hw.
  destruct (run (checkpointManager.GetCheckpointInfo (restore.CheckpointDir config)) w).1
    as [[metadata|msg]|] eqn:Hmeta; cbv beta iota; cbn [mret M_ret fst snd];
    [|rewrite Hquiet; apply Hnone; discriminate..].
  destruct (checkpoint.ContainerState_ metadata) as [originalState|] eqn:Hstate;
    [|cbn [panic fst snd]; rewrite Hquiet; apply Hnone; discriminate].
  rewrite bind_run.
  assert (Hslice : sliceTo 12 (ID originalState) s1
                   = (Done (substring 0 12 (ID originalState)), s1) \/
                   sliceTo 12 (ID originalState) s1 = (Panicked, s1)).
  { unfold sliceTo. destruct (12 <=? String.length (ID originalState))%nat; auto. }
  destruct Hslice as [Hslice|Hslice]; rewrite Hslice; cbv beta iota; cbn [fst snd];
    [|rewrite Hquiet; apply Hnone; discriminate].
  rewrite bind_run. cbn [log].
  set (s2 := mkState (now s1) _).
  assert (Hw2 : now s2 = w) by exact Hw.
  assert (Hquiet2 : List.filter Spec.reachesRuntimeOrEngine (trace s2) = []).
  { subst s2. cbn [trace]. rewrite List.filter_app, Hquiet. reflexivity. }
  clearbody s2. clear Hslice. clear s1 Hw Hquiet.
  rewrite bind_run, LoadMountMappings_reads, Hw2.
  destruct (run (checkpointManager.LoadMountMappings
                   (filepath_Join [restore.CheckpointDir config; "mount_mappings.json"])) w).1
    as [[mountMappings|msg]|] eqn:Hload; cbv beta iota; cbn [mret M_ret fst snd];
    [|rewrite Hquiet2; apply Hnone; discriminate..].
  apply calls_at; [|exact Hquiet2].
  clear s2 Hw2 Hquiet2.
  unfold restoreManager.validateRestoreEnvironment, restoreManager.checkPtraceConflicts,
    utils.neitherFileNorDir, utils.DirExists, utils.FileExists.
  quiet_bind as [|msg]; [apply Hnone; discriminate| |apply calls_mret, Hnone; discriminate].
  eapply calls_bind; [apply CreateRestoreContainer_requests | |].
  2:{ intros c [[-> _]|(cc & hc & r & Hcc & Hhc & -> & _)]; [apply Hnone; discriminate|].
      right. exists metadata, originalState, cc, hc, mountMappings,
        (Behaviour.mkRestoreAnswers r nil (Fail "") nil 0 nil (Fail "") (Fail "")).
      repeat (split; [assumption || reflexivity|]).
      split; [|discriminate]. exists 1%nat. split; [reflexivity | constructor]. }
  intros created c [[_ [=]]|(cc & hc & r & Hcc & Hhc & -> & Hr)]. cbn [app].
  assert (Hstage : forall (ans : Behaviour.RestoreAnswers) (n : nat) (o : Outcome error),
            Forall (fun step => snd step = true)
                   (firstn (Nat.pred n)
                      (Behaviour.restoreScript config
                         (dockerManager.restoreConfig (Image originalState) cc)
                         (dockerManager.restoreHostConfig hc) mountMappings ans)) ->
            (n <= 7)%nat ->
            (o <> Done nil \/ (6 <= n)%nat) ->
            Q o (map fst (firstn n
                   (Behaviour.restoreScript config
                      (dockerManager.restoreConfig (Image originalState) cc)
                      (dockerManager.restoreHostConfig hc) mountMappings ans)))).
  { intros ans n o Hall Hn Ho. right.
    exists metadata, originalState, cc, hc, mountMappings, ans.
    repeat (split; [assumption || reflexivity|]).
    split; [exists n; now split|].
    intros ->. destruct Ho as [Ho|Ho]; [now contradiction Ho|].
    rewrite length_map, length_firstn. cbn [Behaviour.restoreScript length]. lia. }
  destruct created as [containerID|msg].
  2:{ apply calls_mret.
      apply (Hstage (Behaviour.mkRestoreAnswers r nil (Fail "") nil 0 nil (Fail "") (Fail ""))
               1%nat); [constructor | lia | left; discriminate]. }
  rewrite (Hr containerID eq_refl). clear r Hr.
  assert (H1 : forall o : Outcome error, o <> Done nil ->
            Q o [EvContainerCreate (dockerManager.restoreConfig (Image originalState) cc)
                   (dockerManager.restoreHostConfig hc) (restore.NewContainerName config)
                   (Ok containerID)]).
  { intros o Ho.
    apply (Hstage (Behaviour.mkRestoreAnswers (Ok containerID) nil (Fail "") nil 0 nil
                     (Fail "") (Fail "")) 1%nat); [constructor | lia | now left]. }
  quiet_bind as short'; [apply H1; discriminate|].
  calm_bind.
  unfold restoreManager.prepareMountNamespace, utils.neitherFileNorDir, utils.EnsureDir,
    utils.DirExists, utils.FileExists.
  quiet_bind as [|msg]; [apply H1; discriminate| |apply calls_mret, H1; discriminate].
  eapply calls_bind; [apply StartContainer_requests | |].
  2:{ intros c (r & _ & Hp & _). now contradiction Hp. }
  intros startErr c (started & -> & _ & Hstarted). cbn [app].
  destruct startErr as [|msg].
  2:{ apply calls_mret.
      apply (Hstage (Behaviour.mkRestoreAnswers (Ok containerID) started (Fail "") nil 0 nil
                       (Fail "") (Fail "")) 2%nat);
        [repeat constructor | lia | left; discriminate]. }
  rewrite (Hstarted eq_refl). clear started Hstarted.
  eapply calls_bind; [apply GetContainerPID_requests | |].
  2:{ intros c (r & _ & Hp & _). now contradiction Hp. }
  intros newPID c (inspected & -> & _ & Hinspected). cbn [app].
  destruct newPID as [newPID|msg].
  2:{ apply calls_mret.
      apply (Hstage (Behaviour.mkRestoreAnswers (Ok containerID) nil inspected nil 0 nil
                       (Fail "") (Fail "")) 3%nat);
        [repeat constructor | lia | left; discriminate]. }
  destruct (Hinspected newPID eq_refl) as (containerJSON & -> & Hpid). clear Hinspected.
  calm_bind.
  eapply calls_bind; [apply StopContainer_requests | |].
  2:{ intros c (r & _ & Hp). now contradiction Hp. }
  intros stopErr c (stopped & -> & _). cbn [app].
  assert (H4 : forall o : Outcome error, o <> Done nil ->
            Q o [EvContainerCreate (dockerManager.restoreConfig (Image originalState) cc)
                   (dockerManager.restoreHostConfig hc) (restore.NewContainerName config)
                   (Ok containerID);
                 EvContainerStart containerID nil;
                 EvContainerInspect containerID (Ok containerJSON);
                 EvContainerStop containerID (Some 5%Z) stopped]).
  { intros o Ho.
    apply (Hstage (Behaviour.mkRestoreAnswers (Ok containerID) nil (Ok containerJSON) stopped
                     0 nil (Fail "") (Fail "")) 4%nat); [|lia | now left].
    repeat constructor. cbn. now rewrite Hpid. }
  apply calls_bind_calm; [destruct stopErr; calm_auto|]. intros _.
  unfold CRIUManager.CreateExtMountMapFile, utils.WriteFile, utils.EnsureDir, utils.DirExists.
  quiet_bind as [|msg]; [apply H4; discriminate| |apply calls_mret, H4; discriminate].
  eapply calls_bind; [apply RestoreProcess_requests | |].
  2:{ intros c [[-> _]|(fd & err & _ & [=])]. apply H4. discriminate. }
  intros restoreErr c Hc. cbn [app].
  destruct Hc as [[-> Hnot]|(fd & restored & -> & [= ->])].
  { destruct restoreErr as [|msg]; [now contradiction Hnot|].
    apply calls_mret, H4. discriminate. }
  destruct restored as [|msg].
  2:{ apply calls_mret.
      apply (Hstage (Behaviour.mkRestoreAnswers (Ok containerID) nil (Ok containerJSON) stopped
                       fd (mkError msg) (Fail "") (Fail "")) 5%nat);
        [|lia | left; discriminate].
      repeat constructor. cbn. now rewrite Hpid. }
  assert (Hverified : forall o c,
            (exists r,
               c = [EvContainerInspect (restore.NewContainerName config) r] \/
               exists containerJSON' logs,
                 r = Ok containerJSON' /\ types.StateRunning containerJSON' = true /\
                 c = [EvContainerInspect (restore.NewContainerName config) r;
                      EvContainerLogs (types.cjID containerJSON') "10" logs]) ->
            Q o ([EvContainerCreate (dockerManager.restoreConfig (Image originalState) cc)
                    (dockerManager.restoreHostConfig hc) (restore.NewContainerName config)
                    (Ok containerID);
                  EvContainerStart containerID nil;
                  EvContainerInspect containerID (Ok containerJSON);
                  EvContainerStop containerID (Some 5%Z) stopped;
                  EvRestore (Behaviour.restoreMessage
                     {| checkpoint.rWorkDir := restore.CheckpointDir config;
                        checkpoint.rImagesDir :=
                          filepath_Join [restore.CheckpointDir config; "images"];
                        checkpoint.rLogFile :=
                          filepath_Join [restore.CheckpointDir config; "restore.log"];
                        checkpoint.rLogLevel := restore.LogLevel config;
                        checkpoint.rExternal :=
                          restoreManager.buildExternalMountArgs mountMappings
                            (restore.SkipMounts config);
                        checkpoint.ExtMountMap := CRIUManager.BuildExtMountMapArgs mountMappings;
                        checkpoint.SkipMnt := restore.SkipMounts config;
                        checkpoint.PidFile := "";
                        checkpoint.rManageCgroups := restore.ManageCgroups config;
                        checkpoint.rTcpEstablished := restore.TcpEstablished config;
                        checkpoint.RestoreSibling := restore.RestoreSibling config;
                        checkpoint.rShell := restore.Shell config;
                        checkpoint.EmptyNs := 64 |} fd) nil] ++ c)).
  { intros o c [r [->|(containerJSON' & logs & -> & Hrun & ->)]].
    - apply (Hstage (Behaviour.mkRestoreAnswers (Ok containerID) nil (Ok containerJSON) stopped
                       fd nil r (Fail "")) 6%nat); [|lia | right; lia].
      repeat constructor. cbn. now rewrite Hpid.
    - apply (Hstage (Behaviour.mkRestoreAnswers (Ok containerID) nil (Ok containerJSON) stopped
                       fd nil (Ok containerJSON') logs) 7%nat); [|lia | right; lia].
      repeat constructor; cbn; [now rewrite Hpid | exact Hrun]. }
  eapply calls_bind; [apply verifyRestoration_requests | |].
  2:{ intros c Hc. apply Hverified, Hc. }
  intros verr c Hc. apply calls_quiet; [|intros o; apply Hverified, Hc].
  destruct verr; only_auto.
Qed.

End RestoreProtocol.
